(** * CRM360 tracker (crm360_tracker/__init__.py): payload shaping and transport

    A shallow embedding of the class [CRM360Tracker] and of the library
    functions it calls, followed by the properties of the specification.

    Modelling choices, all visible in the definitions below:
    - a Python [str] is a Rocq [string] holding the bytes of its UTF-8
      encoding, so [str.encode] is the identity on the bytes; [str.lower]
      decodes the code points and lower-cases them by the Unicode database
      of CPython 3.11, final sigma included;
    - a Python [dict] with string keys is a [gmap string value]: equality of
      dicts does not depend on insertion order, and neither does any property
      stated here;
    - a [float] is the rational it denotes, and a product of floats is
      rounded to the nearest double;
    - [time.time], [uuid.uuid4] and [requests.post] are read from a [World]
      that every method threads through; a method can also raise, so methods
      live in a state-and-exception monad over the tracker object and the
      world;
    - [json.dumps] and [print], the diagnostics of [_send], can raise; which
      calls do is told by a [Console], an implicit argument of every method.
      A statement that names no console is about [reliable_console], on
      which none does; the statements about [_send] itself are about every
      console;
    - [hashlib.sha256] is SHA-256 as in FIPS 180-4, and [urllib.parse.urlparse]
      follows CPython 3.11; the two checks of [urlsplit] that call into
      [ipaddress] and [unicodedata] are parameters of the development. *)

From Stdlib Require Import ZArith QArith Qround Qpower String Ascii List Lia Lqa.
From stdpp Require Import gmap strings list fin_maps.

Set Warnings "-register-all".
#[local] Open Scope string_scope.

(** ** The Unicode character database

    The case mappings and case properties of Unicode 14.0.0, the version
    CPython 3.11 carries, as [str.lower] reads them: the code points with a
    lower-case form of their own, the cased ones and the case-ignorable
    ones. *)

Module Unicode.

Definition lower_ranges : list (Z * Z * Z * Z) :=
  [(0x41, 0x5A, 1, 32); (0xC0, 0xD6, 1, 32); (0xD8, 0xDE, 1, 32); (0x100, 0x12E, 2, 1);
   (0x132, 0x136, 2, 1); (0x139, 0x147, 2, 1); (0x14A, 0x176, 2, 1);
   (0x178, 0x178, 1, -121); (0x179, 0x17D, 2, 1); (0x181, 0x181, 1, 210);
   (0x182, 0x184, 2, 1); (0x186, 0x186, 1, 206); (0x187, 0x187, 1, 1);
   (0x189, 0x18A, 1, 205); (0x18B, 0x18B, 1, 1); (0x18E, 0x18E, 1, 79);
   (0x18F, 0x18F, 1, 202); (0x190, 0x190, 1, 203); (0x191, 0x191, 1, 1);
   (0x193, 0x193, 1, 205); (0x194, 0x194, 1, 207); (0x196, 0x196, 1, 211);
   (0x197, 0x197, 1, 209); (0x198, 0x198, 1, 1); (0x19C, 0x19C, 1, 211);
   (0x19D, 0x19D, 1, 213); (0x19F, 0x19F, 1, 214); (0x1A0, 0x1A4, 2, 1);
   (0x1A6, 0x1A6, 1, 218); (0x1A7, 0x1A7, 1, 1); (0x1A9, 0x1A9, 1, 218);
   (0x1AC, 0x1AC, 1, 1); (0x1AE, 0x1AE, 1, 218); (0x1AF, 0x1AF, 1, 1);
   (0x1B1, 0x1B2, 1, 217); (0x1B3, 0x1B5, 2, 1); (0x1B7, 0x1B7, 1, 219);
   (0x1B8, 0x1B8, 1, 1); (0x1BC, 0x1BC, 1, 1); (0x1C4, 0x1C4, 1, 2);
   (0x1C5, 0x1C5, 1, 1); (0x1C7, 0x1C7, 1, 2); (0x1C8, 0x1C8, 1, 1);
   (0x1CA, 0x1CA, 1, 2); (0x1CB, 0x1DB, 2, 1); (0x1DE, 0x1EE, 2, 1);
   (0x1F1, 0x1F1, 1, 2); (0x1F2, 0x1F4, 2, 1); (0x1F6, 0x1F6, 1, -97);
   (0x1F7, 0x1F7, 1, -56); (0x1F8, 0x21E, 2, 1); (0x220, 0x220, 1, -130);
   (0x222, 0x232, 2, 1); (0x23A, 0x23A, 1, 10795); (0x23B, 0x23B, 1, 1);
   (0x23D, 0x23D, 1, -163); (0x23E, 0x23E, 1, 10792); (0x241, 0x241, 1, 1);
   (0x243, 0x243, 1, -195); (0x244, 0x244, 1, 69); (0x245, 0x245, 1, 71);
   (0x246, 0x24E, 2, 1); (0x370, 0x372, 2, 1); (0x376, 0x376, 1, 1);
   (0x37F, 0x37F, 1, 116); (0x386, 0x386, 1, 38); (0x388, 0x38A, 1, 37);
   (0x38C, 0x38C, 1, 64); (0x38E, 0x38F, 1, 63); (0x391, 0x3A1, 1, 32);
   (0x3A3, 0x3AB, 1, 32); (0x3CF, 0x3CF, 1, 8); (0x3D8, 0x3EE, 2, 1);
   (0x3F4, 0x3F4, 1, -60); (0x3F7, 0x3F7, 1, 1); (0x3F9, 0x3F9, 1, -7);
   (0x3FA, 0x3FA, 1, 1); (0x3FD, 0x3FF, 1, -130); (0x400, 0x40F, 1, 80);
   (0x410, 0x42F, 1, 32); (0x460, 0x480, 2, 1); (0x48A, 0x4BE, 2, 1);
   (0x4C0, 0x4C0, 1, 15); (0x4C1, 0x4CD, 2, 1); (0x4D0, 0x52E, 2, 1);
   (0x531, 0x556, 1, 48); (0x10A0, 0x10C5, 1, 7264); (0x10C7, 0x10C7, 1, 7264);
   (0x10CD, 0x10CD, 1, 7264); (0x13A0, 0x13EF, 1, 38864); (0x13F0, 0x13F5, 1, 8);
   (0x1C90, 0x1CBA, 1, -3008); (0x1CBD, 0x1CBF, 1, -3008); (0x1E00, 0x1E94, 2, 1);
   (0x1E9E, 0x1E9E, 1, -7615); (0x1EA0, 0x1EFE, 2, 1); (0x1F08, 0x1F0F, 1, -8);
   (0x1F18, 0x1F1D, 1, -8); (0x1F28, 0x1F2F, 1, -8); (0x1F38, 0x1F3F, 1, -8);
   (0x1F48, 0x1F4D, 1, -8); (0x1F59, 0x1F5F, 2, -8); (0x1F68, 0x1F6F, 1, -8);
   (0x1F88, 0x1F8F, 1, -8); (0x1F98, 0x1F9F, 1, -8); (0x1FA8, 0x1FAF, 1, -8);
   (0x1FB8, 0x1FB9, 1, -8); (0x1FBA, 0x1FBB, 1, -74); (0x1FBC, 0x1FBC, 1, -9);
   (0x1FC8, 0x1FCB, 1, -86); (0x1FCC, 0x1FCC, 1, -9); (0x1FD8, 0x1FD9, 1, -8);
   (0x1FDA, 0x1FDB, 1, -100); (0x1FE8, 0x1FE9, 1, -8); (0x1FEA, 0x1FEB, 1, -112);
   (0x1FEC, 0x1FEC, 1, -7); (0x1FF8, 0x1FF9, 1, -128); (0x1FFA, 0x1FFB, 1, -126);
   (0x1FFC, 0x1FFC, 1, -9); (0x2126, 0x2126, 1, -7517);
   (0x212A, 0x212A, 1, -8383); (0x212B, 0x212B, 1, -8262); (0x2132, 0x2132, 1, 28);
   (0x2160, 0x216F, 1, 16); (0x2183, 0x2183, 1, 1); (0x24B6, 0x24CF, 1, 26);
   (0x2C00, 0x2C2F, 1, 48); (0x2C60, 0x2C60, 1, 1); (0x2C62, 0x2C62, 1, -10743);
   (0x2C63, 0x2C63, 1, -3814); (0x2C64, 0x2C64, 1, -10727); (0x2C67, 0x2C6B, 2, 1);
   (0x2C6D, 0x2C6D, 1, -10780); (0x2C6E, 0x2C6E, 1, -10749);
   (0x2C6F, 0x2C6F, 1, -10783); (0x2C70, 0x2C70, 1, -10782);
   (0x2C72, 0x2C72, 1, 1); (0x2C75, 0x2C75, 1, 1); (0x2C7E, 0x2C7F, 1, -10815);
   (0x2C80, 0x2CE2, 2, 1); (0x2CEB, 0x2CED, 2, 1); (0x2CF2, 0x2CF2, 1, 1);
   (0xA640, 0xA66C, 2, 1); (0xA680, 0xA69A, 2, 1); (0xA722, 0xA72E, 2, 1);
   (0xA732, 0xA76E, 2, 1); (0xA779, 0xA77B, 2, 1); (0xA77D, 0xA77D, 1, -35332);
   (0xA77E, 0xA786, 2, 1); (0xA78B, 0xA78B, 1, 1); (0xA78D, 0xA78D, 1, -42280);
   (0xA790, 0xA792, 2, 1); (0xA796, 0xA7A8, 2, 1); (0xA7AA, 0xA7AA, 1, -42308);
   (0xA7AB, 0xA7AB, 1, -42319); (0xA7AC, 0xA7AC, 1, -42315);
   (0xA7AD, 0xA7AD, 1, -42305); (0xA7AE, 0xA7AE, 1, -42308);
   (0xA7B0, 0xA7B0, 1, -42258); (0xA7B1, 0xA7B1, 1, -42282);
   (0xA7B2, 0xA7B2, 1, -42261); (0xA7B3, 0xA7B3, 1, 928); (0xA7B4, 0xA7C2, 2, 1);
   (0xA7C4, 0xA7C4, 1, -48); (0xA7C5, 0xA7C5, 1, -42307);
   (0xA7C6, 0xA7C6, 1, -35384); (0xA7C7, 0xA7C9, 2, 1); (0xA7D0, 0xA7D0, 1, 1);
   (0xA7D6, 0xA7D8, 2, 1); (0xA7F5, 0xA7F5, 1, 1); (0xFF21, 0xFF3A, 1, 32);
   (0x10400, 0x10427, 1, 40); (0x104B0, 0x104D3, 1, 40); (0x10570, 0x1057A, 1, 39);
   (0x1057C, 0x1058A, 1, 39); (0x1058C, 0x10592, 1, 39); (0x10594, 0x10595, 1, 39);
   (0x10C80, 0x10CB2, 1, 64); (0x118A0, 0x118BF, 1, 32); (0x16E40, 0x16E5F, 1, 32);
   (0x1E900, 0x1E921, 1, 34)]%Z.

Definition cased_ranges : list (Z * Z) :=
  [(0x41, 0x5A); (0x61, 0x7A); (0xAA, 0xAA); (0xB5, 0xB5); (0xBA, 0xBA); (0xC0, 0xD6);
   (0xD8, 0xF6); (0xF8, 0x1BA); (0x1BC, 0x1BF); (0x1C4, 0x293); (0x295, 0x2B8);
   (0x2C0, 0x2C1); (0x2E0, 0x2E4); (0x345, 0x345); (0x370, 0x373); (0x376, 0x377);
   (0x37A, 0x37D); (0x37F, 0x37F); (0x386, 0x386); (0x388, 0x38A); (0x38C, 0x38C);
   (0x38E, 0x3A1); (0x3A3, 0x3F5); (0x3F7, 0x481); (0x48A, 0x52F); (0x531, 0x556);
   (0x560, 0x588); (0x10A0, 0x10C5); (0x10C7, 0x10C7); (0x10CD, 0x10CD);
   (0x10D0, 0x10FA); (0x10FD, 0x10FF); (0x13A0, 0x13F5); (0x13F8, 0x13FD);
   (0x1C80, 0x1C88); (0x1C90, 0x1CBA); (0x1CBD, 0x1CBF); (0x1D00, 0x1DBF);
   (0x1E00, 0x1F15); (0x1F18, 0x1F1D); (0x1F20, 0x1F45); (0x1F48, 0x1F4D);
   (0x1F50, 0x1F57); (0x1F59, 0x1F59); (0x1F5B, 0x1F5B); (0x1F5D, 0x1F5D);
   (0x1F5F, 0x1F7D); (0x1F80, 0x1FB4); (0x1FB6, 0x1FBC); (0x1FBE, 0x1FBE);
   (0x1FC2, 0x1FC4); (0x1FC6, 0x1FCC); (0x1FD0, 0x1FD3); (0x1FD6, 0x1FDB);
   (0x1FE0, 0x1FEC); (0x1FF2, 0x1FF4); (0x1FF6, 0x1FFC); (0x2071, 0x2071);
   (0x207F, 0x207F); (0x2090, 0x209C); (0x2102, 0x2102); (0x2107, 0x2107);
   (0x210A, 0x2113); (0x2115, 0x2115); (0x2119, 0x211D); (0x2124, 0x2124);
   (0x2126, 0x2126); (0x2128, 0x2128); (0x212A, 0x212D); (0x212F, 0x2134);
   (0x2139, 0x2139); (0x213C, 0x213F); (0x2145, 0x2149); (0x214E, 0x214E);
   (0x2160, 0x217F); (0x2183, 0x2184); (0x24B6, 0x24E9); (0x2C00, 0x2CE4);
   (0x2CEB, 0x2CEE); (0x2CF2, 0x2CF3); (0x2D00, 0x2D25); (0x2D27, 0x2D27);
   (0x2D2D, 0x2D2D); (0xA640, 0xA66D); (0xA680, 0xA69D); (0xA722, 0xA787);
   (0xA78B, 0xA78E); (0xA790, 0xA7CA); (0xA7D0, 0xA7D1); (0xA7D3, 0xA7D3);
   (0xA7D5, 0xA7D9); (0xA7F5, 0xA7F6); (0xA7F8, 0xA7FA); (0xAB30, 0xAB5A);
   (0xAB5C, 0xAB68); (0xAB70, 0xABBF); (0xFB00, 0xFB06); (0xFB13, 0xFB17);
   (0xFF21, 0xFF3A); (0xFF41, 0xFF5A); (0x10400, 0x1044F); (0x104B0, 0x104D3);
   (0x104D8, 0x104FB); (0x10570, 0x1057A); (0x1057C, 0x1058A); (0x1058C, 0x10592);
   (0x10594, 0x10595); (0x10597, 0x105A1); (0x105A3, 0x105B1); (0x105B3, 0x105B9);
   (0x105BB, 0x105BC); (0x10780, 0x10780); (0x10783, 0x10785); (0x10787, 0x107B0);
   (0x107B2, 0x107BA); (0x10C80, 0x10CB2); (0x10CC0, 0x10CF2); (0x118A0, 0x118DF);
   (0x16E40, 0x16E7F); (0x1D400, 0x1D454); (0x1D456, 0x1D49C); (0x1D49E, 0x1D49F);
   (0x1D4A2, 0x1D4A2); (0x1D4A5, 0x1D4A6); (0x1D4A9, 0x1D4AC); (0x1D4AE, 0x1D4B9);
   (0x1D4BB, 0x1D4BB); (0x1D4BD, 0x1D4C3); (0x1D4C5, 0x1D505); (0x1D507, 0x1D50A);
   (0x1D50D, 0x1D514); (0x1D516, 0x1D51C); (0x1D51E, 0x1D539); (0x1D53B, 0x1D53E);
   (0x1D540, 0x1D544); (0x1D546, 0x1D546); (0x1D54A, 0x1D550); (0x1D552, 0x1D6A5);
   (0x1D6A8, 0x1D6C0); (0x1D6C2, 0x1D6DA); (0x1D6DC, 0x1D6FA); (0x1D6FC, 0x1D714);
   (0x1D716, 0x1D734); (0x1D736, 0x1D74E); (0x1D750, 0x1D76E); (0x1D770, 0x1D788);
   (0x1D78A, 0x1D7A8); (0x1D7AA, 0x1D7C2); (0x1D7C4, 0x1D7CB); (0x1DF00, 0x1DF09);
   (0x1DF0B, 0x1DF1E); (0x1E900, 0x1E943); (0x1F130, 0x1F149); (0x1F150, 0x1F169);
   (0x1F170, 0x1F189)]%Z.

Definition case_ignorable_ranges : list (Z * Z) :=
  [(0x27, 0x27); (0x2E, 0x2E); (0x3A, 0x3A); (0x5E, 0x5E); (0x60, 0x60); (0xA8, 0xA8);
   (0xAD, 0xAD); (0xAF, 0xAF); (0xB4, 0xB4); (0xB7, 0xB8); (0x2B0, 0x36F);
   (0x374, 0x375); (0x37A, 0x37A); (0x384, 0x385); (0x387, 0x387); (0x483, 0x489);
   (0x559, 0x559); (0x55F, 0x55F); (0x591, 0x5BD); (0x5BF, 0x5BF); (0x5C1, 0x5C2);
   (0x5C4, 0x5C5); (0x5C7, 0x5C7); (0x5F4, 0x5F4); (0x600, 0x605); (0x610, 0x61A);
   (0x61C, 0x61C); (0x640, 0x640); (0x64B, 0x65F); (0x670, 0x670); (0x6D6, 0x6DD);
   (0x6DF, 0x6E8); (0x6EA, 0x6ED); (0x70F, 0x70F); (0x711, 0x711); (0x730, 0x74A);
   (0x7A6, 0x7B0); (0x7EB, 0x7F5); (0x7FA, 0x7FA); (0x7FD, 0x7FD); (0x816, 0x82D);
   (0x859, 0x85B); (0x888, 0x888); (0x890, 0x891); (0x898, 0x89F); (0x8C9, 0x902);
   (0x93A, 0x93A); (0x93C, 0x93C); (0x941, 0x948); (0x94D, 0x94D); (0x951, 0x957);
   (0x962, 0x963); (0x971, 0x971); (0x981, 0x981); (0x9BC, 0x9BC); (0x9C1, 0x9C4);
   (0x9CD, 0x9CD); (0x9E2, 0x9E3); (0x9FE, 0x9FE); (0xA01, 0xA02); (0xA3C, 0xA3C);
   (0xA41, 0xA42); (0xA47, 0xA48); (0xA4B, 0xA4D); (0xA51, 0xA51); (0xA70, 0xA71);
   (0xA75, 0xA75); (0xA81, 0xA82); (0xABC, 0xABC); (0xAC1, 0xAC5); (0xAC7, 0xAC8);
   (0xACD, 0xACD); (0xAE2, 0xAE3); (0xAFA, 0xAFF); (0xB01, 0xB01); (0xB3C, 0xB3C);
   (0xB3F, 0xB3F); (0xB41, 0xB44); (0xB4D, 0xB4D); (0xB55, 0xB56); (0xB62, 0xB63);
   (0xB82, 0xB82); (0xBC0, 0xBC0); (0xBCD, 0xBCD); (0xC00, 0xC00); (0xC04, 0xC04);
   (0xC3C, 0xC3C); (0xC3E, 0xC40); (0xC46, 0xC48); (0xC4A, 0xC4D); (0xC55, 0xC56);
   (0xC62, 0xC63); (0xC81, 0xC81); (0xCBC, 0xCBC); (0xCBF, 0xCBF); (0xCC6, 0xCC6);
   (0xCCC, 0xCCD); (0xCE2, 0xCE3); (0xD00, 0xD01); (0xD3B, 0xD3C); (0xD41, 0xD44);
   (0xD4D, 0xD4D); (0xD62, 0xD63); (0xD81, 0xD81); (0xDCA, 0xDCA); (0xDD2, 0xDD4);
   (0xDD6, 0xDD6); (0xE31, 0xE31); (0xE34, 0xE3A); (0xE46, 0xE4E); (0xEB1, 0xEB1);
   (0xEB4, 0xEBC); (0xEC6, 0xEC6); (0xEC8, 0xECD); (0xF18, 0xF19); (0xF35, 0xF35);
   (0xF37, 0xF37); (0xF39, 0xF39); (0xF71, 0xF7E); (0xF80, 0xF84); (0xF86, 0xF87);
   (0xF8D, 0xF97); (0xF99, 0xFBC); (0xFC6, 0xFC6); (0x102D, 0x1030); (0x1032, 0x1037);
   (0x1039, 0x103A); (0x103D, 0x103E); (0x1058, 0x1059); (0x105E, 0x1060);
   (0x1071, 0x1074); (0x1082, 0x1082); (0x1085, 0x1086); (0x108D, 0x108D);
   (0x109D, 0x109D); (0x10FC, 0x10FC); (0x135D, 0x135F); (0x1712, 0x1714);
   (0x1732, 0x1733); (0x1752, 0x1753); (0x1772, 0x1773); (0x17B4, 0x17B5);
   (0x17B7, 0x17BD); (0x17C6, 0x17C6); (0x17C9, 0x17D3); (0x17D7, 0x17D7);
   (0x17DD, 0x17DD); (0x180B, 0x180F); (0x1843, 0x1843); (0x1885, 0x1886);
   (0x18A9, 0x18A9); (0x1920, 0x1922); (0x1927, 0x1928); (0x1932, 0x1932);
   (0x1939, 0x193B); (0x1A17, 0x1A18); (0x1A1B, 0x1A1B); (0x1A56, 0x1A56);
   (0x1A58, 0x1A5E); (0x1A60, 0x1A60); (0x1A62, 0x1A62); (0x1A65, 0x1A6C);
   (0x1A73, 0x1A7C); (0x1A7F, 0x1A7F); (0x1AA7, 0x1AA7); (0x1AB0, 0x1ACE);
   (0x1B00, 0x1B03); (0x1B34, 0x1B34); (0x1B36, 0x1B3A); (0x1B3C, 0x1B3C);
   (0x1B42, 0x1B42); (0x1B6B, 0x1B73); (0x1B80, 0x1B81); (0x1BA2, 0x1BA5);
   (0x1BA8, 0x1BA9); (0x1BAB, 0x1BAD); (0x1BE6, 0x1BE6); (0x1BE8, 0x1BE9);
   (0x1BED, 0x1BED); (0x1BEF, 0x1BF1); (0x1C2C, 0x1C33); (0x1C36, 0x1C37);
   (0x1C78, 0x1C7D); (0x1CD0, 0x1CD2); (0x1CD4, 0x1CE0); (0x1CE2, 0x1CE8);
   (0x1CED, 0x1CED); (0x1CF4, 0x1CF4); (0x1CF8, 0x1CF9); (0x1D2C, 0x1D6A);
   (0x1D78, 0x1D78); (0x1D9B, 0x1DFF); (0x1FBD, 0x1FBD); (0x1FBF, 0x1FC1);
   (0x1FCD, 0x1FCF); (0x1FDD, 0x1FDF); (0x1FED, 0x1FEF); (0x1FFD, 0x1FFE);
   (0x200B, 0x200F); (0x2018, 0x2019); (0x2024, 0x2024); (0x2027, 0x2027);
   (0x202A, 0x202E); (0x2060, 0x2064); (0x2066, 0x206F); (0x2071, 0x2071);
   (0x207F, 0x207F); (0x2090, 0x209C); (0x20D0, 0x20F0); (0x2C7C, 0x2C7D);
   (0x2CEF, 0x2CF1); (0x2D6F, 0x2D6F); (0x2D7F, 0x2D7F); (0x2DE0, 0x2DFF);
   (0x2E2F, 0x2E2F); (0x3005, 0x3005); (0x302A, 0x302D); (0x3031, 0x3035);
   (0x303B, 0x303B); (0x3099, 0x309E); (0x30FC, 0x30FE); (0xA015, 0xA015);
   (0xA4F8, 0xA4FD); (0xA60C, 0xA60C); (0xA66F, 0xA672); (0xA674, 0xA67D);
   (0xA67F, 0xA67F); (0xA69C, 0xA69F); (0xA6F0, 0xA6F1); (0xA700, 0xA721);
   (0xA770, 0xA770); (0xA788, 0xA78A); (0xA7F2, 0xA7F4); (0xA7F8, 0xA7F9);
   (0xA802, 0xA802); (0xA806, 0xA806); (0xA80B, 0xA80B); (0xA825, 0xA826);
   (0xA82C, 0xA82C); (0xA8C4, 0xA8C5); (0xA8E0, 0xA8F1); (0xA8FF, 0xA8FF);
   (0xA926, 0xA92D); (0xA947, 0xA951); (0xA980, 0xA982); (0xA9B3, 0xA9B3);
   (0xA9B6, 0xA9B9); (0xA9BC, 0xA9BD); (0xA9CF, 0xA9CF); (0xA9E5, 0xA9E6);
   (0xAA29, 0xAA2E); (0xAA31, 0xAA32); (0xAA35, 0xAA36); (0xAA43, 0xAA43);
   (0xAA4C, 0xAA4C); (0xAA70, 0xAA70); (0xAA7C, 0xAA7C); (0xAAB0, 0xAAB0);
   (0xAAB2, 0xAAB4); (0xAAB7, 0xAAB8); (0xAABE, 0xAABF); (0xAAC1, 0xAAC1);
   (0xAADD, 0xAADD); (0xAAEC, 0xAAED); (0xAAF3, 0xAAF4); (0xAAF6, 0xAAF6);
   (0xAB5B, 0xAB5F); (0xAB69, 0xAB6B); (0xABE5, 0xABE5); (0xABE8, 0xABE8);
   (0xABED, 0xABED); (0xFB1E, 0xFB1E); (0xFBB2, 0xFBC2); (0xFE00, 0xFE0F);
   (0xFE13, 0xFE13); (0xFE20, 0xFE2F); (0xFE52, 0xFE52); (0xFE55, 0xFE55);
   (0xFEFF, 0xFEFF); (0xFF07, 0xFF07); (0xFF0E, 0xFF0E); (0xFF1A, 0xFF1A);
   (0xFF3E, 0xFF3E); (0xFF40, 0xFF40); (0xFF70, 0xFF70); (0xFF9E, 0xFF9F);
   (0xFFE3, 0xFFE3); (0xFFF9, 0xFFFB); (0x101FD, 0x101FD); (0x102E0, 0x102E0);
   (0x10376, 0x1037A); (0x10780, 0x10785); (0x10787, 0x107B0); (0x107B2, 0x107BA);
   (0x10A01, 0x10A03); (0x10A05, 0x10A06); (0x10A0C, 0x10A0F); (0x10A38, 0x10A3A);
   (0x10A3F, 0x10A3F); (0x10AE5, 0x10AE6); (0x10D24, 0x10D27); (0x10EAB, 0x10EAC);
   (0x10F46, 0x10F50); (0x10F82, 0x10F85); (0x11001, 0x11001); (0x11038, 0x11046);
   (0x11070, 0x11070); (0x11073, 0x11074); (0x1107F, 0x11081); (0x110B3, 0x110B6);
   (0x110B9, 0x110BA); (0x110BD, 0x110BD); (0x110C2, 0x110C2); (0x110CD, 0x110CD);
   (0x11100, 0x11102); (0x11127, 0x1112B); (0x1112D, 0x11134); (0x11173, 0x11173);
   (0x11180, 0x11181); (0x111B6, 0x111BE); (0x111C9, 0x111CC); (0x111CF, 0x111CF);
   (0x1122F, 0x11231); (0x11234, 0x11234); (0x11236, 0x11237); (0x1123E, 0x1123E);
   (0x112DF, 0x112DF); (0x112E3, 0x112EA); (0x11300, 0x11301); (0x1133B, 0x1133C);
   (0x11340, 0x11340); (0x11366, 0x1136C); (0x11370, 0x11374); (0x11438, 0x1143F);
   (0x11442, 0x11444); (0x11446, 0x11446); (0x1145E, 0x1145E); (0x114B3, 0x114B8);
   (0x114BA, 0x114BA); (0x114BF, 0x114C0); (0x114C2, 0x114C3); (0x115B2, 0x115B5);
   (0x115BC, 0x115BD); (0x115BF, 0x115C0); (0x115DC, 0x115DD); (0x11633, 0x1163A);
   (0x1163D, 0x1163D); (0x1163F, 0x11640); (0x116AB, 0x116AB); (0x116AD, 0x116AD);
   (0x116B0, 0x116B5); (0x116B7, 0x116B7); (0x1171D, 0x1171F); (0x11722, 0x11725);
   (0x11727, 0x1172B); (0x1182F, 0x11837); (0x11839, 0x1183A); (0x1193B, 0x1193C);
   (0x1193E, 0x1193E); (0x11943, 0x11943); (0x119D4, 0x119D7); (0x119DA, 0x119DB);
   (0x119E0, 0x119E0); (0x11A01, 0x11A0A); (0x11A33, 0x11A38); (0x11A3B, 0x11A3E);
   (0x11A47, 0x11A47); (0x11A51, 0x11A56); (0x11A59, 0x11A5B); (0x11A8A, 0x11A96);
   (0x11A98, 0x11A99); (0x11C30, 0x11C36); (0x11C38, 0x11C3D); (0x11C3F, 0x11C3F);
   (0x11C92, 0x11CA7); (0x11CAA, 0x11CB0); (0x11CB2, 0x11CB3); (0x11CB5, 0x11CB6);
   (0x11D31, 0x11D36); (0x11D3A, 0x11D3A); (0x11D3C, 0x11D3D); (0x11D3F, 0x11D45);
   (0x11D47, 0x11D47); (0x11D90, 0x11D91); (0x11D95, 0x11D95); (0x11D97, 0x11D97);
   (0x11EF3, 0x11EF4); (0x13430, 0x13438); (0x16AF0, 0x16AF4); (0x16B30, 0x16B36);
   (0x16B40, 0x16B43); (0x16F4F, 0x16F4F); (0x16F8F, 0x16F9F); (0x16FE0, 0x16FE1);
   (0x16FE3, 0x16FE4); (0x1AFF0, 0x1AFF3); (0x1AFF5, 0x1AFFB); (0x1AFFD, 0x1AFFE);
   (0x1BC9D, 0x1BC9E); (0x1BCA0, 0x1BCA3); (0x1CF00, 0x1CF2D); (0x1CF30, 0x1CF46);
   (0x1D167, 0x1D169); (0x1D173, 0x1D182); (0x1D185, 0x1D18B); (0x1D1AA, 0x1D1AD);
   (0x1D242, 0x1D244); (0x1DA00, 0x1DA36); (0x1DA3B, 0x1DA6C); (0x1DA75, 0x1DA75);
   (0x1DA84, 0x1DA84); (0x1DA9B, 0x1DA9F); (0x1DAA1, 0x1DAAF); (0x1E000, 0x1E006);
   (0x1E008, 0x1E018); (0x1E01B, 0x1E021); (0x1E023, 0x1E024); (0x1E026, 0x1E02A);
   (0x1E130, 0x1E13D); (0x1E2AE, 0x1E2AE); (0x1E2EC, 0x1E2EF); (0x1E8D0, 0x1E8D6);
   (0x1E944, 0x1E94B); (0x1F3FB, 0x1F3FF); (0xE0001, 0xE0001); (0xE0020, 0xE007F);
   (0xE0100, 0xE01EF)]%Z.

(** [c] lies in one of the [ranges], each given by its first and last code
    point. *)
Definition in_ranges (ranges : list (Z * Z)) (c : Z) : bool :=
  existsb (fun '(first, last) => (first <=? c)%Z && (c <=? last)%Z) ranges.

(** [_PyUnicode_IsCased] and [_PyUnicode_IsCaseIgnorable] *)
Definition is_cased (c : Z) : bool := in_ranges cased_ranges c.
Definition is_case_ignorable (c : Z) : bool := in_ranges case_ignorable_ranges c.

(** The lower-case code point of [c] by the [ranges]: within a range, every
    [step]-th code point from the first one has its lower-case form [delta]
    further on; any other code point is its own lower-case form. *)
Fixpoint lower_by (ranges : list (Z * Z * Z * Z)) (c : Z) : Z :=
  match ranges with
  | [] => c
  | (first, last, step, delta) :: ranges' =>
      if (first <=? c)%Z && (c <=? last)%Z
      then (if ((c - first) mod step =? 0)%Z then c + delta else c)%Z
      else lower_by ranges' c
  end.

(** [_PyUnicode_ToLowerFull]: one code point, but two for U+0130. *)
Definition to_lower_full (c : Z) : list Z :=
  if (c =? 0x130)%Z then [0x69; 0x307]%Z else [lower_by lower_ranges c].

(** The first code point of [l] that is not case-ignorable. *)
Fixpoint skip_case_ignorable (l : list Z) : option Z :=
  match l with
  | [] => None
  | c :: l' => if is_case_ignorable c then skip_case_ignorable l' else Some c
  end.

(** [handle_capital_sigma], for a capital sigma between the code points
    [before], the nearest first, and [after]: it is a final sigma when a
    cased code point comes before it and none comes after it, case-ignorable
    code points in between left aside. *)
Definition handle_capital_sigma (before after : list Z) : Z :=
  let final_sigma :=
    match skip_case_ignorable before with
    | Some c => is_cased c
    | None => false
    end in
  let final_sigma :=
    final_sigma &&
    match skip_case_ignorable after with
    | Some c => negb (is_cased c)
    | None => true
    end in
  if final_sigma then 0x3C2%Z else 0x3C3%Z.

Definition lower_ucs4 (before : list Z) (c : Z) (after : list Z) : list Z :=
  if (c =? 0x3A3)%Z then [handle_capital_sigma before after] else to_lower_full c.

(** [do_lower] on the code points [l] that follow [before]. *)
Fixpoint do_lower (before l : list Z) : list Z :=
  match l with
  | [] => []
  | c :: after => lower_ucs4 before c after ++ do_lower (c :: before) after
  end.

End Unicode.

(** ** Python strings

    A [str] is held as the bytes of its UTF-8 encoding. *)

Module PyStr.

Definition ord (c : ascii) : Z := Z.of_N (N_of_ascii c).
Definition chr (z : Z) : ascii := ascii_of_N (Z.to_N z).

Definition is_upper (c : ascii) : bool := (65 <=? ord c)%Z && (ord c <=? 90)%Z.
Definition is_lower (c : ascii) : bool := (97 <=? ord c)%Z && (ord c <=? 122)%Z.
Definition is_digit (c : ascii) : bool := (48 <=? ord c)%Z && (ord c <=? 57)%Z.
(** [c.isascii() and c.isalpha()] *)
Definition is_ascii_alpha (c : ascii) : bool := is_upper c || is_lower c.
Definition is_ascii (c : ascii) : bool := (ord c <? 128)%Z.

(** A byte [10xxxxxx], which continues the encoding of a code point. *)
Definition is_continuation (b : ascii) : bool := (0x80 <=? ord b)%Z && (ord b <? 0xC0)%Z.

(** The number made of [bits] and of the six low bits of each of the [n]
    continuation bytes that [s] starts with. *)
Fixpoint continuation_bits (n : nat) (s : string) (bits : Z) : option Z :=
  match n with
  | O => Some bits
  | S n' =>
      match s with
      | String b s' =>
          if is_continuation b
          then continuation_bits n' s' (bits * 64 + (ord b - 0x80))%Z
          else None
      | EmptyString => None
      end
  end.

(** A code point that UTF-8 encodes: one up to U+10FFFF that is no
    surrogate. *)
Definition is_scalar_value (c : Z) : bool :=
  (c <=? 0x10FFFF)%Z && negb ((0xD800 <=? c)%Z && (c <=? 0xDFFF)%Z).

(** The code point whose encoding [s] starts with, and the number of its
    bytes; the encoding is the shortest one that gives the code point. *)
Definition decode (s : string) : option (Z * nat) :=
  match s with
  | EmptyString => None
  | String b s' =>
      let lead := ord b in
      let encoded (n : nat) (bits smallest : Z) : option (Z * nat) :=
        match continuation_bits n s' bits with
        | Some c =>
            if (smallest <=? c)%Z && is_scalar_value c then Some (c, S n) else None
        | None => None
        end in
      if (lead <? 0x80)%Z then Some (lead, 1%nat)
      else if (lead <? 0xC0)%Z then None
      else if (lead <? 0xE0)%Z then encoded 1%nat (lead - 0xC0)%Z 0x80%Z
      else if (lead <? 0xF0)%Z then encoded 2%nat (lead - 0xE0)%Z 0x800%Z
      else if (lead <? 0xF8)%Z then encoded 3%nat (lead - 0xF0)%Z 0x10000%Z
      else None
  end.

(** The code points of [s] after its first [skip] bytes.  A byte that
    starts no code point, which the encoding of a [str] does not have, is
    carried along as a number past the last code point. *)
Fixpoint code_points_from (skip : nat) (s : string) : list Z :=
  match s with
  | EmptyString => []
  | String b s' =>
      match skip with
      | S skip' => code_points_from skip' s'
      | O =>
          match decode s with
          | Some (c, n) => c :: code_points_from (Nat.pred n) s'
          | None => (0x110000 + ord b)%Z :: code_points_from O s'
          end
      end
  end.

Definition code_points (s : string) : list Z := code_points_from O s.

(** The bytes of the code point [c]. *)
Definition encode (c : Z) : string :=
  if (c <? 0x80)%Z then String (chr c) ""
  else if (c <? 0x800)%Z then
    String (chr (0xC0 + c / 64)) (String (chr (0x80 + c mod 64)) "")
  else if (c <? 0x10000)%Z then
    String (chr (0xE0 + c / 4096))
      (String (chr (0x80 + c / 64 mod 64)) (String (chr (0x80 + c mod 64)) ""))
  else if (c <? 0x110000)%Z then
    String (chr (0xF0 + c / 262144))
      (String (chr (0x80 + c / 4096 mod 64))
         (String (chr (0x80 + c / 64 mod 64)) (String (chr (0x80 + c mod 64)) "")))
  else String (chr (c - 0x110000)) "".

Fixpoint encode_all (l : list Z) : string :=
  match l with
  | [] => ""
  | c :: l' => encode c ++ encode_all l'
  end.

(** [s.lower()] *)
Definition lower (s : string) : string :=
  encode_all (Unicode.do_lower [] (code_points s)).

(** [s.startswith(p)] *)
Fixpoint startswith (p s : string) : bool :=
  match p, s with
  | EmptyString, _ => true
  | String a p', String b s' => Ascii.eqb a b && startswith p' s'
  | String _ _, EmptyString => false
  end.

(** [sub in s] *)
Fixpoint contains (sub s : string) : bool :=
  startswith sub s ||
  match s with
  | EmptyString => false
  | String _ s' => contains sub s'
  end.

(** [c in s], for a character [c] *)
Fixpoint has_char (c : ascii) (s : string) : bool :=
  match s with
  | EmptyString => false
  | String a s' => Ascii.eqb c a || has_char c s'
  end.

(** [s.find(c)], [None] for -1 *)
Fixpoint find_char (c : ascii) (s : string) : option nat :=
  match s with
  | EmptyString => None
  | String a s' =>
      if Ascii.eqb c a then Some O else option_map S (find_char c s')
  end.

(** [s.rfind(c)], [None] for -1 *)
Fixpoint rfind_char (c : ascii) (s : string) : option nat :=
  match s with
  | EmptyString => None
  | String a s' =>
      match rfind_char c s' with
      | Some i => Some (S i)
      | None => if Ascii.eqb c a then Some O else None
      end
  end.

(** [s[:n]] and [s[n:]] *)
Definition take (n : nat) (s : string) : string := String.substring 0 n s.
Fixpoint drop (n : nat) (s : string) : string :=
  match n, s with
  | O, _ => s
  | S _, EmptyString => EmptyString
  | S n', String _ s' => drop n' s'
  end.

(** [s.lstrip(chars)] *)
Fixpoint lstrip (chars : ascii -> bool) (s : string) : string :=
  match s with
  | EmptyString => EmptyString
  | String c s' => if chars c then lstrip chars s' else s
  end.

(** [s.replace(c, "")] for each [c] selected by [chars] *)
Fixpoint remove_chars (chars : ascii -> bool) (s : string) : string :=
  match s with
  | EmptyString => EmptyString
  | String c s' =>
      if chars c then remove_chars chars s' else String c (remove_chars chars s')
  end.

Fixpoint all_chars (p : ascii -> bool) (s : string) : bool :=
  match s with
  | EmptyString => true
  | String c s' => p c && all_chars p s'
  end.

(** [x or default] on strings: the empty string is falsy *)
Definition or_else (s default : string) : string :=
  match s with EmptyString => default | _ => s end.

Definition bytes (s : string) : list Z := List.map ord (list_ascii_of_string s).

End PyStr.

(** ** hashlib.sha256

    SHA-256 of FIPS 180-4 on lists of bytes; 32-bit words are non-negative
    integers below 2^32 and every addition is reduced modulo 2^32. *)

Module Sha256.
#[local] Open Scope Z_scope.

Definition w32 (x : Z) : Z := Z.land x 0xFFFFFFFF.
Definition add32 (a b : Z) : Z := w32 (a + b).
Definition rotr (n x : Z) : Z :=
  Z.lor (Z.shiftr x n) (w32 (Z.shiftl x (32 - n))).
Definition shr (n x : Z) : Z := Z.shiftr x n.
Definition xor3 (a b c : Z) : Z := Z.lxor (Z.lxor a b) c.

Definition Ch (x y z : Z) : Z := Z.lxor (Z.land x y) (Z.land (Z.lnot x) z).
Definition Maj (x y z : Z) : Z := xor3 (Z.land x y) (Z.land x z) (Z.land y z).
Definition Sigma0 (x : Z) : Z := xor3 (rotr 2 x) (rotr 13 x) (rotr 22 x).
Definition Sigma1 (x : Z) : Z := xor3 (rotr 6 x) (rotr 11 x) (rotr 25 x).
Definition sigma0 (x : Z) : Z := xor3 (rotr 7 x) (rotr 18 x) (shr 3 x).
Definition sigma1 (x : Z) : Z := xor3 (rotr 17 x) (rotr 19 x) (shr 10 x).

(** The first [count] primes; the 64th is 311. *)
Definition is_prime (n : Z) : bool :=
  (1 <? n) && forallb (fun d => negb (n mod d =? 0))
                (List.map Z.of_nat (seq 2 (Z.to_nat n - 2))).

Definition primes (count : nat) : list Z :=
  firstn count (List.filter is_prime (List.map Z.of_nat (seq 2 310))).

(** The integer part of the cube root of [n], for [n] below 2^108, found
    bit by bit from the most significant one. *)
Definition cbrt_floor (n : Z) : Z :=
  fold_left (fun r i => let r' := r + 2 ^ i in if r' ^ 3 <=? n then r' else r)
    (rev (List.map Z.of_nat (seq 0 36))) 0.

(** The round constants: the first 32 bits of the fractional parts of the
    cube roots of the first 64 primes. *)
Definition K : list Z :=
  Eval vm_compute in List.map (fun p => cbrt_floor (p * 2 ^ 96) mod 2 ^ 32) (primes 64).

(** The eight working variables, also the chaining value. *)
Record state := State8 { sa : Z; sb : Z; sc : Z; sd : Z; se : Z; sf : Z; sg : Z; sh : Z }.

(** The initial chaining value: the first 32 bits of the fractional parts
    of the square roots of the first 8 primes. *)
Definition H0 : state := Eval vm_compute in
    let root p := Z.sqrt (p * 2 ^ 64) mod 2 ^ 32 in
    match List.map root (primes 8) with
    | [a; b; c; d; e; f; g; h] => State8 a b c d e f g h
    | _ => State8 0 0 0 0 0 0 0 0
    end.

(** Padding: a 1 bit, zeros up to 56 modulo 64 bytes, the bit length on
    eight bytes, most significant first. *)
Definition be_bytes (n : nat) (x : Z) : list Z :=
  List.map (fun i => Z.land (Z.shiftr x (8 * Z.of_nat i)) 0xFF) (rev (seq 0 n)).

Definition pad (msg : list Z) : list Z :=
  let len := Z.of_nat (List.length msg) in
  (msg ++ [0x80] ++ List.repeat 0 (Z.to_nat ((55 - len) mod 64)) ++ be_bytes 8 (8 * len))%list.

Fixpoint words (bs : list Z) : list Z :=
  match bs with
  | b0 :: b1 :: b2 :: b3 :: rest =>
      Z.lor (Z.shiftl b0 24) (Z.lor (Z.shiftl b1 16) (Z.lor (Z.shiftl b2 8) b3))
      :: words rest
  | _ => []
  end.

(** One round; [w] holds the sixteen most recent schedule words, oldest
    first, so its head is W_t and the word it gains is W_(t+16). *)
Definition round (sw : state * list Z) (k : Z) : state * list Z :=
  let (s, w) := sw in
  let wt := nth 0 w 0 in
  let t1 := add32 (add32 (add32 (add32 (sh s) (Sigma1 (se s))) (Ch (se s) (sf s) (sg s))) k) wt in
  let t2 := add32 (Sigma0 (sa s)) (Maj (sa s) (sb s) (sc s)) in
  let next := add32 (add32 (add32 (sigma1 (nth 14 w 0)) (nth 9 w 0)) (sigma0 (nth 1 w 0))) wt in
  (State8 (add32 t1 t2) (sa s) (sb s) (sc s) (add32 (sd s) t1) (se s) (sf s) (sg s),
   (List.tl w ++ [next])%list).

Definition compress (h : state) (block : list Z) : state :=
  let s := fst (fold_left round K (h, block)) in
  State8 (add32 (sa h) (sa s)) (add32 (sb h) (sb s)) (add32 (sc h) (sc s))
         (add32 (sd h) (sd s)) (add32 (se h) (se s)) (add32 (sf h) (sf s))
         (add32 (sg h) (sg s)) (add32 (sh h) (sh s)).

Fixpoint blocks (fuel : nat) (ws : list Z) (h : state) : state :=
  match fuel, ws with
  | S fuel', _ :: _ => blocks fuel' (skipn 16 ws) (compress h (firstn 16 ws))
  | _, _ => h
  end.

Definition sha256 (msg : list Z) : state :=
  let ws := words (pad msg) in
  blocks (List.length ws) ws H0.

Definition hex_digit (n : Z) : ascii :=
  if n <? 10 then PyStr.chr (48 + n) else PyStr.chr (87 + n).

(** Eight lower-case hexadecimal digits of a word, most significant first. *)
Definition hex8 (x : Z) : string :=
  string_of_list_ascii
    (List.map (fun i => hex_digit (Z.land (Z.shiftr x (4 * Z.of_nat i)) 0xF)) (rev (seq 0 8))).

(** [hashlib.sha256(msg).hexdigest()] *)
Definition hexdigest (msg : list Z) : string :=
  let h := sha256 msg in
  hex8 (sa h) ++ hex8 (sb h) ++ hex8 (sc h) ++ hex8 (sd h) ++
  hex8 (se h) ++ hex8 (sf h) ++ hex8 (sg h) ++ hex8 (sh h).

End Sha256.

(** ** Exceptions and results *)

Inductive exn : Type :=
| ValueError (msg : string)
| ConnectionError (msg : string)
| Timeout (msg : string)
| RequestException (msg : string).

Inductive result (A : Type) : Type :=
| Ok (a : A)
| Raise (e : exn).
Arguments Ok {A} a.
Arguments Raise {A} e.

(** ** urllib.parse (CPython 3.11) *)

Module UrlParse.

Record SplitResult := mkSplit
  { s_scheme : string; s_netloc : string; s_path : string;
    s_query : string; s_fragment : string }.

Record ParseResult := mkParse
  { scheme : string; netloc : string; path : string; params : string;
    query : string; fragment : string }.

Definition scheme_chars (c : ascii) : bool :=
  PyStr.is_lower c || PyStr.is_upper c || PyStr.is_digit c || PyStr.has_char c "+-.".

(** [_WHATWG_C0_CONTROL_OR_SPACE]: the characters 0 to 31 and the space. *)
Definition c0_control_or_space (c : ascii) : bool := (PyStr.ord c <=? 32)%Z.

(** [_UNSAFE_URL_BYTES_TO_REMOVE]: tab, carriage return, line feed. *)
Definition unsafe_url_byte (c : ascii) : bool :=
  (PyStr.ord c =? 9)%Z || (PyStr.ord c =? 13)%Z || (PyStr.ord c =? 10)%Z.

Definition uses_params : list string :=
  [""; "ftp"; "hdl"; "prospero"; "http"; "imap"; "https"; "shttp"; "rtsp";
   "rtspu"; "sip"; "sips"; "mms"; "sftp"; "tel"].

(** [s.find(c, start)] *)
Definition find_from (c : ascii) (start : nat) (s : string) : option nat :=
  option_map (Nat.add start) (PyStr.find_char c (PyStr.drop start s)).

(** [s.partition(c)]: before, whether the separator was found, after. *)
Definition partition (c : ascii) (s : string) : string * bool * string :=
  match PyStr.find_char c s with
  | Some i => (PyStr.take i s, true, PyStr.drop (S i) s)
  | None => (s, false, "")
  end.

(** [s.rpartition(c)[2]] *)
Definition rpartition_last (c : ascii) (s : string) : string :=
  match PyStr.rfind_char c s with
  | Some i => PyStr.drop (S i) s
  | None => s
  end.

(** [s.split(c, 1)] when [c in s] *)
Definition split1 (c : ascii) (s : string) : string * string :=
  let '(before, _, after) := partition c s in (before, after).

Definition _splitnetloc (url : string) (start : nat) : string * string :=
  let delim :=
    fold_left
      (fun delim c =>
         match find_from c start url with
         | Some wdelim => Nat.min delim wdelim
         | None => delim
         end)
      ["/"; "?"; "#"]%char (String.length url) in
  (String.substring start (delim - start) url, PyStr.drop delim url).

Definition _splitparams (url : string) : string * string :=
  if PyStr.has_char "/" url then
    match find_from ";" (default 0 (PyStr.rfind_char "/" url)) url with
    | Some i => (PyStr.take i url, PyStr.drop (S i) url)
    | None => (url, "")
    end
  else
    match PyStr.find_char ";" url with
    | Some i => (PyStr.take i url, PyStr.drop (S i) url)
    | None => (PyStr.take (String.length url - 1) url, url)
    end.

Section Checks.
(** [_check_bracketed_host hostname] returns ([true]) or raises
    ValueError ([false]); it is decided by the [ipaddress] module.  The
    message of that ValueError depends on the address and is not modelled:
    one text stands for all of them. *)
Variable bracketed_host_ok : string -> bool.
(** [_checknetloc netloc], for a netloc with a non-ASCII character,
    returns or raises by the NFKC normal form of the netloc. *)
Variable nfkc_netloc_ok : string -> bool.

Definition _check_bracketed_netloc (netloc : string) : result unit :=
  let hostname_and_port := rpartition_last "@" netloc in
  let '(before_bracket, have_open_br, bracketed) := partition "[" hostname_and_port in
  if have_open_br then
    if negb (String.eqb before_bracket "") then Raise (ValueError "Invalid IPv6 URL")
    else
      let '(hostname, _, port) := partition "]" bracketed in
      if negb (String.eqb port "") && negb (PyStr.startswith ":" port)
      then Raise (ValueError "Invalid IPv6 URL")
      else if bracketed_host_ok hostname then Ok tt
           else Raise (ValueError "invalid bracketed host")
  else
    let '(hostname, _, _) := partition ":" hostname_and_port in
    if bracketed_host_ok hostname then Ok tt
    else Raise (ValueError "invalid bracketed host").

Definition _checknetloc (netloc : string) : result unit :=
  if String.eqb netloc "" || PyStr.all_chars PyStr.is_ascii netloc then Ok tt
  else if nfkc_netloc_ok netloc then Ok tt
       else Raise (ValueError "netloc contains invalid characters under NFKC normalization").

Definition check_netloc_brackets (netloc : string) : result unit :=
  let open_br := PyStr.has_char "[" netloc in
  let close_br := PyStr.has_char "]" netloc in
  if (open_br && negb close_br) || (close_br && negb open_br)
  then Raise (ValueError "Invalid IPv6 URL")
  else if open_br && close_br then _check_bracketed_netloc netloc
       else Ok tt.

Definition urlsplit (url : string) : result SplitResult :=
  let url := PyStr.lstrip c0_control_or_space url in
  let url := PyStr.remove_chars unsafe_url_byte url in
  let '(scheme, url) :=
    match PyStr.find_char ":" url, url with
    | Some (S i'), String c0 _ =>
        if PyStr.is_ascii_alpha c0 && PyStr.all_chars scheme_chars (PyStr.take (S i') url)
        then (PyStr.lower (PyStr.take (S i') url), PyStr.drop (S (S i')) url)
        else ("", url)
    | _, _ => ("", url)
    end in
  let '(netloc, url, checked) :=
    if String.eqb (PyStr.take 2 url) "//" then
      let '(netloc, rest) := _splitnetloc url 2 in
      (netloc, rest, check_netloc_brackets netloc)
    else ("", url, Ok tt) in
  match checked with
  | Raise e => Raise e
  | Ok _ =>
      let '(url, fragment) :=
        if PyStr.has_char "#" url then split1 "#" url else (url, "") in
      let '(url, query) :=
        if PyStr.has_char "?" url then split1 "?" url else (url, "") in
      match _checknetloc netloc with
      | Raise e => Raise e
      | Ok _ => Ok (mkSplit scheme netloc url query fragment)
      end
  end.

Definition urlparse (url : string) : result ParseResult :=
  match urlsplit url with
  | Raise e => Raise e
  | Ok sp =>
      let '(url, params) :=
        if existsb (String.eqb (s_scheme sp)) uses_params && PyStr.has_char ";" (s_path sp)
        then _splitparams (s_path sp)
        else (s_path sp, "") in
      Ok (mkParse (s_scheme sp) (s_netloc sp) url params (s_query sp) (s_fragment sp))
  end.
End Checks.

End UrlParse.

(** ** Python values, the world and the method monad *)

Inductive value : Type :=
| VNone
| VBool (b : bool)
| VInt (z : Z)
| VStr (s : string)
| VList (l : list value)
| VDict (d : gmap string value).

(** An [Optional[str]] or [Optional[int]] argument as a value. *)
Definition of_opt_str (o : option string) : value :=
  match o with Some s => VStr s | None => VNone end.
Definition of_opt_int (o : option Z) : value :=
  match o with Some z => VInt z | None => VNone end.

(** [v is not None] *)
Definition is_not_None (v : value) : bool :=
  match v with VNone => false | _ => true end.

(** [bool(d)] for a dict: an empty dict is falsy. *)
Definition dict_truthy (d : gmap string value) : bool :=
  match map_to_list d with [] => false | _ :: _ => true end.

(** A float is read as the rational it denotes.  [floor_log2 x] is the
    exponent of the power of two at or below a positive [x]. *)
Definition floor_log2 (x : Q) : Z :=
  let k := (Z.log2 (Qnum x) - Z.log2 (Z.pos (Qden x)))%Z in
  if Qle_bool (Qpower 2 k) x then k else (k - 1)%Z.

(** The integer nearest to [x], the even one of two that are equally near. *)
Definition round_half_even (x : Q) : Z :=
  let f := Qfloor x in
  match Qcompare (x - inject_Z f)%Q (1 # 2)%Q with
  | Lt => f
  | Gt => (f + 1)%Z
  | Eq => if Z.even f then f else (f + 1)%Z
  end.

(** The double nearest to [x]: 53 significant bits, ties to even.  The
    exponent range of doubles is not bounded here; no reading of the clock
    gets near it. *)
Definition round_double (x : Q) : Q :=
  let nearest (y : Q) : Q :=
    let e := (floor_log2 y - 52)%Z in
    (inject_Z (round_half_even (y / Qpower 2 e)) * Qpower 2 e)%Q in
  match Qcompare x 0%Q with
  | Eq => 0%Q
  | Gt => nearest x
  | Lt => (- nearest (- x))%Q
  end.

(** [x * y] on floats. *)
Definition float_mul (x y : Q) : Q := round_double (x * y)%Q.

(** [int(x)] on a float: truncation towards zero. *)
Definition int_of_float (x : Q) : Z := Z.quot (Qnum x) (Z.pos (Qden x)).

Record Request := mkRequest
  { req_url : string; req_json : value; req_headers : gmap string string;
    req_timeout : Z }.

Record Response := mkResponse { status_code : Z; text : string }.

(** What the calls of [print] in [_send] write: the event type with the
    text [json.dumps] gives for the payload, the status and body of the
    response, the exception caught. *)
Inductive log_line : Type :=
| LogSending (event_type : string) (payload : value)
| LogResponse (status : Z) (body : string)
| LogError (e : exn).

(** The diagnostics of [_send] can fail: [json.dumps] raises on a payload
    it cannot write out (an integer of more than 4300 digits, say), and
    [print] raises when the line cannot be written (a closed [stdout],
    say).  A console tells, for a payload and for a line, the exception
    raised, or [None] when the call goes through. *)
Class Console := mkConsole
  { json_dumps_raises : value -> option exn;
    print_raises : log_line -> option exn }.

(** The console on which every diagnostic goes through.  A statement that
    names no console is about this one. *)
#[global] Instance reliable_console : Console :=
  {| json_dumps_raises := fun _ => None;
     print_raises := fun _ => None |}.

(** The environment of a tracker.  [clock], [uuids] and [network] give the
    results of the calls of [time.time], [uuid.uuid4] and [requests.post]
    still to come, the next one at index 0; [posted] and [stdout] record the
    requests issued and the lines printed so far, most recent first. *)
Record World := mkWorld
  { clock : nat -> Q;
    uuids : nat -> string;
    network : nat -> result Response;
    posted : list Request;
    stdout : list log_line }.

(** The attributes of a [CRM360Tracker] object. *)
Record Tracker := mkTracker
  { api_key : string; endpoint : string; timeout : Z; debug : bool;
    _queue : list value }.

Record State := mkState { self : Tracker; world : World }.

(** A method: it reads and updates the state and returns or raises. *)
Definition M (A : Type) : Type := State -> result A * State.

Definition ret {A} (a : A) : M A := fun st => (Ok a, st).
Definition raise {A} (e : exn) : M A := fun st => (Raise e, st).
Definition bind {A B} (m : M A) (k : A -> M B) : M B :=
  fun st => match m st with
            | (Ok a, st') => k a st'
            | (Raise e, st') => (Raise e, st')
            end.
(** [try: m  except Exception as e: handler e] *)
Definition try_except {A} (m : M A) (handler : exn -> M A) : M A :=
  fun st => match m st with
            | (Ok a, st') => (Ok a, st')
            | (Raise e, st') => handler e st'
            end.
Definition lift {A} (r : result A) : M A := fun st => (r, st).

Declare Scope method_scope.
Delimit Scope method_scope with method.
Notation "x <- m ;; k" := (bind m (fun x => k))
  (at level 100, m at next level, right associativity) : method_scope.
Notation "m ;;; k" := (bind m (fun _ => k))
  (at level 100, right associativity) : method_scope.
#[local] Open Scope method_scope.

(** [self.<attribute>] *)
Definition attr {A} (f : Tracker -> A) : M A := fun st => (Ok (f (self st)), st).

Definition update_world (f : World -> World) : M unit :=
  fun st => (Ok tt, mkState (self st) (f (world st))).

(** [time.time()] *)
Definition time_time : M Q :=
  fun st =>
    let w := world st in
    (Ok (clock w O),
     mkState (self st)
       (mkWorld (fun n => clock w (S n)) (uuids w) (network w) (posted w) (stdout w))).

(** [str(uuid.uuid4())] *)
Definition uuid4 : M string :=
  fun st =>
    let w := world st in
    (Ok (uuids w O),
     mkState (self st)
       (mkWorld (clock w) (fun n => uuids w (S n)) (network w) (posted w) (stdout w))).

(** [requests.post(url, json=..., headers=..., timeout=...)] *)
Definition requests_post (r : Request) : M Response :=
  fun st =>
    let w := world st in
    (network w O,
     mkState (self st)
       (mkWorld (clock w) (uuids w) (fun n => network w (S n)) (r :: posted w) (stdout w))).

(** [json.dumps(v, indent=2)]; its text is part of the line printed. *)
Definition json_dumps {console : Console} (v : value) : M unit :=
  match json_dumps_raises v with
  | Some e => raise e
  | None => ret tt
  end.

Definition print {console : Console} (l : log_line) : M unit :=
  match print_raises l with
  | Some e => raise e
  | None =>
      update_world
        (fun w => mkWorld (clock w) (uuids w) (network w) (posted w) (l :: stdout w))
  end.

Definition when (b : bool) (m : M unit) : M unit := if b then m else ret tt.

(** [int(time.time() * 1000)] *)
Definition now_ms : M Z := t <- time_time ;; ret (int_of_float (float_mul t 1000)).

(** ** class CRM360Tracker *)

Module CRM360Tracker.

(** [__init__] with its default arguments. *)
Definition __init__ (api_key : string) (endpoint : option string)
    (timeout : option Z) (debug : option bool) : Tracker :=
  mkTracker api_key
    (default "http://localhost:4000/api/v1/tracking/collect" endpoint)
    (default 5%Z timeout)
    (default false debug)
    [].

Section Methods.
Context {console : Console}.

Definition _send (event_type : string) (data : value) : M bool :=
  try_except
    (key <- attr api_key ;;
     let payload : value :=
       VDict {[ "apiKey" := VStr key; "type" := VStr event_type; "data" := data ]} in
     dbg <- attr debug ;;
     when dbg (json_dumps payload ;;; print (LogSending event_type payload)) ;;;
     url <- attr endpoint ;;
     tmo <- attr timeout ;;
     response <- requests_post
       (mkRequest url payload {[ "Content-Type" := "application/json" ]} tmo) ;;
     dbg <- attr debug ;;
     when dbg (print (LogResponse (status_code response) (text response))) ;;;
     ret (status_code response =? 200)%Z)
    (fun e =>
       dbg <- attr debug ;;
       when dbg (print (LogError e)) ;;;
       ret false).

Definition generate_visitor_id (user_agent ip_address : string) : string :=
  let fingerprint := user_agent ++ ":" ++ ip_address in
  PyStr.take 16 (Sha256.hexdigest (PyStr.bytes fingerprint)).

Definition generate_session_id : M string := uuid4.

(** [session_id or self.generate_session_id()]: [None] and the empty string
    are falsy. *)
Definition session_id_or_generate (session_id : option string) : M string :=
  match session_id with
  | Some (String c s) => ret (String c s)
  | Some EmptyString | None => generate_session_id
  end.

Definition start_session (visitor_id : string) (session_id : option string)
    (user_agent ip_address referrer entry_page : option string)
    (utm_source utm_medium utm_campaign utm_term utm_content : option string)
    : M value :=
  session_id <- session_id_or_generate session_id ;;
  ts <- now_ms ;;
  let data : value :=
    VDict {[ "visitorId" := VStr visitor_id;
             "sessionId" := VStr session_id;
             "timestamp" := VInt ts;
             "referrer" := of_opt_str referrer;
             "entryPage" := of_opt_str entry_page;
             "device" := VDict {[ "userAgent" := of_opt_str user_agent ]};
             "utm" := VDict {[ "utmSource" := of_opt_str utm_source;
                               "utmMedium" := of_opt_str utm_medium;
                               "utmCampaign" := of_opt_str utm_campaign;
                               "utmTerm" := of_opt_str utm_term;
                               "utmContent" := of_opt_str utm_content ]} ]} in
  _send "session.start" data ;;;
  ret (VDict {[ "session_id" := VStr session_id; "visitor_id" := VStr visitor_id ]}).

Section WithUrlChecks.
Variable bracketed_host_ok : string -> bool.
Variable nfkc_netloc_ok : string -> bool.

Definition track_page_view (visitor_id : string) (session_id : option string)
    (url : string) (title referrer : option string) (load_time : option Z)
    : M bool :=
  parsed <- lift (UrlParse.urlparse bracketed_host_ok nfkc_netloc_ok url) ;;
  let path := PyStr.or_else (UrlParse.path parsed) "/" in
  ts <- now_ms ;;
  let data : value :=
    VDict {[ "sessionId" := of_opt_str session_id;
             "visitorId" := VStr visitor_id;
             "url" := VStr url;
             "path" := VStr path;
             "title" := of_opt_str title;
             "referrer" := of_opt_str referrer;
             "timestamp" := VInt ts;
             "loadTime" := of_opt_int load_time ]} in
  _send "page.view" data.
End WithUrlChecks.

(** [metadata or {}] *)
Definition metadata_or_empty (metadata : option (gmap string value))
    : gmap string value :=
  match metadata with
  | Some m => if dict_truthy m then m else ∅
  | None => ∅
  end.

Definition track_event (visitor_id : string) (session_id : option string)
    (event_name : string) (event_type : string) (category value_ : option string)
    (metadata : option (gmap string value)) : M bool :=
  ts <- now_ms ;;
  let data : value :=
    VDict {[ "sessionId" := of_opt_str session_id;
             "events" := VList
               [ VDict {[ "type" := VStr event_type;
                          "name" := VStr event_name;
                          "category" := of_opt_str category;
                          "value" := of_opt_str value_;
                          "metadata" := VDict (metadata_or_empty metadata);
                          "timestamp" := VInt ts ]} ] ]} in
  _send "events.batch" data.

Definition sensitive_keywords : list string :=
  ["password"; "secret"; "token"; "credit"; "card"; "cvv"; "ssn"].

(** [any(kw in key.lower() for kw in sensitive_keywords)] *)
Definition is_sensitive (key : string) : bool :=
  existsb (fun kw => PyStr.contains kw (PyStr.lower key)) sensitive_keywords.

(** The loop filling [safe_fields], run when [fields] is truthy. *)
Definition mask_fields (fields : option (gmap string value)) : gmap string value :=
  match fields with
  | Some fs =>
      if dict_truthy fs then
        map_fold
          (fun key v safe_fields =>
             <[ key := if is_sensitive key then VStr "***" else v ]> safe_fields)
          ∅ fs
      else ∅
  | None => ∅
  end.

Definition track_form_submission (visitor_id : string) (session_id : option string)
    (form_id : string) (form_action : option string)
    (fields : option (gmap string value)) : M bool :=
  let safe_fields := mask_fields fields in
  ts <- now_ms ;;
  let data : value :=
    VDict {[ "sessionId" := of_opt_str session_id;
             "formId" := VStr form_id;
             "formAction" := of_opt_str form_action;
             "fields" := VDict safe_fields;
             "timestamp" := VInt ts ]} in
  _send "form.submit" data.

(** The named traits of [identify], before [**traits] is merged in. *)
Definition named_traits (email user_id name phone company : option string)
    : gmap string value :=
  {[ "email" := of_opt_str email;
     "userId" := of_opt_str user_id;
     "name" := of_opt_str name;
     "phone" := of_opt_str phone;
     "company" := of_opt_str company ]}.

(** [{... , **traits}]: the items of [traits] are stored over the named ones. *)
Definition merge_traits (named traits : gmap string value) : gmap string value :=
  map_fold (fun k v acc => <[ k := v ]> acc) named traits.

(** [{k: v for k, v in all_traits.items() if v is not None}] *)
Definition drop_None (all_traits : gmap string value) : gmap string value :=
  map_fold (fun k v acc => if is_not_None v then <[ k := v ]> acc else acc)
    ∅ all_traits.

Definition identify (visitor_id : string) (session_id : option string)
    (email user_id name phone company : option string)
    (traits : gmap string value) : M bool :=
  let all_traits := merge_traits (named_traits email user_id name phone company) traits in
  let all_traits := drop_None all_traits in
  ts <- now_ms ;;
  let data : value :=
    VDict {[ "sessionId" := of_opt_str session_id;
             "visitorId" := VStr visitor_id;
             "userId" := of_opt_str user_id;
             "traits" := VDict all_traits;
             "timestamp" := VInt ts ]} in
  _send "user.identify" data.

Definition end_session (visitor_id : string) (session_id : option string)
    (exit_page : option string) : M bool :=
  ts <- now_ms ;;
  let data : value :=
    VDict {[ "sessionId" := of_opt_str session_id;
             "url" := of_opt_str exit_page;
             "path" := of_opt_str exit_page;
             "timestamp" := VInt ts ]} in
  _send "page.leave" data.

End Methods.

End CRM360Tracker.

(** ** The framework hooks

    The host framework is seen through the data the hooks read and write:
    the cookies, headers and query arguments of a request as maps from
    names to strings, and the cookies a response sets. *)

(** [not x] for an [Optional[str]]: [None] and the empty string are falsy. *)
Definition is_falsy (o : option string) : bool :=
  match o with
  | Some (String _ _) => false
  | Some EmptyString | None => true
  end.

(** [f"{x}"] for an [Optional[str]]: [None] is formatted as its name. *)
Definition format_opt (o : option string) : string := default "None" o.

(** What [set_cookie key value max_age] records. *)
Record Cookie := mkCookie { cookie_value : string; cookie_max_age : Z }.

(** *** class DjangoTrackerMiddleware *)

Module DjangoTrackerMiddleware.

(** The three settings [__init__] reads; [None] for a setting that is not
    defined. *)
Record Settings := mkSettings
  { CRM360_API_KEY : option string;
    CRM360_ENDPOINT : option string;
    DEBUG : option bool }.

(** A request: [COOKIES], [META] and [GET], what [build_absolute_uri()]
    returns, and the two attributes the middleware sets on it. *)
Record HttpRequest := mkHttpRequest
  { COOKIES : gmap string string;
    META : gmap string string;
    GET : gmap string string;
    build_absolute_uri : string;
    crm360_visitor_id : option string;
    crm360_session_id : option string }.

(** A response: its cookies by name, and the rest of it. *)
Record HttpResponse := mkHttpResponse
  { cookies : gmap string Cookie; content : string }.

(** [response.set_cookie(key, value, max_age=max_age)] *)
Definition set_cookie (key value : string) (max_age : Z) (response : HttpResponse)
    : HttpResponse :=
  mkHttpResponse (<[ key := mkCookie value max_age ]> (cookies response))
    (content response).

(** The tracker [__init__] builds from the settings. *)
Definition __init__ (settings : Settings) : Tracker :=
  CRM360Tracker.__init__
    (default "" (CRM360_API_KEY settings))
    (Some (default "http://localhost:4000/api/v1/tracking/collect"
             (CRM360_ENDPOINT settings)))
    None
    (Some (default false (DEBUG settings))).

Section Call.
Context {console : Console}.
Variable bracketed_host_ok : string -> bool.
Variable nfkc_netloc_ok : string -> bool.
(** [self.get_response]: the rest of the middleware chain and the view. *)
Variable get_response : HttpRequest -> M HttpResponse.

Definition __call__ (request : HttpRequest) : M HttpResponse :=
  let visitor_id := COOKIES request !! "crm360_vid" in
  let session_id := COOKIES request !! "crm360_sid" in
  let visitor_id : string :=
    if is_falsy visitor_id then
      CRM360Tracker.generate_visitor_id
        (default "" (META request !! "HTTP_USER_AGENT"))
        (default "" (META request !! "REMOTE_ADDR"))
    else default "" visitor_id in
  new <- (if is_falsy session_id then
            session_id <- CRM360Tracker.generate_session_id ;; ret (session_id, true)
          else ret (default "" session_id, false)) ;;
  let '(session_id, is_new_session) := new in
  let request :=
    mkHttpRequest (COOKIES request) (META request) (GET request)
      (build_absolute_uri request) (Some visitor_id) (Some session_id) in
  (if is_new_session then
     CRM360Tracker.start_session visitor_id (Some session_id)
       (META request !! "HTTP_USER_AGENT")
       (META request !! "REMOTE_ADDR")
       (META request !! "HTTP_REFERER")
       (Some (build_absolute_uri request))
       (GET request !! "utm_source")
       (GET request !! "utm_medium")
       (GET request !! "utm_campaign")
       None None ;;; ret tt
   else ret tt) ;;;
  CRM360Tracker.track_page_view bracketed_host_ok nfkc_netloc_ok
    visitor_id (Some session_id) (build_absolute_uri request) None
    (META request !! "HTTP_REFERER") None ;;;
  response <- get_response request ;;
  let response := set_cookie "crm360_vid" visitor_id (365 * 24 * 60 * 60) response in
  let response := set_cookie "crm360_sid" session_id (30 * 60) response in
  ret response.
End Call.

End DjangoTrackerMiddleware.

(** *** class FlaskTracker *)

Module FlaskTracker.

(** [flask.request]: what the hooks read of it. *)
Record FlaskRequest := mkFlaskRequest
  { request_cookies : gmap string string;
    headers : gmap string string;
    args : gmap string string;
    remote_addr : option string;
    url : string;
    referrer : option string }.

(** [flask.g]: its two attributes the hooks use, [None] for an attribute
    that is not set. *)
Record G := mkG
  { crm360_visitor_id : option string;
    crm360_session_id : option string }.

(** A response: the [Set-Cookie] headers added to it, the most recent
    first, and the rest of it. *)
Record FlaskResponse := mkFlaskResponse
  { set_cookies : list (string * Cookie); data : string }.

(** [response.set_cookie(key, value, max_age=max_age)] adds a header. *)
Definition set_cookie (key value : string) (max_age : Z) (response : FlaskResponse)
    : FlaskResponse :=
  mkFlaskResponse ((key, mkCookie value max_age) :: set_cookies response)
    (data response).

(** What reading an attribute of [g] gives: its value, or AttributeError
    with the name of the attribute. *)
Inductive attribute (A : Type) : Type :=
| Found (a : A)
| AttributeError (name : string).
Arguments Found {A} a.
Arguments AttributeError {A} name.

(** The tracker [init_app] builds; [app_config] is [app.config] and
    [app_debug] is [app.debug]. *)
Definition init_app (app_config : gmap string string) (app_debug : bool)
    (api_key : string) (endpoint : option string) : Tracker :=
  CRM360Tracker.__init__ api_key
    (Some (if is_falsy endpoint
           then default "http://localhost:4000/api/v1/tracking/collect"
                  (app_config !! "CRM360_ENDPOINT")
           else default "" endpoint))
    None
    (Some app_debug).

(** The function [init_app] registers with [app.before_request]; it
    returns the [g] it has written. *)
Definition before_request {console : Console} (request : FlaskRequest) (g : G) : M G :=
  let visitor_id := request_cookies request !! "crm360_vid" in
  let session_id := request_cookies request !! "crm360_sid" in
  let visitor_id : string :=
    if is_falsy visitor_id then
      CRM360Tracker.generate_visitor_id
        (default "" (headers request !! "User-Agent"))
        (format_opt (remote_addr request))
    else default "" visitor_id in
  session_id <-
    (if is_falsy session_id then
       session_id <- CRM360Tracker.generate_session_id ;;
       CRM360Tracker.start_session visitor_id (Some session_id)
         (headers request !! "User-Agent")
         (remote_addr request)
         (referrer request)
         (Some (url request))
         (args request !! "utm_source")
         (args request !! "utm_medium")
         (args request !! "utm_campaign")
         None None ;;;
       ret session_id
     else ret (default "" session_id)) ;;
  ret (mkG (Some visitor_id) (Some session_id)).

(** The function [init_app] registers with [app.after_request]. *)
Definition after_request (g : G) (response : FlaskResponse)
    : attribute FlaskResponse :=
  match crm360_visitor_id g with
  | Some visitor_id =>
      let response := set_cookie "crm360_vid" visitor_id (365 * 24 * 60 * 60) response in
      match crm360_session_id g with
      | Some session_id => Found (set_cookie "crm360_sid" session_id (30 * 60) response)
      | None => AttributeError "crm360_session_id"
      end
  | None => Found response
  end.

Section TrackPage.
Context {console : Console}.
Variable bracketed_host_ok : string -> bool.
Variable nfkc_netloc_ok : string -> bool.

(** [track_page(f)]: the decorated view, for a view [f] of name [f_name];
    the arguments of the call of [f] are part of [f]. *)
Definition track_page {A} (f_name : string) (f : M A) (request : FlaskRequest) (g : G)
    : M (attribute A) :=
  match crm360_session_id g with
  | Some session_id =>
      match crm360_visitor_id g with
      | Some visitor_id =>
          CRM360Tracker.track_page_view bracketed_host_ok nfkc_netloc_ok
            visitor_id (Some session_id) (url request) (Some f_name)
            (referrer request) None ;;;
          a <- f ;;
          ret (Found a)
      | None => ret (AttributeError "crm360_visitor_id")
      end
  | None =>
      a <- f ;;
      ret (Found a)
  end.
End TrackPage.

End FlaskTracker.

(** ** Observing a run *)

(** The JSON body of the most recent request, [{apiKey, type, data}]. *)
Definition last_envelope (st : State) : option value :=
  match posted (world st) with
  | r :: _ => Some (req_json r)
  | [] => None
  end.

(** [d[k]] for a value that is a dict, [None] for a missing key or when the
    value is not a dict. *)
Definition get (k : string) (v : value) : option value :=
  match v with
  | VDict d => d !! k
  | _ => None
  end.

(** A key of the most recent envelope, and a key of its data payload. *)
Definition envelope_field (k : string) (st : State) : option value :=
  match last_envelope st with
  | Some env => get k env
  | None => None
  end.

Definition data_field (k : string) (st : State) : option value :=
  match envelope_field "data" st with
  | Some data => get k data
  | None => None
  end.

(** The number of requests a run has added. *)
Definition requests_added (before after : State) : nat :=
  List.length (posted (world after)) - List.length (posted (world before)).

Import CRM360Tracker.

(** ** The vocabulary of the properties *)

(** The envelope and the request [_send] makes of an event type and a
    payload, for a tracker [t]. *)
Definition envelope_of (t : Tracker) (event_type : string) (data : value) : value :=
  VDict {[ "apiKey" := VStr (api_key t); "type" := VStr event_type; "data" := data ]}.

Definition request_of (t : Tracker) (event_type : string) (data : value) : Request :=
  mkRequest (endpoint t) (envelope_of t event_type data)
    {[ "Content-Type" := "application/json" ]} (timeout t).

(** The timestamp a builder computes in state [st], and [st] after the call
    of [time.time]. *)
Definition stamp (st : State) : Z :=
  int_of_float (float_mul (clock (world st) O) 1000).

Definition tick (st : State) : State :=
  mkState (self st)
    (mkWorld (fun n => clock (world st) (S n)) (uuids (world st))
       (network (world st)) (posted (world st)) (stdout (world st))).

(** A method that leaves every attribute of [self] as it was. *)
Definition preserves_self {A} (m : M A) : Prop :=
  forall st, self (snd (m st)) = self st.

(** A call of a public operation, with its arguments. *)
Inductive call : Type :=
| GenerateVisitorId (user_agent ip_address : string)
| GenerateSessionId
| StartSession (visitor_id : string) (session_id : option string)
    (user_agent ip_address referrer entry_page : option string)
    (utm_source utm_medium utm_campaign utm_term utm_content : option string)
| TrackPageView (visitor_id : string) (session_id : option string) (url : string)
    (title referrer : option string) (load_time : option Z)
| TrackEvent (visitor_id : string) (session_id : option string)
    (event_name event_type : string) (category value_ : option string)
    (metadata : option (gmap string value))
| TrackFormSubmission (visitor_id : string) (session_id : option string)
    (form_id : string) (form_action : option string)
    (fields : option (gmap string value))
| Identify (visitor_id : string) (session_id : option string)
    (email user_id name phone company : option string) (traits : gmap string value)
| EndSession (visitor_id : string) (session_id : option string)
    (exit_page : option string).

Section Calls.
Variable bracketed_host_ok : string -> bool.
Variable nfkc_netloc_ok : string -> bool.

(** The call as a method whose result is dropped. *)
Definition perform (c : call) : M unit :=
  match c with
  | GenerateVisitorId ua ip =>
      let _ := generate_visitor_id ua ip in ret tt
  | GenerateSessionId => generate_session_id ;;; ret tt
  | StartSession vid sid ua ip ref entry u1 u2 u3 u4 u5 =>
      start_session vid sid ua ip ref entry u1 u2 u3 u4 u5 ;;; ret tt
  | TrackPageView vid sid url title ref lt =>
      track_page_view bracketed_host_ok nfkc_netloc_ok vid sid url title ref lt ;;; ret tt
  | TrackEvent vid sid name ty cat val meta =>
      track_event vid sid name ty cat val meta ;;; ret tt
  | TrackFormSubmission vid sid form action fields =>
      track_form_submission vid sid form action fields ;;; ret tt
  | Identify vid sid email uid name phone company traits =>
      identify vid sid email uid name phone company traits ;;; ret tt
  | EndSession vid sid exit_page => end_session vid sid exit_page ;;; ret tt
  end.

(** A caller performing calls one after the other; a call that raises
    leaves the state it reached, and the caller goes on. *)
Fixpoint perform_all (cs : list call) (st : State) : State :=
  match cs with
  | [] => st
  | c :: cs' => perform_all cs' (snd (perform c st))
  end.
End Calls.

(** [payload] has an entry [k: v]: at its top level, or in a value of the
    dict or an item of the list that it is. *)
Inductive has_entry (k : string) (v : value) : value -> Prop :=
| entry_here d : d !! k = Some v -> has_entry k v (VDict d)
| entry_in_dict d k' x : d !! k' = Some x -> has_entry k v x -> has_entry k v (VDict d)
| entry_in_list l x : In x l -> has_entry k v x -> has_entry k v (VList l).

(** C7 as the specification states it, for a run from [before] to [after]:
    the data payload of the request has a non-null [sessionId] and contains
    an integer [timestamp] equal to the time of its construction. *)
Definition stamped_payload (before after : State) : Prop :=
  exists payload,
    envelope_field "data" after = Some payload
    /\ (exists v, get "sessionId" payload = Some v /\ v <> VNone)
    /\ has_entry "timestamp" (VInt (stamp before)) payload.

(** A clock reading: the double nearest to 1700000000.001. *)
Definition example_reading : Q := 3565158400002097 # 2097152.

(** A tracker with the default configuration, in a world where it is half a
    second past 1700000000, every uuid is the same and the server answers
    200. *)
Definition example_state : State :=
  mkState (__init__ "key" None None None)
    (mkWorld (fun _ => 3400000001 # 2)
             (fun _ => "123e4567-e89b-42d3-a456-426614174000")
             (fun _ => Ok (mkResponse 200 "ok")) [] []).

(** The same tracker with [debug] on, in the same world. *)
Definition debug_state : State :=
  mkState (__init__ "key" None None (Some true)) (world example_state).

(** The session id [start_session] resolves: the caller's when it is a
    non-empty string, the next uuid otherwise. *)
Definition resolved_session_id (session_id : option string) (st : State) : string :=
  match session_id with
  | Some (String c s) => String c s
  | _ => uuids (world st) O
  end.

(** [sub] occurs in [v]: it is [v], or occurs in an item of the list or in
    a value of the dict that [v] is. *)
Inductive occurs_in (sub : value) : value -> Prop :=
| occurs_here : occurs_in sub sub
| occurs_in_list l x : In x l -> occurs_in sub x -> occurs_in sub (VList l)
| occurs_in_dict d k x : d !! k = Some x -> occurs_in sub x -> occurs_in sub (VDict d).

(** C3 as the specification states it, for the outcome of a call: the call
    returns a value in which the envelope it sent occurs. *)
Definition returns_envelope (run : result value * State) : Prop :=
  exists returned envelope,
    fst run = Ok returned
    /\ last_envelope (snd run) = Some envelope
    /\ occurs_in envelope returned.

(** The capital of a letter of the alphabet. *)
Definition capital (k : ascii) : ascii :=
  match PyStr.find_char k "abcdefghijklmnopqrstuvwxyz" with
  | Some i => nth i (list_ascii_of_string "ABCDEFGHIJKLMNOPQRSTUVWXYZ") k
  | None => k
  end.

(** The character [c] is the letter [k] in lower or upper case.  The
    Kelvin sign U+212A is a capital K as well: its lower-case form is the
    letter k, and it is the one character outside the alphabet with a
    lower-case form inside. *)
Definition same_letter (k : ascii) (c : Z) : Prop :=
  c = PyStr.ord k \/ c = PyStr.ord (capital k) \/ (k = "k"%char /\ c = 0x212A%Z).

(** The match of the specification: the characters of [key] have, side by
    side, the letters of [kw], each in either case. *)
Definition contains_ignoring_case (kw key : string) : Prop :=
  exists pre mid post,
    PyStr.code_points key = (pre ++ mid ++ post)%list
    /\ Forall2 same_letter (list_ascii_of_string kw) mid.

(** The denylist of the specification. *)
Definition denylist : list string :=
  ["password"; "secret"; "token"; "credit"; "card"; "cvv"; "ssn"].

(** [key] matches a keyword of the denylist. *)
Definition matches_denylist (key : string) : Prop :=
  exists kw, In kw denylist /\ contains_ignoring_case kw key.

(** The key [TOKEN] with the Kelvin sign, U+212A, for its K, and the key
    [password] with a long s, U+017F, for its first s. *)
Definition kelvin_key : string :=
  PyStr.encode_all [0x54; 0x4F; 0x212A; 0x45; 0x4E]%Z.
Definition long_s_key : string :=
  PyStr.encode_all [0x70; 0x61; 0x17F; 0x73; 0x77; 0x6F; 0x72; 0x64]%Z.

(** *** Notions of the proof about [str.lower]

    What a position of a decoded string holds: a code point, or a byte that
    starts none. *)
Definition well_formed (c : Z) : Prop :=
  (0 <= c < 0x110000 \/ 0x110080 <= c < 0x110100)%Z.

(** A string of bytes above 127. *)
Definition above_ascii (s : string) : bool := PyStr.all_chars (fun b => negb (PyStr.is_ascii b)) s.

(** A range of the table of lower-case forms that keeps the code points
    above 127 apart from the characters of ASCII, the Kelvin sign aside. *)
Definition range_ok (r : Z * Z * Z * Z) : bool :=
  let '(first, last, step, delta) := r in
  (last <? 128)%Z
  || ((first =? 0x212A)%Z && (last =? 0x212A)%Z)
  || ((128 <=? first + delta)%Z && (last + delta <? 0x110000)%Z).

(** A keyword of lower-case letters of the alphabet in which an [i] is not
    the last letter. *)
Fixpoint plain_keyword (kw : string) : bool :=
  match kw with
  | EmptyString => true
  | String k kw' =>
      PyStr.is_lower k
      && (negb (Ascii.eqb k "i") || negb (String.eqb kw' ""))
      && plain_keyword kw'
  end.

(** The characters [l] start with the letters [ks], each in either case. *)
Fixpoint reads (ks : list ascii) (l : list Z) : Prop :=
  match ks, l with
  | [], _ => True
  | k :: ks', c :: l' => same_letter k c /\ reads ks' l'
  | _ :: _, [] => False
  end.


(** C5 as the specification states it, for the state a call on [url] ends
    in: the payload sent holds [url] itself and a path. *)
Definition sends_url_and_path (url : string) (after : State) : Prop :=
  data_field "url" after = Some (VStr url)
  /\ exists path, data_field "path" after = Some (VStr path).

(** The hexadecimal digit of the [i]-th group of four bits of [x]. *)
Definition nibble (i : nat) (x : Z) : ascii :=
  Sha256.hex_digit (Z.land (Z.shiftr x (4 * Z.of_nat i)) 0xF).

(** A lower-case hexadecimal digit. *)
Definition is_hex_digit (c : ascii) : bool := PyStr.has_char c "0123456789abcdef".

(** What [_send] returns in state [st]: whether the next answer of the
    network is a response with status 200. *)
Definition ack (st : State) : bool :=
  match network (world st) O with
  | Ok r => (status_code r =? 200)%Z
  | Raise _ => false
  end.

(** A console on which no diagnostic fails. *)
Definition never_fails (c : Console) : Prop :=
  (forall v, @json_dumps_raises c v = None) /\ (forall l, @print_raises c l = None).

(** The exception of the diagnostics that come before the POST when [debug]
    is on, if one of them raises: the one of [json.dumps], else the one of
    [print]. *)
Definition announce_raises (c : Console) (event_type : string) (envelope : value)
    : option exn :=
  match @json_dumps_raises c envelope with
  | Some e => Some e
  | None => @print_raises c (LogSending event_type envelope)
  end.

(** What the call ends with when [debug] is on and the exception [e]
    reaches the handler of [_send]: the exception of the [print] there when
    it raises, [False] otherwise. *)
Definition handler_result (c : Console) (e : exn) : result bool :=
  match @print_raises c (LogError e) with
  | Some e' => Raise e'
  | None => Ok false
  end.

(** C1 as the specification states it, for the outcome [run] of a call of
    [_send] in state [st]: the call returns, and it returns [True] exactly
    when the network answered with status 200. *)
Definition reports_delivery (st : State) (run : result bool * State) : Prop :=
  exists b, fst run = Ok b
    /\ (b = true <-> exists r, network (world st) O = Ok r /\ status_code r = 200%Z).

(** A console whose [stdout] is closed: every [print] raises. *)
Definition closed_stdout : Console :=
  {| json_dumps_raises := fun _ => None;
     print_raises := fun _ => Some (ValueError "I/O operation on closed file.") |}.

(** A console on which the [print] of a response raises, and no other. *)
Definition response_unprintable : Console :=
  {| json_dumps_raises := fun _ => None;
     print_raises := fun l =>
       match l with
       | LogResponse _ _ => Some (ValueError "'ascii' codec can't encode character")
       | _ => None
       end |}.

(** A console on which [json.dumps] raises, as it does on a payload holding
    an integer of more than 4300 digits. *)
Definition json_rejects : Console :=
  {| json_dumps_raises := fun _ =>
       Some (ValueError "Exceeds the limit (4300 digits) for integer string conversion");
     print_raises := fun _ => None |}.

(** The event types the builders send. *)
Definition event_types : list string :=
  ["session.start"; "page.view"; "events.batch"; "form.submit"; "user.identify";
   "page.leave"].

(** A request as tracker [t] makes them: to its endpoint, with its timeout
    and its key, of one of the event types, with a dict as payload. *)
Definition tracked (t : Tracker) (r : Request) : Prop :=
  exists event_type payload,
    In event_type event_types /\ r = request_of t event_type (VDict payload).

(** A method that leaves the tracker as it is and adds at most [n] requests,
    all [tracked], in front of those already posted. *)
Definition posts {A} (n : nat) (m : M A) : Prop :=
  forall st,
    self (snd (m st)) = self st
    /\ exists new,
         posted (world (snd (m st))) = (new ++ posted (world st))%list
         /\ (List.length new <= n)%nat
         /\ Forall (tracked (self st)) new.

(** Every character of [sub] occurs in [s]. *)
Definition chars_within (sub s : string) : Prop :=
  forall c, PyStr.has_char c sub = true -> PyStr.has_char c s = true.

(** A view that answers every request with the same response. *)
Definition example_view
    : DjangoTrackerMiddleware.HttpRequest -> M DjangoTrackerMiddleware.HttpResponse :=
  fun _ => ret (DjangoTrackerMiddleware.mkHttpResponse ∅ "ok").

(** The two cookies of a visitor who has been seen before. *)
Definition example_cookies : gmap string string :=
  {[ "crm360_vid" := "visitor-123"; "crm360_sid" := "session-456" ]}.

(** A Django request and a Flask request with the given cookies for the
    given url, from a campaign link. *)
Definition example_django_request (cookies : gmap string string) (uri : string)
    : DjangoTrackerMiddleware.HttpRequest :=
  DjangoTrackerMiddleware.mkHttpRequest cookies
    {[ "HTTP_USER_AGENT" := "Mozilla/5.0"; "REMOTE_ADDR" := "203.0.113.7" ]}
    {[ "utm_source" := "newsletter"; "utm_term" := "shoes" ]}
    uri None None.

Definition example_flask_request (cookies : gmap string string) (uri : string)
    : FlaskTracker.FlaskRequest :=
  FlaskTracker.mkFlaskRequest cookies
    {[ "User-Agent" := "Mozilla/5.0" ]}
    {[ "utm_source" := "newsletter"; "utm_term" := "shoes" ]}
    None uri None.

(** * Properties *)

(** ** The transport: [_send] *)

(** Runs [_send] by cases on the [debug] attribute and on what
    [requests.post] does. *)
Ltac run_send st :=
  unfold _send, try_except, bind, attr, when, requests_post, json_dumps, print,
    update_world, ret;
  destruct st as [[? ? ? [|] ?] [? ? net ? ?]]; cbn;
  destruct (net O); reflexivity.

Lemma send_result event_type data st :
  fst (_send event_type data st) =
  Ok (match network (world st) O with
      | Ok r => (status_code r =? 200)%Z
      | Raise _ => false
      end).
Proof.
  run_send st.
Qed.

Lemma send_posted event_type data st :
  posted (world (snd (_send event_type data st))) =
  request_of (self st) event_type data :: posted (world st).
Proof.
  run_send st.
Qed.

Lemma send_self event_type data st :
  self (snd (_send event_type data st)) = self st.
Proof.
  run_send st.
Qed.

Lemma send_clock event_type data st :
  clock (world (snd (_send event_type data st))) = clock (world st)
  /\ uuids (world (snd (_send event_type data st))) = uuids (world st).
Proof.
  split; run_send st.
Qed.

(** One step of a run of [_send] on a console: an equation at hand decides
    a test, or the test is split in its cases. *)
Ltac send_step :=
  match goal with
  | H : Some _ = Some _ |- _ => injection H as H; subst
  | H : Ok _ = Ok _ |- _ => injection H as H; subst
  | H : Raise _ = Raise _ |- _ => injection H as H; subst
  | H : _ = _ |- _ => discriminate H
  | H : ?x = _ |- context [match ?x with _ => _ end] => rewrite H; cbn in *
  | H : ?x = _, H' : context [match ?x with _ => _ end] |- _ => rewrite H in H'; cbn in *
  | H : context [match @json_dumps_raises ?c ?v with _ => _ end] |- _ =>
      destruct (@json_dumps_raises c v) eqn:?; cbn in *
  | H : context [match @print_raises ?c ?l with _ => _ end] |- _ =>
      destruct (@print_raises c l) eqn:?; cbn in *
  | H : context [match ?net O with _ => _ end] |- _ =>
      is_var net; destruct (net O) eqn:?; cbn in *
  | |- context [match @json_dumps_raises ?c ?v with _ => _ end] =>
      destruct (@json_dumps_raises c v) eqn:?; cbn in *
  | |- context [match @print_raises ?c ?l with _ => _ end] =>
      destruct (@print_raises c l) eqn:?; cbn in *
  | |- context [match ?net O with _ => _ end] =>
      is_var net; destruct (net O) eqn:?; cbn in *
  end.

Ltac run_send_on st :=
  unfold _send, try_except, bind, attr, when, requests_post, json_dumps, print,
    update_world, ret, raise, announce_raises, handler_result, ack, envelope_of in *;
  destruct st as [[? ? ? [|] ?] [? ? ? ? ?]]; cbn in *;
  repeat send_step.

Lemma ack_true st :
  ack st = true <-> exists r, network (world st) O = Ok r /\ status_code r = 200%Z.
Proof.
  unfold ack. destruct (network (world st) O) as [r | e].
  - rewrite Z.eqb_eq. split; [eauto |]. now intros (r' & [= <-] & H).
  - split; [discriminate |]. now intros (r & [=] & _).
Qed.

(** With [debug] off, or on a console on which no diagnostic fails, [_send]
    returns whether the network answered with status 200. *)
Lemma send_undisturbed (c : Console) event_type data st :
  debug (self st) = false \/ never_fails c ->
  fst (_send (console := c) event_type data st) = Ok (ack st).
Proof.
  intros [Hdebug | [Hjson Hprint]].
  - run_send_on st; reflexivity.
  - unfold _send, try_except, bind, attr, when, requests_post, json_dumps, print,
      update_world, ret, raise, ack.
    destruct st as [[? ? ? [|] ?] [? ? net ? ?]]; cbn;
      rewrite ?Hjson, ?Hprint; cbn; destruct (net O); cbn; rewrite ?Hprint; reflexivity.
Qed.

(** C1, as the code has it. With [debug] off, and also with [debug] on as
    long as no diagnostic fails, [_send] never raises: it returns [True]
    exactly when [requests.post] returned a response whose status code is
    200, and [False] for every other status code and for every exception
    raised by the transport. On any console [True] is returned only for a
    response with status 200. With [debug] on the diagnostics are part of
    the [try] block: an exception of [json.dumps] or of the first [print]
    reaches the handler before anything is posted, and so does one of the
    [print] of the response, even when the status is 200; the handler
    returns [False], unless its own [print] raises, and then that exception
    leaves [_send]. No other exception leaves it. *)
Theorem send_reports_delivery (c : Console) (event_type : string) (data : value)
    (st : State) :
  let run := _send (console := c) event_type data st in
  let envelope := envelope_of (self st) event_type data in
  (debug (self st) = false \/ never_fails c -> fst run = Ok (ack st))
  /\ (fst run = Ok true ->
      exists r, network (world st) O = Ok r /\ status_code r = 200%Z)
  /\ (forall e', fst run = Raise e' ->
        debug (self st) = true /\ exists e, @print_raises c (LogError e) = Some e')
  /\ (debug (self st) = true ->
      forall e, announce_raises c event_type envelope = Some e ->
        fst run = handler_result c e
        /\ posted (world (snd run)) = posted (world st))
  /\ (debug (self st) = true -> announce_raises c event_type envelope = None ->
      forall e, network (world st) O = Raise e -> fst run = handler_result c e)
  /\ (debug (self st) = true -> announce_raises c event_type envelope = None ->
      forall r, network (world st) O = Ok r ->
        fst run = match @print_raises c (LogResponse (status_code r) (text r)) with
                  | Some e => handler_result c e
                  | None => Ok (status_code r =? 200)%Z
                  end)
  /\ (ack st = true <->
      exists r, network (world st) O = Ok r /\ status_code r = 200%Z).
Proof.
  cbv zeta.
  split; [apply send_undisturbed |].
  split; [| split; [| split; [| split; [| split; [| apply ack_true]]]]].
  - intros H. run_send_on st; eexists; (split; [reflexivity | now apply Z.eqb_eq]).
  - intros e' H. run_send_on st; eauto.
  - intros Hdebug e Hann. run_send_on st; split; reflexivity.
  - intros Hdebug Hann e Hnet. run_send_on st; reflexivity.
  - intros Hdebug Hann r Hnet. run_send_on st; reflexivity.
Qed.

(** C1, the failing calls. With [debug] on and a response with status 200:
    on a closed [stdout] the call raises; when only the [print] of the
    response raises, and when [json.dumps] raises, it returns [False]. *)
Lemma send_with_debug_fails :
  ~ reports_delivery debug_state
      (_send (console := closed_stdout) "page.view" (VDict ∅) debug_state)
  /\ ~ reports_delivery debug_state
         (_send (console := response_unprintable) "page.view" (VDict ∅) debug_state)
  /\ ~ reports_delivery debug_state
         (_send (console := json_rejects) "page.view" (VInt (10 ^ 5000)) debug_state).
Proof.
  assert (H200 : exists r, network (world debug_state) O = Ok r /\ status_code r = 200%Z).
  { eexists. split; reflexivity. }
  split; [| split]; intros (b & Hrun & Hiff).
  - discriminate Hrun.
  - injection Hrun as <-. apply Hiff in H200. discriminate H200.
  - injection Hrun as <-. apply Hiff in H200. discriminate H200.
Qed.

(** ** Running the builders *)

Lemma bind_now_ms {A} (k : Z -> M A) st : bind now_ms k st = k (stamp st) (tick st).
Proof. reflexivity. Qed.

Lemma fields_of_posted st t event_type data rest :
  posted (world st) = request_of t event_type data :: rest ->
  envelope_field "apiKey" st = Some (VStr (api_key t))
  /\ envelope_field "type" st = Some (VStr event_type)
  /\ envelope_field "data" st = Some data
  /\ forall k, data_field k st = get k data.
Proof.
  intros H. unfold data_field, envelope_field, last_envelope. rewrite H.
  repeat split.
Qed.

(** ** The tracker object is never written *)

Lemma preserves_ret {A} (a : A) : preserves_self (ret a).
Proof. intros st; reflexivity. Qed.

Lemma preserves_lift {A} (r : result A) : preserves_self (lift r).
Proof. intros st; reflexivity. Qed.

Lemma preserves_bind {A B} (m : M A) (k : A -> M B) :
  preserves_self m -> (forall a, preserves_self (k a)) -> preserves_self (bind m k).
Proof.
  intros Hm Hk st. unfold bind. specialize (Hm st).
  destruct (m st) as [[a | e] st']; cbn in *.
  - now rewrite Hk.
  - exact Hm.
Qed.

Lemma preserves_now_ms : preserves_self now_ms.
Proof. intros st; reflexivity. Qed.

Lemma preserves_uuid4 : preserves_self uuid4.
Proof. intros st; reflexivity. Qed.

Lemma preserves_send event_type data : preserves_self (_send event_type data).
Proof. intros st; apply send_self. Qed.

Lemma preserves_session_id_or_generate sid :
  preserves_self (session_id_or_generate sid).
Proof. destruct sid as [[| c s] |]; intros st; reflexivity. Qed.

Create HintDb frame.
#[local] Hint Resolve preserves_ret preserves_lift preserves_now_ms preserves_uuid4
  preserves_send preserves_session_id_or_generate : frame.

Ltac frame := repeat (apply preserves_bind; [| intros ?]); auto with frame.

Section CallsFrame.
Variable bracketed_host_ok : string -> bool.
Variable nfkc_netloc_ok : string -> bool.

Lemma perform_preserves_self c :
  preserves_self (perform bracketed_host_ok nfkc_netloc_ok c).
Proof.
  destruct c; cbn [perform];
    unfold generate_session_id, start_session, track_page_view, track_event,
      track_form_submission, identify, end_session; frame.
Qed.

(** C8. Whatever public operations are called, in whatever order and with
    whatever outcome, the attributes of the tracker stay the ones it had:
    the configuration is the one given at construction and the queue of a
    constructed tracker stays empty. *)
Theorem tracker_attributes_unchanged (cs : list call) (st : State) :
  self (perform_all bracketed_host_ok nfkc_netloc_ok cs st) = self st
  /\ (forall key url tmo dbg w,
        let t := __init__ key url tmo dbg in
        let st' := perform_all bracketed_host_ok nfkc_netloc_ok cs (mkState t w) in
        api_key (self st') = key
        /\ endpoint (self st') = endpoint t
        /\ timeout (self st') = timeout t
        /\ debug (self st') = debug t
        /\ _queue (self st') = []).
Proof.
  assert (Hself : forall cs st, self (perform_all bracketed_host_ok nfkc_netloc_ok cs st) = self st).
  { clear. intros cs. induction cs as [| c cs IH]; intros st; cbn.
    - reflexivity.
    - rewrite IH. apply perform_preserves_self. }
  split; [apply Hself |].
  intros key url tmo dbg w t st'. subst st'. rewrite Hself. cbn.
  repeat split.
Qed.
End CallsFrame.

(** ** What the builders hand to [_send] *)

(** Exposes the request a builder posts: the goal gains the equations of
    [fields_of_posted] for the state the builder ends in. *)
Ltac run_builder :=
  rewrite ?bind_now_ms; cbv zeta;
  lazymatch goal with
  | |- context [ _send ?ty ?data ?st ] =>
      let Hposted := fresh "Hposted" in
      pose proof (send_posted ty data st) as Hposted;
      apply fields_of_posted in Hposted;
      destruct Hposted as (Hkey & Htype & Hdata & Hfield)
  end.

(** C9. Whatever [user_id] is, and in particular when it is [None], the
    payload of [identify] has a top-level [userId] key holding it: [None]
    is sent as a null there, the filter of null values only runs over
    [traits]. *)
Theorem identify_keeps_top_level_userId
    (visitor_id : string) (session_id : option string)
    (email user_id name phone company : option string)
    (traits : gmap string value) (st : State) :
  let st' := snd (identify visitor_id session_id email user_id name phone company traits st) in
  data_field "userId" st' = Some (of_opt_str user_id)
  /\ (user_id = None <-> data_field "userId" st' = Some VNone)
  /\ envelope_field "type" st' = Some (VStr "user.identify").
Proof.
  unfold identify. run_builder. cbv zeta. rewrite Hfield.
  split; [reflexivity |]. split; [| exact Htype].
  change (get "userId" _) with (Some (of_opt_str user_id)).
  destruct user_id; cbn; split; congruence.
Qed.

Lemma dict_truthy_empty : dict_truthy ∅ = false.
Proof. unfold dict_truthy. now rewrite map_to_list_empty. Qed.

(** C10. When [fields] is omitted ([None]), and also when it is an empty
    dict, the payload of [track_form_submission] has a [fields] key holding
    the empty dict, never a null. *)
Theorem form_submission_without_fields
    (visitor_id : string) (session_id : option string)
    (form_id : string) (form_action : option string) (st : State) :
  data_field "fields"
    (snd (track_form_submission visitor_id session_id form_id form_action None st))
  = Some (VDict ∅)
  /\ data_field "fields"
       (snd (track_form_submission visitor_id session_id form_id form_action (Some ∅) st))
     = Some (VDict ∅)
  /\ forall fields, exists safe_fields,
       data_field "fields"
         (snd (track_form_submission visitor_id session_id form_id form_action fields st))
       = Some (VDict safe_fields).
Proof.
  split; [| split].
  - unfold track_form_submission. run_builder. now rewrite Hfield.
  - unfold track_form_submission. run_builder. rewrite Hfield.
    unfold mask_fields. now rewrite dict_truthy_empty.
  - intros fields. exists (mask_fields fields).
    unfold track_form_submission. run_builder. now rewrite Hfield.
Qed.

(** *** Session id and timestamp *)

Lemma bind_ret {A B} (a : A) (k : A -> M B) st : bind (ret a) k st = k a st.
Proof. reflexivity. Qed.

Lemma bind_send_ret {A} event_type data (v : A) st :
  bind (_send event_type data) (fun _ => ret v) st
  = (Ok v, snd (_send event_type data st)).
Proof.
  unfold bind. pose proof (send_result event_type data st) as H.
  destruct (_send event_type data st) as [[b | e] st']; cbn in *.
  - reflexivity.
  - discriminate H.
Qed.

Lemma int_of_float_floor (x : Q) :
  (0 <= x)%Q -> (inject_Z (int_of_float x) <= x < inject_Z (int_of_float x) + 1)%Q.
Proof.
  intros Hx. unfold int_of_float.
  assert (Hnum : (0 <= Qnum x)%Z).
  { unfold Qle in Hx. cbn in Hx. lia. }
  rewrite Z.quot_div_nonneg by lia.
  replace (Qnum x / Z.pos (Qden x))%Z with (Qfloor x) by (destruct x; reflexivity).
  split.
  - apply Qfloor_le.
  - apply Qlt_le_trans with (inject_Z (Qfloor x + 1)); [apply Qlt_floor |].
    rewrite inject_Z_plus. apply Qle_refl.
Qed.

Lemma floor_log2_le (x : Q) : (0 < x)%Q -> (Qpower 2 (floor_log2 x) <= x)%Q.
Proof.
  intros Hx. unfold floor_log2.
  set (a := Z.log2 (Qnum x)). set (b := Z.log2 (Z.pos (Qden x))).
  destruct (Qle_bool (Qpower 2 (a - b)) x) eqn:E; [now apply Qle_bool_iff |].
  clear E.
  assert (Hn : (0 < Qnum x)%Z) by (unfold Qlt in Hx; cbn in Hx; lia).
  destruct (Z.log2_spec (Qnum x) Hn) as [Ha _]. fold a in Ha.
  destruct (Z.log2_spec (Z.pos (Qden x)) (Pos2Z.is_pos _)) as [_ Hb]. fold b in Hb.
  assert (Ha0 : (0 <= a)%Z) by apply Z.log2_nonneg.
  assert (Hb0 : (0 <= b)%Z) by apply Z.log2_nonneg.
  clearbody a b.
  assert (EA : (Qpower 2 a == inject_Z (2 ^ a))%Q)
    by (symmetry; apply (Zpower_Qpower 2); lia).
  assert (EB : (Qpower 2 (Z.succ b) == inject_Z (2 ^ Z.succ b))%Q)
    by (symmetry; apply (Zpower_Qpower 2); lia).
  assert (HB : (0 < 2 ^ Z.succ b)%Z) by (apply Z.pow_pos_nonneg; lia).
  replace (a - b - 1)%Z with (a - Z.succ b)%Z by lia.
  rewrite Qpower_minus by discriminate. rewrite EA, EB.
  destruct x as [n d]. cbn [Qnum Qden] in *.
  rewrite (Qmake_Qdiv n d).
  apply Qle_shift_div_r.
  { change 0%Q with (inject_Z 0). rewrite <- Zlt_Qlt. exact HB. }
  setoid_replace (inject_Z n / inject_Z (Z.pos d) * inject_Z (2 ^ Z.succ b))%Q
    with (inject_Z n * inject_Z (2 ^ Z.succ b) / inject_Z (Z.pos d))%Q
    using relation Qeq by (field; discriminate).
  apply Qle_shift_div_l.
  { change 0%Q with (inject_Z 0). rewrite <- Zlt_Qlt. lia. }
  rewrite <- !inject_Z_mult, <- Zle_Qle. nia.
Qed.

Lemma round_half_even_near (y : Q) :
  (inject_Z (round_half_even y) - (1 # 2) <= y <= inject_Z (round_half_even y) + (1 # 2))%Q.
Proof.
  unfold round_half_even.
  pose proof (Qfloor_le y) as Hlo. pose proof (Qlt_floor y) as Hhi.
  rewrite inject_Z_plus in Hhi. change (inject_Z 1) with 1%Q in Hhi.
  destruct (Qcompare (y - inject_Z (Qfloor y)) (1 # 2)) eqn:E.
  - apply Qeq_alt in E.
    destruct (Z.even (Qfloor y)); rewrite ?inject_Z_plus;
      change (inject_Z 1) with 1%Q; split; lra.
  - apply Qlt_alt in E. split; lra.
  - apply Qgt_alt in E. rewrite inject_Z_plus. change (inject_Z 1) with 1%Q. split; lra.
Qed.

Lemma round_half_even_nonneg (y : Q) : (0 <= y)%Q -> (0 <= round_half_even y)%Z.
Proof.
  intros Hy. unfold round_half_even.
  assert (H : (0 <= Qfloor y)%Z).
  { change 0%Z with (Qfloor 0). now apply Qfloor_resp_le. }
  destruct (Qcompare _ _); [destruct (Z.even _) | |]; lia.
Qed.

Lemma round_double_nonneg (x : Q) : (0 <= x)%Q -> (0 <= round_double x)%Q.
Proof.
  intros Hx. unfold round_double.
  destruct (Qcompare x 0) eqn:E.
  - apply Qle_refl.
  - apply Qlt_alt in E. lra.
  - apply Qgt_alt in E.
    apply Qmult_le_0_compat.
    + change 0%Q with (inject_Z 0). rewrite <- Zle_Qle.
      apply round_half_even_nonneg. apply Qle_shift_div_l.
      * now apply Qpower_0_lt.
      * lra.
    + apply Qpower_0_le. discriminate.
Qed.

(** Below 2^53 the rounding to a double moves a number by at most one half. *)
Lemma round_double_near (x : Q) :
  (0 <= x)%Q -> (x < 9007199254740992)%Q ->
  (round_double x - (1 # 2) <= x <= round_double x + (1 # 2))%Q.
Proof.
  intros Hx Hbig. unfold round_double.
  destruct (Qcompare x 0) eqn:E.
  - apply Qeq_alt in E. split; lra.
  - apply Qlt_alt in E. lra.
  - apply Qgt_alt in E.
    set (e := (floor_log2 x - 52)%Z).
    assert (He : (e <= 0)%Z).
    { subst e. destruct (Z_lt_le_dec (floor_log2 x) 53) as [Hlt | Hge]; [lia |].
      pose proof (floor_log2_le x E) as Hle.
      pose proof (Qpower_le_compat_l 2 53 (floor_log2 x) Hge ltac:(discriminate)) as Hmono.
      change (Qpower 2 53) with 9007199254740992%Q in Hmono. lra. }
    assert (Hp : (0 < Qpower 2 e)%Q) by now apply Qpower_0_lt.
    assert (Hp1 : (Qpower 2 e <= 1)%Q).
    { pose proof (Qpower_le_compat_l 2 e 0 He ltac:(discriminate)) as H. exact H. }
    pose proof (round_half_even_near (x / Qpower 2 e)) as [Hlo Hhi].
    set (m := inject_Z (round_half_even (x / Qpower 2 e))) in *.
    assert (Hx' : (x == x / Qpower 2 e * Qpower 2 e)%Q) by (field; lra).
    set (y := (x / Qpower 2 e)%Q) in *. clearbody y m.
    set (p := Qpower 2 e) in *. clearbody p.
    split.
    + assert ((m - (1 # 2)) * p <= y * p)%Q by (apply Qmult_le_compat_r; lra).
      nra.
    + assert (y * p <= (m + (1 # 2)) * p)%Q by (apply Qmult_le_compat_r; lra).
      nra.
Qed.

(** The timestamp is the whole number of milliseconds of the product the
    code computes, a double; below 2^53 milliseconds that product is within
    half a millisecond of the exact one. *)
Lemma stamp_floor st :
  (0 <= clock (world st) O)%Q ->
  (inject_Z (stamp st) <= float_mul (clock (world st) O) 1000 < inject_Z (stamp st) + 1)%Q.
Proof.
  intros H. apply int_of_float_floor. apply round_double_nonneg.
  apply Qmult_le_0_compat; [exact H | discriminate].
Qed.

Lemma stamp_near st :
  (0 <= clock (world st) O)%Q -> (clock (world st) O * 1000 < 9007199254740992)%Q ->
  (clock (world st) O * 1000 - (3 # 2) < inject_Z (stamp st)
   /\ inject_Z (stamp st) <= clock (world st) O * 1000 + (1 # 2))%Q.
Proof.
  intros H0 Hbig.
  assert (Hx : (0 <= clock (world st) O * 1000)%Q)
    by (apply Qmult_le_0_compat; [exact H0 | discriminate]).
  destruct (stamp_floor st H0) as [Hlo Hhi].
  destruct (round_double_near _ Hx Hbig) as [Hnear1 Hnear2].
  unfold float_mul in Hlo, Hhi.
  split; lra.
Qed.

Lemma bind_lift {A B} (r : result A) (k : A -> M B) st :
  bind (lift r) k st = match r with Ok a => k a st | Raise e => (Raise e, st) end.
Proof. destruct r; reflexivity. Qed.

Lemma bind_uuid4 {A} (k : string -> M A) st :
  bind uuid4 k st
  = k (uuids (world st) O)
      (mkState (self st)
         (mkWorld (clock (world st)) (fun n => uuids (world st) (S n))
            (network (world st)) (posted (world st)) (stdout (world st)))).
Proof. reflexivity. Qed.

Lemma start_session_posted visitor_id session_id ua ip ref entry u1 u2 u3 u4 u5 st :
  let run := start_session visitor_id session_id ua ip ref entry u1 u2 u3 u4 u5 st in
  let sid := resolved_session_id session_id st in
  fst run = Ok (VDict {[ "session_id" := VStr sid; "visitor_id" := VStr visitor_id ]})
  /\ envelope_field "type" (snd run) = Some (VStr "session.start")
  /\ data_field "sessionId" (snd run) = Some (VStr sid)
  /\ data_field "visitorId" (snd run) = Some (VStr visitor_id)
  /\ data_field "timestamp" (snd run) = Some (VInt (stamp st))
  /\ requests_added st (snd run) = 1%nat
  /\ uuids (world (snd run))
     = match session_id with
       | Some (String _ _) => uuids (world st)
       | _ => fun n => uuids (world st) (S n)
       end.
Proof.
  unfold start_session, session_id_or_generate, generate_session_id, requests_added.
  destruct session_id as [[| c s] |]; cbv zeta;
    rewrite ?bind_ret, ?bind_uuid4, bind_now_ms; cbv zeta;
    rewrite bind_send_ret; cbn [fst snd];
    (lazymatch goal with
     | |- context [ _send ?ty ?data ?st ] =>
         pose proof (send_posted ty data st) as Hposted;
         pose proof (proj2 (send_clock ty data st)) as Huuids;
         pose proof (fields_of_posted _ _ _ _ _ Hposted) as (Hkey & Htype & Hdata & Hfield)
     end);
    rewrite !Hfield, Hposted, Huuids; cbn [List.length];
    repeat split; try assumption; cbn; lia.
Qed.

(** C7. Every builder hands [_send] a payload with a non-null [sessionId]
    and with an integer [timestamp] holding the time of its construction.
    The [sessionId] is the one of the caller; [start_session] resolves it
    first, to the next uuid when the caller gave none or the empty string.
    [start_session], [track_page_view], [track_form_submission], [identify]
    and [end_session] have the timestamp at the top level of the payload;
    in the payload of [track_event] it is an entry of the single event of
    [events]. A call of [track_page_view] on a url that does not parse
    hands nothing to [_send]. The timestamp is [int(time.time() * 1000)]:
    the whole milliseconds of the product, which is a double and so within
    half a millisecond of the exact product; at 1700000000.001 it is
    1700000000001. *)
Theorem builders_carry_session_and_timestamp :
  (forall vid sid ua ip ref entry u1 u2 u3 u4 u5 st,
     let st' := snd (start_session vid sid ua ip ref entry u1 u2 u3 u4 u5 st) in
     stamped_payload st st'
     /\ data_field "sessionId" st' = Some (VStr (resolved_session_id sid st))
     /\ data_field "timestamp" st' = Some (VInt (stamp st)))
  /\ (forall bh nf vid sid url title ref lt st,
        let run := track_page_view bh nf vid (Some sid) url title ref lt st in
        match UrlParse.urlparse bh nf url with
        | Ok _ => stamped_payload st (snd run)
                  /\ data_field "sessionId" (snd run) = Some (VStr sid)
                  /\ data_field "timestamp" (snd run) = Some (VInt (stamp st))
        | Raise e => run = (Raise e, st)
        end)
  /\ (forall vid sid form action fields st,
        let st' := snd (track_form_submission vid (Some sid) form action fields st) in
        stamped_payload st st'
        /\ data_field "sessionId" st' = Some (VStr sid)
        /\ data_field "timestamp" st' = Some (VInt (stamp st)))
  /\ (forall vid sid email uid name phone company traits st,
        let st' := snd (identify vid (Some sid) email uid name phone company traits st) in
        stamped_payload st st'
        /\ data_field "sessionId" st' = Some (VStr sid)
        /\ data_field "timestamp" st' = Some (VInt (stamp st)))
  /\ (forall vid sid exit_page st,
        let st' := snd (end_session vid (Some sid) exit_page st) in
        stamped_payload st st'
        /\ data_field "sessionId" st' = Some (VStr sid)
        /\ data_field "timestamp" st' = Some (VInt (stamp st)))
  /\ (forall vid sid name ty cat val meta st,
        let st' := snd (track_event vid (Some sid) name ty cat val meta st) in
        stamped_payload st st'
        /\ data_field "sessionId" st' = Some (VStr sid)
        /\ data_field "timestamp" st' = None
        /\ exists event, data_field "events" st' = Some (VList [event])
                         /\ get "timestamp" event = Some (VInt (stamp st)))
  /\ (forall st, (0 <= clock (world st) O)%Q ->
        (inject_Z (stamp st) <= float_mul (clock (world st) O) 1000
         < inject_Z (stamp st) + 1)%Q)
  /\ (forall st, (0 <= clock (world st) O)%Q ->
        (clock (world st) O * 1000 < 9007199254740992)%Q ->
        (clock (world st) O * 1000 - (3 # 2) < inject_Z (stamp st)
         /\ inject_Z (stamp st) <= clock (world st) O * 1000 + (1 # 2))%Q)
  /\ int_of_float (float_mul example_reading 1000) = 1700000000001%Z
  /\ stamp example_state = 1700000000500%Z.
Proof.
  assert (Hstr : forall s, VStr s <> VNone) by discriminate.
  split; [| split; [| split; [| split; [| split; [| split; [| split; [| split; [| split]]]]]]]].
  - intros.
    destruct (start_session_posted vid sid ua ip ref entry u1 u2 u3 u4 u5 st)
      as (_ & _ & Hsid & _ & Hts & _ & _).
    fold st' in Hsid, Hts. split; [| split; assumption].
    unfold data_field in Hsid, Hts. unfold stamped_payload.
    destruct (envelope_field "data" st') as [payload |]; [| discriminate].
    exists payload. split; [reflexivity |]. split; [eauto |].
    destruct payload; try discriminate. now apply entry_here.
  - intros. subst run. unfold track_page_view. rewrite bind_lift.
    destruct (UrlParse.urlparse bh nf url) as [p | e]; [| reflexivity].
    run_builder. unfold stamped_payload. rewrite !Hfield, Hdata.
    split; [| split; reflexivity].
    eexists. split; [reflexivity |]. split.
    + eexists; split; [reflexivity | apply Hstr].
    + now apply entry_here.
  - intros. subst st'. unfold track_form_submission. run_builder.
    unfold stamped_payload. rewrite !Hfield, Hdata.
    split; [| split; reflexivity].
    eexists. split; [reflexivity |]. split.
    + eexists; split; [reflexivity | apply Hstr].
    + now apply entry_here.
  - intros. subst st'. unfold identify. run_builder.
    unfold stamped_payload. rewrite !Hfield, Hdata.
    split; [| split; reflexivity].
    eexists. split; [reflexivity |]. split.
    + eexists; split; [reflexivity | apply Hstr].
    + now apply entry_here.
  - intros. subst st'. unfold end_session. run_builder.
    unfold stamped_payload. rewrite !Hfield, Hdata.
    split; [| split; reflexivity].
    eexists. split; [reflexivity |]. split.
    + eexists; split; [reflexivity | apply Hstr].
    + now apply entry_here.
  - intros. subst st'. unfold track_event. run_builder.
    unfold stamped_payload. rewrite !Hfield, Hdata.
    split; [| split; [reflexivity | split; [reflexivity |]]].
    + eexists. split; [reflexivity |]. split.
      * eexists; split; [reflexivity | apply Hstr].
      * eapply entry_in_dict with (k' := "events"); [reflexivity |].
        eapply entry_in_list; [left; reflexivity |].
        now apply entry_here.
    + eexists; split; reflexivity.
  - apply stamp_floor.
  - apply stamp_near.
  - vm_compute. reflexivity.
  - vm_compute. reflexivity.
Qed.

(** *** What [start_session] returns *)

Lemma ids_without_envelope (session_id visitor_id : string) (envelope : value) :
  get "type" envelope = Some (VStr "session.start") ->
  ~ occurs_in envelope
      (VDict {[ "session_id" := VStr session_id; "visitor_id" := VStr visitor_id ]}).
Proof.
  intros Htype Hocc.
  inversion Hocc as [Heq | | d k x Hlook Hsub Heq]; subst.
  - cbn in Htype. discriminate Htype.
  - apply lookup_insert_Some in Hlook as [[_ <-] | [_ Hlook]].
    + inversion Hsub; subst. discriminate Htype.
    + apply lookup_singleton_Some in Hlook as [_ <-].
      inversion Hsub; subst. discriminate Htype.
Qed.



(** *** The traits of [identify] *)

Lemma merge_traits_lookup (named traits : gmap string value) (k : string) :
  merge_traits named traits !! k
  = match traits !! k with Some v => Some v | None => named !! k end.
Proof.
  unfold merge_traits. revert k.
  apply (map_fold_weak_ind
           (fun r m => forall k, r !! k = match m !! k with
                                          | Some v => Some v
                                          | None => named !! k
                                          end)).
  - intros k. now rewrite lookup_empty.
  - intros i x m r _ IH k. destruct (decide (i = k)) as [-> | Hne].
    + now rewrite !lookup_insert_eq.
    + rewrite !lookup_insert_ne by exact Hne. apply IH.
Qed.

Lemma drop_None_lookup (all_traits : gmap string value) (k : string) :
  drop_None all_traits !! k
  = match all_traits !! k with Some VNone => None | found => found end.
Proof.
  unfold drop_None. revert k.
  apply (map_fold_weak_ind
           (fun r m => forall k, r !! k = match m !! k with
                                          | Some VNone => None
                                          | found => found
                                          end)).
  - intros k. now rewrite lookup_empty.
  - intros i x m r Hi IH k. destruct (decide (i = k)) as [-> | Hne].
    + rewrite lookup_insert_eq.
      destruct x; cbn [is_not_None]; rewrite ?lookup_insert_eq; try reflexivity.
      rewrite IH, Hi. reflexivity.
    + rewrite lookup_insert_ne by exact Hne.
      destruct (is_not_None x); [rewrite lookup_insert_ne by exact Hne |]; apply IH.
Qed.

(** C6. The [traits] of the payload of [identify] are the named traits
    overlaid with the extra ones, less the keys whose value is [None]: a key
    is in [traits] exactly when its merged value is not null, and it then
    holds that value; no key of [traits] holds a null. With only [name]
    given, [traits] is [{name}]. *)
Theorem identify_traits_merged_without_None
    (visitor_id : string) (session_id : option string)
    (email user_id name phone company : option string)
    (traits : gmap string value) (st : State) :
  let named := named_traits email user_id name phone company in
  let merged (k : string) : option value :=
    match traits !! k with Some v => Some v | None => named !! k end in
  exists sent,
    data_field "traits"
      (snd (identify visitor_id session_id email user_id name phone company traits st))
    = Some (VDict sent)
    /\ (forall k, sent !! k = match merged k with Some VNone => None | found => found end)
    /\ (forall k, sent !! k <> Some VNone)
    /\ (forall k v, v <> VNone -> (sent !! k = Some v <-> merged k = Some v))
    /\ (named !! "email" = Some (of_opt_str email)
        /\ named !! "userId" = Some (of_opt_str user_id)
        /\ named !! "name" = Some (of_opt_str name)
        /\ named !! "phone" = Some (of_opt_str phone)
        /\ named !! "company" = Some (of_opt_str company))
    /\ data_field "traits"
         (snd (identify visitor_id session_id None None (Some "Jane") None None ∅ st))
       = Some (VDict {[ "name" := VStr "Jane" ]}).
Proof.
  intros named merged.
  exists (drop_None (merge_traits named traits)).
  assert (Hsent : forall k, drop_None (merge_traits named traits) !! k
                            = match merged k with Some VNone => None | found => found end).
  { intros k. rewrite drop_None_lookup, merge_traits_lookup. reflexivity. }
  repeat apply conj.
  - unfold identify. run_builder. now rewrite Hfield.
  - exact Hsent.
  - intros k. rewrite Hsent. destruct (merged k) as [[] |]; discriminate.
  - intros k v Hv. rewrite Hsent.
    destruct (merged k) as [[] |]; split; congruence.
  - reflexivity.
  - reflexivity.
  - reflexivity.
  - reflexivity.
  - reflexivity.
  - unfold identify. run_builder. rewrite Hfield. vm_compute. reflexivity.
Qed.

(** *** The fields of [track_form_submission] *)

Lemma append_empty (s : string) : "" ++ s = s.
Proof. reflexivity. Qed.

Lemma append_String (c : ascii) (a b : string) : String c a ++ b = String c (a ++ b).
Proof. reflexivity. Qed.

Lemma startswith_iff (p s : string) :
  PyStr.startswith p s = true <-> exists post, s = p ++ post.
Proof.
  revert s. induction p as [| a p IH]; intros s.
  - split; [intros _; now exists s | reflexivity].
  - destruct s as [| b s]; cbn [PyStr.startswith].
    + split; [discriminate | intros [post H]; discriminate H].
    + rewrite andb_true_iff, Ascii.eqb_eq, IH. split.
      * intros [-> [post ->]]. now exists post.
      * intros [post H]. rewrite append_String in H. injection H as -> ->.
        split; [reflexivity | now exists post].
Qed.

Lemma contains_iff (sub s : string) :
  PyStr.contains sub s = true <-> exists pre post, s = pre ++ sub ++ post.
Proof.
  induction s as [| c s IH]; cbn [PyStr.contains]; rewrite orb_true_iff, startswith_iff.
  - split.
    + intros [[post H] | H]; [| discriminate H]. now exists "", post.
    + intros (pre & post & H). left. destruct pre; [| discriminate H]. now exists post.
  - rewrite IH. split.
    + intros [[post H] | (pre & post & H)].
      * now exists "", post.
      * exists (String c pre), post. now rewrite append_String, H.
    + intros (pre & post & H). destruct pre as [| c' pre].
      * left. now exists post.
      * right. rewrite append_String in H. injection H as -> ->. now exists pre, post.
Qed.

(** *** The sensitive keys

    [str.lower] works on the characters of the key, by the Unicode
    database; the lemmas below follow one code point through it. *)

Lemma ord_range (b : ascii) : (0 <= PyStr.ord b < 256)%Z.
Proof.
  unfold PyStr.ord. pose proof (N_ascii_bounded b) as H. lia.
Qed.

Lemma ord_chr (x : Z) : (0 <= x < 256)%Z -> PyStr.ord (PyStr.chr x) = x.
Proof.
  intros H. unfold PyStr.ord, PyStr.chr.
  rewrite N_ascii_embedding by lia. lia.
Qed.

Lemma chr_ord (b : ascii) : PyStr.chr (PyStr.ord b) = b.
Proof.
  unfold PyStr.ord, PyStr.chr. rewrite N2Z.id. apply ascii_N_embedding.
Qed.

Lemma ord_inj (a b : ascii) : PyStr.ord a = PyStr.ord b -> a = b.
Proof.
  intros H. rewrite <- (chr_ord a), <- (chr_ord b). now rewrite H.
Qed.

Lemma high_chr (x : Z) (s : string) :
  (128 <= x < 256)%Z -> above_ascii s = true -> above_ascii (String (PyStr.chr x) s) = true.
Proof.
  intros Hx Hs. unfold above_ascii in *. cbn [PyStr.all_chars]. rewrite Hs.
  unfold PyStr.is_ascii. rewrite ord_chr by lia.
  destruct (Z.ltb_spec x 128); [lia | reflexivity].
Qed.

Lemma continuation_bits_range n s bits c :
  PyStr.continuation_bits n s bits = Some c -> (0 <= bits)%Z -> (0 <= c)%Z.
Proof.
  revert s bits. induction n as [| n IH]; intros s bits; cbn.
  - now intros [= <-].
  - destruct s as [| b s]; [discriminate |].
    destruct (PyStr.is_continuation b) eqn:Hb; [| discriminate].
    intros H Hbits. apply IH in H; [exact H |].
    unfold PyStr.is_continuation in Hb. apply andb_true_iff in Hb as [Hb _].
    apply Z.leb_le in Hb. lia.
Qed.

Lemma decode_valid s c n :
  PyStr.decode s = Some (c, n) -> (0 <= c < 0x110000)%Z.
Proof.
  destruct s as [| b s]; [discriminate |]. unfold PyStr.decode.
  pose proof (ord_range b) as Hb.
  repeat match goal with
         | |- context [(?x <? ?y)%Z] => destruct (Z.ltb_spec x y)
         end; try discriminate.
  - intros [= <- <-]. lia.
  - destruct (PyStr.continuation_bits 1 s _) as [c' |] eqn:Hc; [| discriminate].
    destruct (_ && _) eqn:Hr; [| discriminate]. intros [= <- <-].
    apply andb_true_iff in Hr as [Hlo Hhi]. unfold PyStr.is_scalar_value in Hhi.
    apply andb_true_iff in Hhi as [Hhi _]. apply Z.leb_le in Hlo, Hhi. lia.
  - destruct (PyStr.continuation_bits 2 s _) as [c' |] eqn:Hc; [| discriminate].
    destruct (_ && _) eqn:Hr; [| discriminate]. intros [= <- <-].
    apply andb_true_iff in Hr as [Hlo Hhi]. unfold PyStr.is_scalar_value in Hhi.
    apply andb_true_iff in Hhi as [Hhi _]. apply Z.leb_le in Hlo, Hhi. lia.
  - destruct (PyStr.continuation_bits 3 s _) as [c' |] eqn:Hc; [| discriminate].
    destruct (_ && _) eqn:Hr; [| discriminate]. intros [= <- <-].
    apply andb_true_iff in Hr as [Hlo Hhi]. unfold PyStr.is_scalar_value in Hhi.
    apply andb_true_iff in Hhi as [Hhi _]. apply Z.leb_le in Hlo, Hhi. lia.
Qed.

Lemma decode_None s b : PyStr.decode (String b s) = None -> (128 <= PyStr.ord b)%Z.
Proof.
  unfold PyStr.decode. destruct (Z.ltb_spec (PyStr.ord b) 0x80); [discriminate | lia].
Qed.

Lemma code_points_valid skip s : Forall well_formed (PyStr.code_points_from skip s).
Proof.
  revert skip. induction s as [| b s IH]; intros skip; cbn [PyStr.code_points_from].
  - constructor.
  - destruct skip as [| skip]; [| apply IH].
    destruct (PyStr.decode (String b s)) as [[c n] |] eqn:Hd.
    + constructor; [| apply IH]. left. eapply decode_valid, Hd.
    + constructor; [| apply IH]. right.
      apply decode_None in Hd. pose proof (ord_range b). lia.
Qed.

(** The lower-case form of one code point. *)

Lemma lower_by_high ranges c :
  forallb range_ok ranges = true -> (128 <= c)%Z -> c <> 0x212A%Z ->
  Unicode.lower_by ranges c = c \/ (128 <= Unicode.lower_by ranges c < 0x110000)%Z.
Proof.
  intros Hok Hc Hk. induction ranges as [| [[[first last] step] delta] ranges IH].
  - now left.
  - cbn [forallb] in Hok. apply andb_true_iff in Hok as [Hr Hok].
    cbn [Unicode.lower_by].
    destruct (_ && _) eqn:Hin; [| now apply IH].
    apply andb_true_iff in Hin as [H1 H2]. apply Z.leb_le in H1, H2.
    destruct (_ =? 0)%Z; [| now left].
    unfold range_ok in Hr.
    apply orb_true_iff in Hr as [Hr | Hr]; [apply orb_true_iff in Hr as [Hr | Hr] |].
    + apply Z.ltb_lt in Hr. lia.
    + apply andb_true_iff in Hr as [Ha Hb]. apply Z.eqb_eq in Ha, Hb. lia.
    + apply andb_true_iff in Hr as [Ha Hb]. apply Z.leb_le in Ha. apply Z.ltb_lt in Hb.
      right. lia.
Qed.

Lemma lower_ranges_ok : forallb range_ok Unicode.lower_ranges = true.
Proof. vm_compute. reflexivity. Qed.

Lemma lower_by_ascii c :
  (0 <= c < 128)%Z ->
  Unicode.lower_by Unicode.lower_ranges c
  = (if (65 <=? c)%Z && (c <=? 90)%Z then c + 32 else c)%Z.
Proof.
  intros Hc.
  assert (H : exists n, c = Z.of_nat n /\ (n < 128)%nat) by (exists (Z.to_nat c); lia).
  destruct H as (n & -> & Hn). clear Hc.
  do 128 (destruct n as [| n]; [vm_compute; reflexivity |]). lia.
Qed.

Lemma encode_high c :
  well_formed c -> (128 <= c)%Z ->
  exists b s, PyStr.encode c = String b s /\ above_ascii (String b s) = true.
Proof.
  intros Hv Hc. unfold PyStr.encode.
  repeat match goal with
         | |- context [(?x <? ?y)%Z] => destruct (Z.ltb_spec x y)
         end; try lia;
    eexists _, _; (split; [reflexivity |]);
    repeat (apply high_chr; [Z.div_mod_to_equations; unfold well_formed in Hv; lia |]);
    reflexivity.
Qed.

Lemma append_empty_r (s : string) : s ++ "" = s.
Proof. induction s as [| c s IH]; [reflexivity |]. now rewrite append_String, IH. Qed.

Lemma append_assoc (a b c : string) : (a ++ b) ++ c = a ++ (b ++ c).
Proof. induction a as [| x a IH]; [reflexivity |]. now rewrite !append_String, IH. Qed.

Lemma encode_all_app (a b : list Z) :
  PyStr.encode_all (a ++ b) = PyStr.encode_all a ++ PyStr.encode_all b.
Proof.
  induction a as [| c a IH]; [reflexivity |].
  cbn [app PyStr.encode_all]. now rewrite IH, append_assoc.
Qed.

Lemma lower_cons before c after :
  PyStr.encode_all (Unicode.do_lower before (c :: after))
  = PyStr.encode_all (Unicode.lower_ucs4 before c after)
    ++ PyStr.encode_all (Unicode.do_lower (c :: before) after).
Proof. cbn [Unicode.do_lower]. apply encode_all_app. Qed.

(** The bytes a code point gives in the lower-case string: those of a
    character of ASCII, lower-cased; [k] for the Kelvin sign; [i] and a
    combining dot for U+0130; bytes above 127 for any other. *)
Lemma lowered_ascii before c after :
  (0 <= c < 128)%Z ->
  PyStr.encode_all (Unicode.lower_ucs4 before c after)
  = String (PyStr.chr (if (65 <=? c)%Z && (c <=? 90)%Z then c + 32 else c)%Z) "".
Proof.
  intros Hc. unfold Unicode.lower_ucs4, Unicode.to_lower_full.
  destruct (Z.eqb_spec c 0x3A3%Z); [lia |]. destruct (Z.eqb_spec c 0x130%Z); [lia |].
  rewrite lower_by_ascii by exact Hc.
  cbn [PyStr.encode_all]. rewrite append_empty_r. unfold PyStr.encode.
  destruct (Z.ltb_spec (if (65 <=? c)%Z && (c <=? 90)%Z then c + 32 else c)%Z 0x80%Z) as [_ | H];
    [reflexivity |].
  destruct (_ && _) eqn:E; [| lia].
  apply andb_true_iff in E as [_ E]. apply Z.leb_le in E. lia.
Qed.

Lemma lowered_kelvin before after :
  PyStr.encode_all (Unicode.lower_ucs4 before 0x212A%Z after) = "k".
Proof. vm_compute. reflexivity. Qed.

Lemma lowered_dotted before after :
  PyStr.encode_all (Unicode.lower_ucs4 before 0x130%Z after)
  = String "i" (String (PyStr.chr 0xCC%Z) (String (PyStr.chr 0x87%Z) "")).
Proof. vm_compute. reflexivity. Qed.

Lemma lowered_high before c after :
  well_formed c -> (128 <= c)%Z -> c <> 0x212A%Z -> c <> 0x130%Z ->
  exists b s,
    PyStr.encode_all (Unicode.lower_ucs4 before c after) = String b s
    /\ above_ascii (String b s) = true.
Proof.
  intros Hv Hc Hk Hi. unfold Unicode.lower_ucs4.
  destruct (Z.eqb_spec c 0x3A3%Z) as [-> | Hs].
  - unfold Unicode.handle_capital_sigma.
    destruct (_ && _); eexists _, _; split; vm_compute; reflexivity.
  - unfold Unicode.to_lower_full. destruct (Z.eqb_spec c 0x130%Z); [contradiction |].
    cbn [PyStr.encode_all]. rewrite append_empty_r.
    apply encode_high.
    + destruct (lower_by_high _ c lower_ranges_ok Hc Hk) as [-> | H]; [exact Hv |].
      left. lia.
    + destruct (lower_by_high _ c lower_ranges_ok Hc Hk) as [-> | H]; [exact Hc | lia].
Qed.

Lemma lowered_shape before c after :
  well_formed c ->
  exists b s,
    PyStr.encode_all (Unicode.lower_ucs4 before c after) = String b s /\ above_ascii s = true.
Proof.
  intros Hv.
  destruct (Z_lt_le_dec c 128%Z) as [Hlt | Hge].
  - rewrite lowered_ascii by (unfold well_formed in Hv; lia). now eexists _, _.
  - destruct (Z.eq_dec c 0x212A%Z) as [-> | Hk].
    { rewrite lowered_kelvin. now eexists _, _. }
    destruct (Z.eq_dec c 0x130%Z) as [-> | Hi].
    { rewrite lowered_dotted. now eexists _, _. }
    destruct (lowered_high before c after Hv Hge Hk Hi) as (b & s & -> & Hhigh).
    exists b, s. split; [reflexivity |].
    unfold above_ascii in *. cbn [PyStr.all_chars] in Hhigh.
    now apply andb_true_iff in Hhigh as [_ Hhigh].
Qed.

(** *** Letters *)

Lemma capital_spec (k : ascii) :
  PyStr.is_lower k = true -> PyStr.ord (capital k) = (PyStr.ord k - 32)%Z.
Proof.
  destruct k as [[] [] [] [] [] [] [] []]; vm_compute; intros H;
    first [discriminate H | reflexivity].
Qed.

Lemma is_lower_range (k : ascii) :
  PyStr.is_lower k = true -> (97 <= PyStr.ord k <= 122)%Z.
Proof.
  unfold PyStr.is_lower. intros H. apply andb_true_iff in H as [H1 H2].
  apply Z.leb_le in H1, H2. lia.
Qed.

Lemma eqb_lower_high (k b : ascii) :
  PyStr.is_lower k = true -> PyStr.is_ascii b = false -> Ascii.eqb k b = false.
Proof.
  intros Hk Hb. apply Ascii.eqb_neq. intros ->.
  apply is_lower_range in Hk. unfold PyStr.is_ascii in Hb.
  apply Z.ltb_ge in Hb. lia.
Qed.

Lemma same_letter_ascii (k : ascii) (c : Z) :
  PyStr.is_lower k = true -> (0 <= c < 128)%Z ->
  Ascii.eqb k (PyStr.chr (if (65 <=? c)%Z && (c <=? 90)%Z then c + 32 else c)%Z) = true
  <-> same_letter k c.
Proof.
  intros Hk Hc. pose proof (is_lower_range k Hk) as Hr.
  pose proof (capital_spec k Hk) as Hcap.
  rewrite Ascii.eqb_eq. unfold same_letter. rewrite Hcap. split.
  - intros ->. destruct (_ && _) eqn:E.
    + apply andb_true_iff in E as [E1 E2]. apply Z.leb_le in E1, E2.
      rewrite ord_chr by lia. right; left; lia.
    + rewrite ord_chr by lia. now left.
  - intros [-> | [-> | [_ ->]]]; [| | lia].
    + destruct (_ && _) eqn:E.
      * apply andb_true_iff in E as [E1 E2]. apply Z.leb_le in E1, E2. lia.
      * now rewrite chr_ord.
    + destruct (_ && _) eqn:E.
      * replace (PyStr.ord k - 32 + 32)%Z with (PyStr.ord k) by lia. now rewrite chr_ord.
      * apply andb_false_iff in E as [E | E];
          [apply Z.leb_gt in E | apply Z.leb_gt in E]; lia.
Qed.

Lemma same_letter_kelvin (k : ascii) :
  PyStr.is_lower k = true -> Ascii.eqb k "k" = true <-> same_letter k 0x212A%Z.
Proof.
  intros Hk. pose proof (is_lower_range k Hk) as Hr.
  pose proof (capital_spec k Hk) as Hcap.
  rewrite Ascii.eqb_eq. unfold same_letter. rewrite Hcap. split.
  - intros ->. right; right. now split.
  - intros [H | [H | [-> _]]]; [lia | lia | reflexivity].
Qed.

Lemma same_letter_high (k : ascii) (c : Z) :
  PyStr.is_lower k = true -> (128 <= c)%Z -> c <> 0x212A%Z -> ~ same_letter k c.
Proof.
  intros Hk Hc Hne. pose proof (is_lower_range k Hk) as Hr.
  pose proof (capital_spec k Hk) as Hcap.
  unfold same_letter. rewrite Hcap. intros [H | [H | [_ H]]]; lia.
Qed.

(** *** The keyword at the head of the lower-case string *)

Lemma startswith_high (kw b : _) (s : string) k :
  PyStr.is_lower k = true -> PyStr.is_ascii b = false ->
  PyStr.startswith (String k kw) (String b s) = false.
Proof.
  intros Hk Hb. cbn [PyStr.startswith]. now rewrite (eqb_lower_high k b Hk Hb).
Qed.

Lemma startswith_lower (kw : string) (before l : list Z) :
  plain_keyword kw = true -> Forall well_formed l ->
  PyStr.startswith kw (PyStr.encode_all (Unicode.do_lower before l)) = true
  <-> reads (list_ascii_of_string kw) l.
Proof.
  revert before l. induction kw as [| k kw IH]; intros before l Hok Hl.
  - split; reflexivity || constructor.
  - cbn [plain_keyword] in Hok.
    apply andb_true_iff in Hok as [Hok Hok']. apply andb_true_iff in Hok as [Hk Hi].
    cbn [list_ascii_of_string reads].
    destruct l as [| c after].
    { cbn. split; [discriminate | contradiction]. }
    apply Forall_cons in Hl as [Hv Hl].
    rewrite lower_cons.
    destruct (Z_lt_le_dec c 128%Z) as [Hlt | Hge].
    { assert (Hc : (0 <= c < 128)%Z) by (unfold well_formed in Hv; lia).
      rewrite lowered_ascii by exact Hc. rewrite append_String, append_empty.
      cbn [PyStr.startswith]. rewrite andb_true_iff, (same_letter_ascii k c Hk Hc).
      now rewrite (IH (c :: before) after Hok' Hl). }
    destruct (Z.eq_dec c 0x212A%Z) as [-> | Hne].
    { rewrite lowered_kelvin, append_String, append_empty.
      cbn [PyStr.startswith]. rewrite andb_true_iff, (same_letter_kelvin k Hk).
      now rewrite (IH _ after Hok' Hl). }
    assert (Hnot : ~ same_letter k c) by now apply same_letter_high.
    destruct (Z.eq_dec c 0x130%Z) as [-> | Hdot].
    { rewrite lowered_dotted, !append_String, append_empty.
      cbn [PyStr.startswith]. split; [| intros [H _]; contradiction].
      intros H. apply andb_true_iff in H as [Hki H]. exfalso.
      apply Ascii.eqb_eq in Hki. subst k.
      destruct kw as [| k2 kw]; [discriminate Hi |].
      cbn [plain_keyword] in Hok'.
      apply andb_true_iff in Hok' as [Hok' _]. apply andb_true_iff in Hok' as [Hk2 _].
      cbn [PyStr.startswith] in H. rewrite (eqb_lower_high k2 _ Hk2) in H by reflexivity.
      discriminate H. }
    destruct (lowered_high before c after Hv Hge Hne Hdot) as (b & s & -> & Hhigh).
    rewrite append_String. rewrite startswith_high; [| exact Hk |].
    + split; [discriminate | intros [H _]; contradiction].
    + unfold above_ascii in Hhigh. cbn [PyStr.all_chars] in Hhigh.
      apply andb_true_iff in Hhigh as [Hb _]. now apply negb_true_iff in Hb.
Qed.

(** *** The keyword anywhere in the lower-case string *)

Lemma contains_high (k : ascii) (kw s rest : string) :
  PyStr.is_lower k = true -> above_ascii s = true ->
  PyStr.contains (String k kw) (s ++ rest) = PyStr.contains (String k kw) rest.
Proof.
  intros Hk. induction s as [| b s IH]; intros Hs; [reflexivity |].
  unfold above_ascii in Hs. cbn [PyStr.all_chars] in Hs.
  apply andb_true_iff in Hs as [Hb Hs]. apply negb_true_iff in Hb.
  rewrite append_String. cbn [PyStr.contains PyStr.startswith].
  rewrite (eqb_lower_high k b Hk Hb). cbn [andb orb]. now apply IH.
Qed.

Lemma contains_lower (k : ascii) (kw : string) (before l : list Z) :
  plain_keyword (String k kw) = true -> Forall well_formed l ->
  PyStr.contains (String k kw) (PyStr.encode_all (Unicode.do_lower before l)) = true
  <-> exists pre rest, l = (pre ++ rest)%list
                       /\ reads (list_ascii_of_string (String k kw)) rest.
Proof.
  intros Hok. revert before. induction l as [| c after IH]; intros before Hl.
  - cbn. split; [discriminate |].
    intros (pre & rest & H & Hheads). symmetry in H.
    apply app_eq_nil in H as [_ ->]. destruct Hheads.
  - pose proof Hl as Hl'. apply Forall_cons in Hl' as [Hv Hafter].
    assert (Hk : PyStr.is_lower k = true).
    { cbn [plain_keyword] in Hok. apply andb_true_iff in Hok as [Hok _].
      now apply andb_true_iff in Hok as [Hk _]. }
    assert (Hsplit :
      PyStr.contains (String k kw)
        (PyStr.encode_all (Unicode.do_lower before (c :: after)))
      = PyStr.startswith (String k kw)
          (PyStr.encode_all (Unicode.do_lower before (c :: after)))
        || PyStr.contains (String k kw)
             (PyStr.encode_all (Unicode.do_lower (c :: before) after))).
    { rewrite lower_cons.
      destruct (lowered_shape before c after Hv) as (b & s & -> & Hs).
      rewrite append_String.
      change (PyStr.contains (String k kw) (String b (s ++ ?r)))
        with (PyStr.startswith (String k kw) (String b (s ++ r))
              || PyStr.contains (String k kw) (s ++ r)).
      now rewrite (contains_high k kw s _ Hk Hs). }
    rewrite Hsplit, orb_true_iff, (startswith_lower _ before (c :: after) Hok Hl).
    rewrite (IH (c :: before) Hafter). split.
    + intros [H | (pre & rest & -> & H)].
      * now exists [], (c :: after).
      * now exists (c :: pre), rest.
    + intros (pre & rest & H & Hheads). destruct pre as [| c' pre].
      * left. cbn [app] in H. now subst rest.
      * right. cbn [app] in H. injection H as -> ->. now exists pre, rest.
Qed.

Lemma heads_iff (ks : list ascii) (l : list Z) :
  reads ks l <-> exists mid post, l = (mid ++ post)%list /\ Forall2 same_letter ks mid.
Proof.
  revert l. induction ks as [| k ks IH]; intros l.
  - split; [| reflexivity]. intros _. exists [], l. split; [reflexivity | constructor].
  - destruct l as [| c l]; cbn [reads].
    + split; [contradiction |]. intros (mid & post & H & HF).
      inversion HF; subst. discriminate H.
    + rewrite IH. split.
      * intros (Hs & mid & post & -> & HF). exists (c :: mid), post.
        split; [reflexivity | now constructor].
      * intros (mid & post & H & HF). inversion HF as [| ? c' ? mid' Hs HF']; subst.
        cbn [app] in H. injection H as -> ->. split; [exact Hs |]. now exists mid', post.
Qed.

(** Proves that given characters are given letters, each in either case. *)
Ltac same_letters :=
  cbn [list_ascii_of_string];
  repeat (constructor 2;
          [first [ left; reflexivity
                 | right; left; reflexivity
                 | right; right; split; reflexivity ] |]);
  constructor 1.

Lemma is_sensitive_iff (key : string) :
  is_sensitive key = true <-> matches_denylist key.
Proof.
  unfold is_sensitive, matches_denylist, contains_ignoring_case, PyStr.lower.
  rewrite existsb_exists.
  assert (Hkw : forall kw, In kw sensitive_keywords ->
            exists k kw', kw = String k kw' /\ plain_keyword kw = true).
  { cbn [sensitive_keywords In]. intros kw H.
    repeat (destruct H as [<- | H]; [now eexists _, _ |]). destruct H. }
  change denylist with sensitive_keywords.
  split.
  - intros (kw & Hin & H). exists kw. split; [exact Hin |].
    destruct (Hkw kw Hin) as (k & kw' & -> & Hok).
    apply (contains_lower k kw' [] _ Hok (code_points_valid _ _)) in H
      as (pre & rest & Hl & Hheads).
    apply heads_iff in Hheads as (mid & post & -> & HF).
    now exists pre, mid, post.
  - intros (kw & Hin & pre & mid & post & Hl & HF). exists kw. split; [exact Hin |].
    destruct (Hkw kw Hin) as (k & kw' & -> & Hok).
    apply (contains_lower k kw' [] _ Hok (code_points_valid _ _)).
    exists pre, (mid ++ post)%list. split; [exact Hl |].
    apply heads_iff. now exists mid, post.
Qed.

Lemma mask_fields_lookup (fields : gmap string value) (k : string) :
  mask_fields (Some fields) !! k
  = (fun v => if is_sensitive k then VStr "***" else v) <$> fields !! k.
Proof.
  unfold mask_fields. destruct (dict_truthy fields) eqn:Htruthy.
  - revert k.
    apply (map_fold_weak_ind
             (fun r m => forall k,
                  r !! k = (fun v => if is_sensitive k then VStr "***" else v) <$> m !! k)).
    + intros k. now rewrite !lookup_empty.
    + intros i x m r _ IH k. destruct (decide (i = k)) as [-> | Hne].
      * now rewrite !lookup_insert_eq.
      * rewrite !lookup_insert_ne by exact Hne. apply IH.
  - unfold dict_truthy in Htruthy.
    destruct (map_to_list fields) eqn:Hlist; [| discriminate Htruthy].
    apply map_to_list_empty_iff in Hlist as ->. now rewrite !lookup_empty.
Qed.

(** C2. The [fields] of the payload of [track_form_submission] have the keys
    of the fields given; a key that contains one of the keywords of the
    denylist, whatever the case of its letters, holds the mask ["***"], and
    every other key holds the value given. The test [is_sensitive] of the
    code, which looks for the keyword in [key.lower()], decides exactly that
    match: the characters of the key have, side by side, the letters of the
    keyword, each in lower or upper case. [str.lower] goes by the Unicode
    database, in which the Kelvin sign is one more capital K: [Password],
    [USER_TOKEN] and [TOKEN] written with the Kelvin sign are masked;
    [password] written with a long s is not, a long s being a lower-case
    letter of its own. For [{password: abc, email: a@b.com}] the payload has
    [{password: ***, email: a@b.com}]. *)
Theorem form_fields_masked
    (visitor_id : string) (session_id : option string)
    (form_id : string) (form_action : option string)
    (fields : gmap string value) (st : State) :
  exists sent,
    data_field "fields"
      (snd (track_form_submission visitor_id session_id form_id form_action
              (Some fields) st))
    = Some (VDict sent)
    /\ (forall key, sent !! key = None <-> fields !! key = None)
    /\ (forall key v, fields !! key = Some v -> matches_denylist key ->
          sent !! key = Some (VStr "***"))
    /\ (forall key v, fields !! key = Some v -> ~ matches_denylist key ->
          sent !! key = Some v)
    /\ (forall key, is_sensitive key = true <-> matches_denylist key)
    /\ data_field "fields"
         (snd (track_form_submission visitor_id session_id form_id form_action
                 (Some {[ "password" := VStr "abc"; "email" := VStr "a@b.com" ]}) st))
       = Some (VDict {[ "password" := VStr "***"; "email" := VStr "a@b.com" ]})
    /\ (matches_denylist "Password" /\ matches_denylist "USER_TOKEN"
        /\ matches_denylist kelvin_key /\ PyStr.lower kelvin_key = "token")
    /\ (~ matches_denylist long_s_key /\ ~ matches_denylist "email"
        /\ PyStr.lower long_s_key = long_s_key)
    /\ data_field "fields"
         (snd (track_form_submission visitor_id session_id form_id form_action
                 (Some {[ "Password" := VStr "abc"; kelvin_key := VStr "t0k";
                          long_s_key := VStr "pw" ]}) st))
       = Some (VDict {[ "Password" := VStr "***"; kelvin_key := VStr "***";
                        long_s_key := VStr "pw" ]}).
Proof.
  exists (mask_fields (Some fields)).
  split; [| split; [| split; [| split; [| split; [| split; [| split; [| split]]]]]]].
  - unfold track_form_submission. run_builder. now rewrite Hfield.
  - intros key. rewrite mask_fields_lookup. apply fmap_None.
  - intros key v Hkey Hmatch. rewrite mask_fields_lookup, Hkey. cbn [fmap option_fmap option_map].
    apply is_sensitive_iff in Hmatch. now rewrite Hmatch.
  - intros key v Hkey Hmatch. rewrite mask_fields_lookup, Hkey. cbn [fmap option_fmap option_map].
    destruct (is_sensitive key) eqn:Hs; [| reflexivity].
    apply is_sensitive_iff in Hs. contradiction.
  - apply is_sensitive_iff.
  - unfold track_form_submission. run_builder. rewrite Hfield.
    vm_compute. reflexivity.
  - split; [| split; [| split]].
    + exists "password". split; [cbn; auto |].
      exists [], [80; 97; 115; 115; 119; 111; 114; 100]%Z, [].
      split; [vm_compute; reflexivity | same_letters].
    + exists "token". split; [cbn; auto 10 |].
      exists [85; 83; 69; 82; 95]%Z, [84; 79; 75; 69; 78]%Z, [].
      split; [vm_compute; reflexivity | same_letters].
    + exists "token". split; [cbn; auto 10 |].
      exists [], [0x54; 0x4F; 0x212A; 0x45; 0x4E]%Z, [].
      split; [vm_compute; reflexivity | same_letters].
    + vm_compute. reflexivity.
  - split; [| split].
    + intros H. apply is_sensitive_iff in H. vm_compute in H. discriminate H.
    + intros H. apply is_sensitive_iff in H. vm_compute in H. discriminate H.
    + vm_compute. reflexivity.
  - unfold track_form_submission. run_builder. rewrite Hfield.
    vm_compute. reflexivity.
Qed.

(** *** The url and the path of [track_page_view] *)

(** C5, the failing call. [urlparse] raises ValueError on a netloc with an
    opening bracket and no closing one, whatever the two host checks answer.
    [track_page_view] calls it outside any [try]: the exception leaves the
    call, where [_send] turns every exception into [False], and no payload
    with the url and a path is sent. [end_session] sends the same string,
    which it does not parse, and returns [True]. *)
Lemma page_view_of_unparsable_url_raises :
  (~ exists bracketed_host_ok nfkc_netloc_ok,
       sends_url_and_path "http://["
         (snd (track_page_view bracketed_host_ok nfkc_netloc_ok
                 "visitor-123" (Some "session-456") "http://[" None None None
                 example_state)))
  /\ (~ exists bracketed_host_ok nfkc_netloc_ok delivered,
         fst (track_page_view bracketed_host_ok nfkc_netloc_ok
                "visitor-123" (Some "session-456") "http://[" None None None
                example_state)
         = Ok delivered)
  /\ fst (end_session "visitor-123" (Some "session-456") (Some "http://[")
            example_state)
     = Ok true.
Proof.
  assert (Hparse : forall bh nf,
            UrlParse.urlparse bh nf "http://[" = Raise (ValueError "Invalid IPv6 URL"))
    by (intros; vm_compute; reflexivity).
  split; [| split].
  - intros (bh & nf & Hurl & _). revert Hurl.
    unfold track_page_view. rewrite bind_lift, Hparse. cbn. discriminate.
  - intros (bh & nf & delivered & H). revert H.
    unfold track_page_view. rewrite bind_lift, Hparse. cbn. discriminate.
  - unfold end_session. rewrite bind_now_ms, send_result. reflexivity.
Qed.

(** C5, where the code does what the specification says. When [urlparse]
    accepts the url, the payload of [track_page_view] holds the url as given
    and, as path, the path component of the parsed url, or ["/"] when that
    is empty. The two urls of the specification parse, to the paths
    [/products] and [/]. When [urlparse] raises, the exception leaves
    [track_page_view] and nothing is sent. *)
Theorem page_view_url_and_path
    (bracketed_host_ok nfkc_netloc_ok : string -> bool)
    (visitor_id : string) (session_id : option string)
    (title referrer : option string) (load_time : option Z) (st : State) :
  let view url :=
    track_page_view bracketed_host_ok nfkc_netloc_ok visitor_id session_id url
      title referrer load_time st in
  let urlparse := UrlParse.urlparse bracketed_host_ok nfkc_netloc_ok in
  (forall url parsed, urlparse url = Ok parsed ->
     data_field "url" (snd (view url)) = Some (VStr url)
     /\ data_field "path" (snd (view url))
        = Some (VStr (PyStr.or_else (UrlParse.path parsed) "/"))
     /\ (UrlParse.path parsed = "" -> data_field "path" (snd (view url)) = Some (VStr "/"))
     /\ (UrlParse.path parsed <> "" ->
         data_field "path" (snd (view url)) = Some (VStr (UrlParse.path parsed)))
     /\ envelope_field "type" (snd (view url)) = Some (VStr "page.view"))
  /\ (forall url e, urlparse url = Raise e -> view url = (Raise e, st))
  /\ (urlparse "https://example.com/products?x=1"
      = Ok (UrlParse.mkParse "https" "example.com" "/products" "" "x=1" "")
      /\ sends_url_and_path "https://example.com/products?x=1"
           (snd (view "https://example.com/products?x=1"))
      /\ data_field "path" (snd (view "https://example.com/products?x=1"))
         = Some (VStr "/products"))
  /\ (urlparse "https://example.com"
      = Ok (UrlParse.mkParse "https" "example.com" "" "" "" "")
      /\ sends_url_and_path "https://example.com" (snd (view "https://example.com"))
      /\ data_field "path" (snd (view "https://example.com")) = Some (VStr "/")).
Proof.
  intros view urlparse.
  assert (Hok : forall url parsed, urlparse url = Ok parsed ->
            data_field "url" (snd (view url)) = Some (VStr url)
            /\ data_field "path" (snd (view url))
               = Some (VStr (PyStr.or_else (UrlParse.path parsed) "/"))
            /\ envelope_field "type" (snd (view url)) = Some (VStr "page.view")).
  { intros url parsed Hparse. subst view urlparse. cbv beta.
    unfold track_page_view. rewrite bind_lift, Hparse.
    run_builder. rewrite !Hfield. repeat split. exact Htype. }
  split; [| split; [| split]].
  - intros url parsed Hparse. destruct (Hok url parsed Hparse) as (Hurl & Hpath & Htype).
    repeat split; try assumption.
    + intros Hempty. now rewrite Hpath, Hempty.
    + intros Hnonempty. rewrite Hpath.
      destruct (UrlParse.path parsed); [contradiction | reflexivity].
  - intros url e Hparse. subst view urlparse. cbv beta.
    unfold track_page_view. now rewrite bind_lift, Hparse.
  - assert (Hparse : urlparse "https://example.com/products?x=1"
                     = Ok (UrlParse.mkParse "https" "example.com" "/products" "" "x=1" ""))
      by (vm_compute; reflexivity).
    destruct (Hok _ _ Hparse) as (Hurl & Hpath & _).
    split; [exact Hparse |]. split; [split; eauto | exact Hpath].
  - assert (Hparse : urlparse "https://example.com"
                     = Ok (UrlParse.mkParse "https" "example.com" "" "" "" ""))
      by (vm_compute; reflexivity).
    destruct (Hok _ _ Hparse) as (Hurl & Hpath & _).
    split; [exact Hparse |]. split; [split; eauto | exact Hpath].
Qed.

(** *** The visitor id *)

Lemma hex8_nibbles (x : Z) :
  Sha256.hex8 x
  = string_of_list_ascii
      [nibble 7 x; nibble 6 x; nibble 5 x; nibble 4 x;
       nibble 3 x; nibble 2 x; nibble 1 x; nibble 0 x].
Proof. reflexivity. Qed.

Lemma nibble_is_hex_digit (i : nat) (x : Z) : is_hex_digit (nibble i x) = true.
Proof.
  unfold nibble. generalize (Z.shiftr x (4 * Z.of_nat i)). intros y.
  change 0xF%Z with (Z.ones 4). rewrite Z.land_ones by lia.
  pose proof (Z.mod_pos_bound y (2 ^ 4) ltac:(lia)) as Hbound.
  generalize dependent (y mod 2 ^ 4)%Z. intros n Hn.
  assert (Hcases : In n [0; 1; 2; 3; 4; 5; 6; 7; 8; 9; 10; 11; 12; 13; 14; 15]%Z)
    by (cbn [In]; lia).
  cbn [In] in Hcases.
  repeat (destruct Hcases as [<- | Hcases]; [reflexivity |]). destruct Hcases.
Qed.

Lemma visitor_id_words (user_agent ip_address : string) :
  let h := Sha256.sha256 (PyStr.bytes (user_agent ++ ":" ++ ip_address)) in
  generate_visitor_id user_agent ip_address
  = Sha256.hex8 (Sha256.sa h) ++ Sha256.hex8 (Sha256.sb h).
Proof.
  unfold generate_visitor_id, Sha256.hexdigest. cbv zeta.
  generalize (Sha256.sha256 (PyStr.bytes (user_agent ++ ":" ++ ip_address))).
  intros h. rewrite !hex8_nibbles. reflexivity.
Qed.

(** C4. [generate_visitor_id] is a function of the two strings alone: the
    first sixteen characters of the hexadecimal SHA-256 digest of
    [user_agent + ":" + ip_address]. The digest has 64 characters and starts
    with the id; the id has sixteen characters, each a lower-case
    hexadecimal digit. Equal arguments give equal ids. The digest of [abc]
    and the id of one fingerprint are the ones [hashlib] computes. *)
Theorem visitor_id_is_digest_prefix (user_agent ip_address : string) :
  let fingerprint := user_agent ++ ":" ++ ip_address in
  let digest := Sha256.hexdigest (PyStr.bytes fingerprint) in
  generate_visitor_id user_agent ip_address = PyStr.take 16 digest
  /\ String.length digest = 64%nat
  /\ (exists rest, digest = generate_visitor_id user_agent ip_address ++ rest)
  /\ String.length (generate_visitor_id user_agent ip_address) = 16%nat
  /\ PyStr.all_chars is_hex_digit (generate_visitor_id user_agent ip_address) = true
  /\ (forall user_agent' ip_address',
        user_agent' = user_agent -> ip_address' = ip_address ->
        generate_visitor_id user_agent' ip_address'
        = generate_visitor_id user_agent ip_address)
  /\ Sha256.hexdigest (PyStr.bytes "abc")
     = "ba7816bf8f01cfea414140de5dae2223b00361a396177a9cb410ff61f20015ad"
  /\ generate_visitor_id
       "Mozilla/5.0 (X11; Linux x86_64) AppleWebKit/537.36 (KHTML, like Gecko) Chrome/120.0 Safari/537.36"
       "203.0.113.7"
     = "d6b09258c00160bb".
Proof.
  intros fingerprint digest.
  pose proof (visitor_id_words user_agent ip_address) as Hwords. cbv zeta in Hwords.
  fold fingerprint in Hwords.
  assert (Hdigest : digest
                    = generate_visitor_id user_agent ip_address
                      ++ let h := Sha256.sha256 (PyStr.bytes fingerprint) in
                         Sha256.hex8 (Sha256.sc h) ++ Sha256.hex8 (Sha256.sd h)
                         ++ Sha256.hex8 (Sha256.se h) ++ Sha256.hex8 (Sha256.sf h)
                         ++ Sha256.hex8 (Sha256.sg h) ++ Sha256.hex8 (Sha256.sh h)).
  { rewrite Hwords. subst digest. unfold Sha256.hexdigest. cbv zeta.
    generalize (Sha256.sha256 (PyStr.bytes fingerprint)). intros h.
    rewrite !hex8_nibbles. reflexivity. }
  repeat apply conj.
  - reflexivity.
  - subst digest. unfold Sha256.hexdigest. cbv zeta.
    generalize (Sha256.sha256 (PyStr.bytes fingerprint)). intros h.
    rewrite !hex8_nibbles. reflexivity.
  - eexists. exact Hdigest.
  - rewrite Hwords, !hex8_nibbles. reflexivity.
  - rewrite Hwords, !hex8_nibbles.
    cbn [string_of_list_ascii]. rewrite !append_String, append_empty.
    cbn [PyStr.all_chars]. rewrite !nibble_is_hex_digit. reflexivity.
  - intros ? ? -> ->. reflexivity.
  - vm_compute. reflexivity.
  - vm_compute. reflexivity.
Qed.

(** * Further properties of the code *)

(** ** The transport *)

Lemma send_network event_type data st n :
  network (world (snd (_send event_type data st))) n = network (world st) (S n).
Proof.
  run_send st.
Qed.

Lemma send_stdout event_type data st :
  stdout (world (snd (_send event_type data st)))
  = if debug (self st) then
      match network (world st) O with
      | Ok r => LogResponse (status_code r) (text r)
      | Raise e => LogError e
      end :: LogSending event_type (envelope_of (self st) event_type data)
          :: stdout (world st)
    else stdout (world st).
Proof.
  run_send st.
Qed.

(** [_send] leaves the clock, the uuids and the tracker alone, on any
    console. *)
Lemma send_frame (c : Console) event_type data st :
  clock (world (snd (_send (console := c) event_type data st))) = clock (world st)
  /\ uuids (world (snd (_send (console := c) event_type data st))) = uuids (world st)
  /\ self (snd (_send (console := c) event_type data st)) = self st.
Proof.
  run_send_on st; repeat split.
Qed.

(** [_send] issues at most one POST, and a failed delivery is not tried
    again. The POST goes to the endpoint of the tracker, with its timeout,
    the JSON content type and the envelope [{apiKey, type, data}] as body,
    and takes one answer of the network. It is issued when [debug] is off,
    and with [debug] on when [json.dumps] and the [print] before it go
    through; when one of them raises nothing is posted and no answer of the
    network is taken. The clock and the uuids are left alone. *)
Theorem send_posts_once (c : Console) (event_type : string) (data : value) (st : State) :
  let st' := snd (_send (console := c) event_type data st) in
  let envelope :=
    VDict {[ "apiKey" := VStr (api_key (self st));
             "type" := VStr event_type;
             "data" := data ]} in
  let request :=
    mkRequest (endpoint (self st)) envelope
      {[ "Content-Type" := "application/json" ]} (timeout (self st)) in
  (posted (world st') = request :: posted (world st)
   \/ posted (world st') = posted (world st))
  /\ (debug (self st) = false \/ announce_raises c event_type envelope = None ->
      posted (world st') = request :: posted (world st)
      /\ requests_added st st' = 1%nat
      /\ forall n, network (world st') n = network (world st) (S n))
  /\ (debug (self st) = true ->
      forall e, announce_raises c event_type envelope = Some e ->
        posted (world st') = posted (world st)
        /\ requests_added st st' = 0%nat
        /\ network (world st') = network (world st))
  /\ clock (world st') = clock (world st)
  /\ uuids (world st') = uuids (world st).
Proof.
  cbv zeta.
  split; [| split; [| split; [| split]]].
  - run_send_on st; auto.
  - unfold requests_added. intros [Hdebug | Hann]; run_send_on st;
      (split; [reflexivity | split; [lia | reflexivity]]).
  - unfold requests_added. intros Hdebug e Hann. run_send_on st;
      (split; [reflexivity | split; [lia | reflexivity]]).
  - apply send_frame.
  - apply send_frame.
Qed.

(** Without [debug], [_send] prints nothing. With [debug], and no
    diagnostic failing, it calls [print] twice: with the envelope it is
    about to send, then with the status and body of the response, or with
    the exception the transport raised. When [json.dumps] or the first
    [print] raises, the exception is all that is printed; when the [print] of
    the response raises, the envelope and then the exception are. A [print]
    that raises writes nothing, so that of the handler may be missing too.
    At most two calls of [print] write something. *)
Theorem send_debug_output (c : Console) (event_type : string) (data : value)
    (st : State) :
  let st' := snd (_send (console := c) event_type data st) in
  let envelope := envelope_of (self st) event_type data in
  let sending := LogSending event_type envelope in
  (debug (self st) = false -> stdout (world st') = stdout (world st))
  /\ (debug (self st) = true -> never_fails c ->
      stdout (world st')
      = match network (world st) O with
        | Ok r => LogResponse (status_code r) (text r)
        | Raise e => LogError e
        end :: sending :: stdout (world st))
  /\ (debug (self st) = true ->
      forall e, announce_raises c event_type envelope = Some e ->
        stdout (world st')
        = match @print_raises c (LogError e) with
          | None => LogError e :: stdout (world st)
          | Some _ => stdout (world st)
          end)
  /\ (debug (self st) = true -> announce_raises c event_type envelope = None ->
      forall e, network (world st) O = Raise e ->
        stdout (world st')
        = match @print_raises c (LogError e) with
          | None => LogError e :: sending :: stdout (world st)
          | Some _ => sending :: stdout (world st)
          end)
  /\ (debug (self st) = true -> announce_raises c event_type envelope = None ->
      forall r, network (world st) O = Ok r ->
        stdout (world st')
        = match @print_raises c (LogResponse (status_code r) (text r)) with
          | None => LogResponse (status_code r) (text r) :: sending :: stdout (world st)
          | Some e =>
              match @print_raises c (LogError e) with
              | None => LogError e :: sending :: stdout (world st)
              | Some _ => sending :: stdout (world st)
              end
          end)
  /\ (exists printed,
        stdout (world st') = (printed ++ stdout (world st))%list
        /\ (List.length printed <= 2)%nat).
Proof.
  cbv zeta.
  split; [| split; [| split; [| split; [| split]]]].
  - intros Hdebug. run_send_on st; reflexivity.
  - intros Hdebug [Hjson Hprint].
    unfold _send, try_except, bind, attr, when, requests_post, json_dumps, print,
      update_world, ret, raise, envelope_of.
    destruct st as [[? ? ? [|] ?] [? ? net ? ?]]; [| discriminate Hdebug]; cbn;
      rewrite ?Hjson, ?Hprint; cbn; destruct (net O); cbn; rewrite ?Hprint; reflexivity.
  - intros Hdebug e Hann. run_send_on st; reflexivity.
  - intros Hdebug Hann e Hnet. run_send_on st; reflexivity.
  - intros Hdebug Hann r Hnet. run_send_on st; reflexivity.
  - run_send_on st;
      first [ exists []; split; [reflexivity | cbn; lia]
            | eexists [_]; split; [reflexivity | cbn; lia]
            | eexists [_; _]; split; [reflexivity | cbn; lia] ].
Qed.

(** ** The builders *)

Lemma send_ack event_type data st :
  fst (_send event_type data (tick st)) = Ok (ack st).
Proof. rewrite send_result. reflexivity. Qed.

Lemma send_ack_on (c : Console) event_type data st :
  debug (self st) = false \/ never_fails c ->
  fst (_send (console := c) event_type data (tick st)) = Ok (ack st).
Proof. intros H. now rewrite send_undisturbed. Qed.

(** With [debug] off, or on a console on which no diagnostic fails,
    [track_event], [track_form_submission], [identify] and [end_session]
    never raise: they return what [_send] returns, [True] exactly when the
    network answers with status 200. So does [track_page_view] on a url
    that parses. [start_session] drops the answer of [_send]: it returns the
    two ids whatever the network answers. *)
Theorem builders_return_delivery_status (c : Console) (st : State)
    (Hquiet : debug (self st) = false \/ never_fails c) :
  (forall vid sid name ty cat val meta,
     fst (track_event (console := c) vid sid name ty cat val meta st) = Ok (ack st))
  /\ (forall vid sid form action fields,
        fst (track_form_submission (console := c) vid sid form action fields st)
        = Ok (ack st))
  /\ (forall vid sid email uid name phone company traits,
        fst (identify (console := c) vid sid email uid name phone company traits st)
        = Ok (ack st))
  /\ (forall vid sid exit_page,
        fst (end_session (console := c) vid sid exit_page st) = Ok (ack st))
  /\ (forall bh nf vid sid url title ref lt parsed,
        UrlParse.urlparse bh nf url = Ok parsed ->
        fst (track_page_view (console := c) bh nf vid sid url title ref lt st)
        = Ok (ack st))
  /\ (forall vid sid ua ip ref entry u1 u2 u3 u4 u5,
        fst (start_session (console := c) vid sid ua ip ref entry u1 u2 u3 u4 u5 st)
        = Ok (VDict {[ "session_id" := VStr (resolved_session_id sid st);
                       "visitor_id" := VStr vid ]}))
  /\ (ack st = true <-> exists r, network (world st) O = Ok r /\ status_code r = 200%Z).
Proof.
  split; [| split; [| split; [| split; [| split; [| split; [| apply ack_true]]]]]].
  - intros. unfold track_event. rewrite bind_now_ms. now apply send_ack_on.
  - intros. unfold track_form_submission. rewrite bind_now_ms. now apply send_ack_on.
  - intros. unfold identify. rewrite bind_now_ms. now apply send_ack_on.
  - intros. unfold end_session. rewrite bind_now_ms. now apply send_ack_on.
  - intros bh nf vid sid url title ref lt parsed Hparse.
    unfold track_page_view. rewrite bind_lift, Hparse, bind_now_ms. now apply send_ack_on.
  - intros vid sid ua ip ref entry u1 u2 u3 u4 u5.
    unfold start_session, session_id_or_generate, generate_session_id.
    destruct sid as [[| ch s] |]; cbv zeta;
      rewrite ?bind_ret, ?bind_uuid4, bind_now_ms; cbv zeta;
      (lazymatch goal with
       | |- context [ bind (@_send ?c' ?ty ?data) _ ?st0 ] =>
           pose proof (send_undisturbed c' ty data st0 Hquiet) as Hsend
       end);
      unfold bind;
      (lazymatch type of Hsend with
       | fst ?run = _ => destruct run as [[b | e] st']
       end);
      first [ reflexivity | discriminate Hsend ].
Qed.

(** The session id of [start_session]. A non-empty [session_id] of the
    caller is the one used, in the payload and in the dict returned, and no
    uuid is drawn. An empty string counts as no session id: the call runs as
    with [None] and draws a uuid. *)
Theorem start_session_keeps_given_session_id
    (visitor_id : string)
    (user_agent ip_address referrer entry_page : option string)
    (utm_source utm_medium utm_campaign utm_term utm_content : option string)
    (st : State) :
  let start session_id :=
    start_session visitor_id session_id user_agent ip_address referrer entry_page
      utm_source utm_medium utm_campaign utm_term utm_content st in
  (forall c s,
     let session_id := String c s in
     fst (start (Some session_id))
       = Ok (VDict {[ "session_id" := VStr session_id; "visitor_id" := VStr visitor_id ]})
     /\ data_field "sessionId" (snd (start (Some session_id))) = Some (VStr session_id)
     /\ uuids (world (snd (start (Some session_id)))) = uuids (world st))
  /\ start (Some "") = start None
  /\ data_field "sessionId" (snd (start (Some ""))) = Some (VStr (uuids (world st) O)).
Proof.
  intros start. repeat apply conj.
  - intros c s session_id. subst start session_id. cbv beta.
    destruct (start_session_posted visitor_id (Some (String c s)) user_agent ip_address
                referrer entry_page utm_source utm_medium utm_campaign utm_term
                utm_content st) as (Hfst & _ & Hsid & _ & _ & _ & Huuids).
    repeat split; assumption.
  - reflexivity.
  - subst start. cbv beta.
    apply (start_session_posted visitor_id (Some "") user_agent ip_address
             referrer entry_page utm_source utm_medium utm_campaign utm_term
             utm_content st).
Qed.

(** Arguments the builders take and never use. [start_session] does not
    send [ip_address]: its [device] holds the user agent alone.
    [track_event], [track_form_submission] and [end_session] do not send
    [visitor_id]: their payloads have no [visitorId]. A run is the same
    whatever these arguments are. *)
Theorem unused_arguments_are_not_sent (st : State) :
  (forall vid sid ua ip ip' ref entry u1 u2 u3 u4 u5,
     start_session vid sid ua ip ref entry u1 u2 u3 u4 u5 st
     = start_session vid sid ua ip' ref entry u1 u2 u3 u4 u5 st
     /\ data_field "device" (snd (start_session vid sid ua ip ref entry u1 u2 u3 u4 u5 st))
        = Some (VDict {[ "userAgent" := of_opt_str ua ]}))
  /\ (forall vid vid' sid name ty cat val meta,
        track_event vid sid name ty cat val meta st
        = track_event vid' sid name ty cat val meta st
        /\ data_field "visitorId" (snd (track_event vid sid name ty cat val meta st)) = None)
  /\ (forall vid vid' sid form action fields,
        track_form_submission vid sid form action fields st
        = track_form_submission vid' sid form action fields st
        /\ data_field "visitorId" (snd (track_form_submission vid sid form action fields st))
           = None)
  /\ (forall vid vid' sid exit_page,
        end_session vid sid exit_page st = end_session vid' sid exit_page st
        /\ data_field "visitorId" (snd (end_session vid sid exit_page st)) = None).
Proof.
  repeat apply conj.
  - intros. split; [reflexivity |].
    unfold start_session, session_id_or_generate, generate_session_id.
    destruct sid as [[| c s] |]; cbv zeta;
      rewrite ?bind_ret, ?bind_uuid4, bind_now_ms; cbv zeta;
      rewrite bind_send_ret; cbn [fst snd];
      run_builder; now rewrite Hfield.
  - intros. split; [reflexivity |].
    unfold track_event. run_builder. now rewrite Hfield.
  - intros. split; [reflexivity |].
    unfold track_form_submission. run_builder. now rewrite Hfield.
  - intros. split; [reflexivity |].
    unfold end_session. run_builder. now rewrite Hfield.
Qed.

(** [track_event] sends a batch of one event: [events] is a list with a
    single dict, holding the name, the type, the category and the value
    given. Its [metadata] is the dict given when that is not empty, and the
    empty dict when [metadata] is [None] or empty; it is never null. *)
Theorem track_event_sends_one_event
    (visitor_id : string) (session_id : option string)
    (event_name event_type : string) (category value_ : option string)
    (metadata : option (gmap string value)) (st : State) :
  let st' :=
    snd (track_event visitor_id session_id event_name event_type category value_
           metadata st) in
  envelope_field "type" st' = Some (VStr "events.batch")
  /\ exists event,
       data_field "events" st' = Some (VList [event])
       /\ get "name" event = Some (VStr event_name)
       /\ get "type" event = Some (VStr event_type)
       /\ get "category" event = Some (of_opt_str category)
       /\ get "value" event = Some (of_opt_str value_)
       /\ (exists sent, get "metadata" event = Some (VDict sent)
           /\ (metadata = None -> sent = ∅)
           /\ (forall m, metadata = Some m -> sent = m)).
Proof.
  unfold track_event. run_builder. cbv zeta. rewrite Hfield.
  split; [exact Htype |].
  eexists. split; [reflexivity |].
  repeat split.
  exists (metadata_or_empty metadata). split; [reflexivity |]. split.
  - intros ->. reflexivity.
  - intros m ->. unfold metadata_or_empty.
    destruct (dict_truthy m) eqn:Htruthy; [reflexivity |].
    unfold dict_truthy in Htruthy.
    destruct (map_to_list m) eqn:Hlist; [| discriminate Htruthy].
    now apply map_to_list_empty_iff in Hlist.
Qed.


(** ** What a tracker posts over its lifetime *)

Lemma posts_none {A} (m : M A) :
  (forall st, self (snd (m st)) = self st
              /\ posted (world (snd (m st))) = posted (world st)) ->
  posts 0 m.
Proof.
  intros H st. destruct (H st) as [Hself Hposted].
  split; [exact Hself |]. exists []. rewrite Hposted. repeat split; constructor.
Qed.

Lemma posts_ret {A} (a : A) : posts 0 (ret a).
Proof. apply posts_none. intros st. split; reflexivity. Qed.

Lemma posts_lift {A} (r : result A) : posts 0 (lift r).
Proof. apply posts_none. intros st. split; reflexivity. Qed.

Lemma posts_now_ms : posts 0 now_ms.
Proof. apply posts_none. intros st. split; reflexivity. Qed.

Lemma posts_uuid4 : posts 0 uuid4.
Proof. apply posts_none. intros st. split; reflexivity. Qed.

Lemma posts_send (event_type : string) (payload : gmap string value) :
  In event_type event_types -> posts 1 (_send event_type (VDict payload)).
Proof.
  intros Hin st. split; [apply send_self |].
  exists [request_of (self st) event_type (VDict payload)].
  rewrite send_posted. repeat split.
  - cbn. lia.
  - constructor; [| constructor]. now exists event_type, payload.
Qed.

Lemma posts_bind {A B} (n k : nat) (m : M A) (f : A -> M B) :
  posts n m -> (forall a, posts k (f a)) -> posts (n + k) (bind m f).
Proof.
  intros Hm Hf st. unfold bind.
  destruct (Hm st) as (Hself & new & Hposted & Hlen & Hall).
  destruct (m st) as [[a | e] st1]; cbn [fst snd] in *.
  - destruct (Hf a st1) as (Hself' & new' & Hposted' & Hlen' & Hall').
    split; [congruence |].
    exists (new' ++ new)%list. rewrite Hposted', Hposted, Hself in *.
    repeat split.
    + now rewrite <- List.app_assoc.
    + rewrite List.length_app. lia.
    + apply Forall_app. split; assumption.
  - split; [exact Hself |]. exists new. repeat split; [assumption | lia | assumption].
Qed.

Lemma posts_le {A} (n k : nat) (m : M A) : (n <= k)%nat -> posts n m -> posts k m.
Proof.
  intros Hle Hm st. destruct (Hm st) as (Hself & new & Hposted & Hlen & Hall).
  split; [exact Hself |]. exists new. repeat split; [assumption | lia | assumption].
Qed.

Lemma posts_session_id_or_generate sid : posts 0 (session_id_or_generate sid).
Proof.
  destruct sid as [[| c s] |]; cbn [session_id_or_generate];
    first [apply posts_ret | apply posts_uuid4].
Qed.

Section Lifetime.
Variable bracketed_host_ok : string -> bool.
Variable nfkc_netloc_ok : string -> bool.

Lemma posts_perform (c : call) :
  posts 1 (perform bracketed_host_ok nfkc_netloc_ok c).
Proof.
  destruct c; cbn [perform].
  - apply (posts_le 0); [lia | apply posts_ret].
  - apply (posts_le 0); [lia |]. apply (posts_bind 0 0); [apply posts_uuid4 |].
    intros _. apply posts_ret.
  - unfold start_session.
    apply (posts_bind 1 0); [| intros _; apply posts_ret].
    apply (posts_bind 0 1); [apply posts_session_id_or_generate |]. intros sid.
    apply (posts_bind 0 1); [apply posts_now_ms |]. intros ts. cbv zeta.
    apply (posts_bind 1 0); [apply posts_send; cbn [event_types In]; auto 10 |]. intros _. apply posts_ret.
  - unfold track_page_view.
    apply (posts_bind 1 0); [| intros _; apply posts_ret].
    apply (posts_bind 0 1); [apply posts_lift |]. intros parsed.
    apply (posts_bind 0 1); [apply posts_now_ms |]. intros ts. cbv zeta.
    apply posts_send; cbn [event_types In]; auto 10.
  - unfold track_event.
    apply (posts_bind 1 0); [| intros _; apply posts_ret].
    apply (posts_bind 0 1); [apply posts_now_ms |]. intros ts. cbv zeta.
    apply posts_send; cbn [event_types In]; auto 10.
  - unfold track_form_submission.
    apply (posts_bind 1 0); [| intros _; apply posts_ret].
    apply (posts_bind 0 1); [apply posts_now_ms |]. intros ts. cbv zeta.
    apply posts_send; cbn [event_types In]; auto 10.
  - unfold identify.
    apply (posts_bind 1 0); [| intros _; apply posts_ret].
    apply (posts_bind 0 1); [apply posts_now_ms |]. intros ts. cbv zeta.
    apply posts_send; cbn [event_types In]; auto 10.
  - unfold end_session.
    apply (posts_bind 1 0); [| intros _; apply posts_ret].
    apply (posts_bind 0 1); [apply posts_now_ms |]. intros ts. cbv zeta.
    apply posts_send; cbn [event_types In]; auto 10.
Qed.

Lemma perform_all_tracked (cs : list call) (st : State) :
  exists new,
    posted (world (perform_all bracketed_host_ok nfkc_netloc_ok cs st))
    = (new ++ posted (world st))%list
    /\ (List.length new <= List.length cs)%nat
    /\ Forall (tracked (self st)) new.
Proof.
  revert st. induction cs as [| c cs IH]; intros st; cbn [perform_all].
  - exists []. repeat split; constructor.
  - destruct (posts_perform c st) as (Hself & new1 & Hposted1 & Hlen1 & Hall1).
    destruct (IH (snd (perform bracketed_host_ok nfkc_netloc_ok c st)))
      as (new2 & Hposted2 & Hlen2 & Hall2).
    exists (new2 ++ new1)%list. rewrite Hposted2, Hposted1, Hself in *.
    repeat split.
    + now rewrite <- List.app_assoc.
    + rewrite List.length_app. cbn [List.length]. lia.
    + apply Forall_app. split; assumption.
Qed.

(** Over any sequence of public calls, the tracker only adds requests in
    front of those posted before, at most one per call, and each of them is
    addressed to its endpoint with its timeout and carries its key, one of
    the six event types and a dict as payload. Nothing posted earlier is
    changed or dropped. *)
Theorem tracker_posts_only_its_envelopes (cs : list call) (st : State) :
  exists new,
    posted (world (perform_all bracketed_host_ok nfkc_netloc_ok cs st))
    = (new ++ posted (world st))%list
    /\ (List.length new <= List.length cs)%nat
    /\ Forall (tracked (self st)) new
    /\ Forall (fun r => req_url r = endpoint (self st)
                        /\ req_timeout r = timeout (self st)
                        /\ get "apiKey" (req_json r) = Some (VStr (api_key (self st))))
         new.
Proof.
  destruct (perform_all_tracked cs st) as (new & Hposted & Hlen & Hall).
  exists new. repeat split; try assumption.
  eapply Forall_impl; [exact Hall |].
  intros r (ty & payload & _ & ->). repeat split.
Qed.

(** The trackers of the hooks. The Django middleware posts to the endpoint
    of the settings, or to the default one, with the key of the settings,
    or an empty key; [init_app] posts to its [endpoint] argument, or when
    that is missing or empty to the endpoint of [app.config], or to the
    default one. Neither takes a timeout: every request they post, over
    any sequence of calls, has a timeout of five seconds. *)
Theorem hook_trackers_post_with_default_timeout (cs : list call) (w : World) :
  (forall settings,
     let t := DjangoTrackerMiddleware.__init__ settings in
     exists new,
       posted (world (perform_all bracketed_host_ok nfkc_netloc_ok cs (mkState t w)))
       = (new ++ posted w)%list
       /\ Forall (fun r =>
                    req_timeout r = 5%Z
                    /\ req_url r
                       = default "http://localhost:4000/api/v1/tracking/collect"
                           (DjangoTrackerMiddleware.CRM360_ENDPOINT settings)
                    /\ get "apiKey" (req_json r)
                       = Some (VStr (default ""
                                       (DjangoTrackerMiddleware.CRM360_API_KEY settings))))
            new)
  /\ (forall app_config app_debug key endpoint,
        let t := FlaskTracker.init_app app_config app_debug key endpoint in
        exists new,
          posted (world (perform_all bracketed_host_ok nfkc_netloc_ok cs (mkState t w)))
          = (new ++ posted w)%list
          /\ Forall (fun r =>
                       req_timeout r = 5%Z
                       /\ req_url r
                          = match endpoint with
                            | Some (String c e) => String c e
                            | _ => default "http://localhost:4000/api/v1/tracking/collect"
                                     (app_config !! "CRM360_ENDPOINT")
                            end
                       /\ get "apiKey" (req_json r) = Some (VStr key))
               new).
Proof.
  split.
  - intros settings t.
    destruct (perform_all_tracked cs (mkState t w)) as (new & Hposted & _ & Hall).
    exists new. split; [exact Hposted |].
    eapply Forall_impl; [exact Hall |].
    intros r (ty & payload & _ & ->). repeat split.
  - intros app_config app_debug key endpoint t.
    destruct (perform_all_tracked cs (mkState t w)) as (new & Hposted & _ & Hall).
    exists new. split; [exact Hposted |].
    eapply Forall_impl; [exact Hall |].
    intros r (ty & payload & _ & ->). repeat split.
    now destruct endpoint as [[| c e] |].
Qed.
End Lifetime.

(** ** Masking *)

Lemma mask_fields_insert_sensitive (key : string) (v v' : value)
    (fields : gmap string value) :
  is_sensitive key = true ->
  mask_fields (Some (<[ key := v ]> fields)) = mask_fields (Some (<[ key := v' ]> fields)).
Proof.
  intros Hkey. apply map_eq. intros k. rewrite !mask_fields_lookup.
  destruct (decide (key = k)) as [<- | Hne].
  - rewrite !lookup_insert_eq. cbn [fmap option_fmap option_map]. now rewrite Hkey.
  - now rewrite !lookup_insert_ne by exact Hne.
Qed.

(** The value of a sensitive field never leaves the process: a form
    submission runs the same, request for request, whatever value the
    fields hold under a key that matches the denylist. *)
Theorem sensitive_value_is_not_sent
    (visitor_id : string) (session_id : option string)
    (form_id : string) (form_action : option string)
    (key : string) (v v' : value) (fields : gmap string value) (st : State)
    (Hkey : matches_denylist key) :
  track_form_submission visitor_id session_id form_id form_action
    (Some (<[ key := v ]> fields)) st
  = track_form_submission visitor_id session_id form_id form_action
      (Some (<[ key := v' ]> fields)) st.
Proof.
  apply is_sensitive_iff in Hkey.
  unfold track_form_submission.
  now rewrite (mask_fields_insert_sensitive key v v' fields Hkey).
Qed.

Lemma sensitive_value_is_not_sent_witness :
  track_form_submission "visitor-123" (Some "session-456") "signup" None
    (Some (<[ "Password" := VStr "abc" ]> {[ "email" := VStr "a@b.com" ]})) example_state
  = track_form_submission "visitor-123" (Some "session-456") "signup" None
      (Some (<[ "Password" := VStr "xyz" ]> {[ "email" := VStr "a@b.com" ]})) example_state.
Proof.
  apply sensitive_value_is_not_sent.
  exists "password". split; [cbn; auto |].
  exists [], [80; 97; 115; 115; 119; 111; 114; 100]%Z, [].
  split; [vm_compute; reflexivity | same_letters].
Defined.

(** Masking is by key alone and on the top level alone. Masking a masked
    map changes nothing; a dict nested under a key that does not match is
    sent as it is, whatever keys it has itself; and a key that matches is
    masked also when its value is a dict or a null. *)
Theorem masking_is_by_top_level_key (fields : gmap string value) :
  mask_fields (Some (mask_fields (Some fields))) = mask_fields (Some fields)
  /\ (forall key inner,
        fields !! key = Some (VDict inner) -> is_sensitive key = false ->
        mask_fields (Some fields) !! key = Some (VDict inner))
  /\ (forall key v,
        fields !! key = Some v -> is_sensitive key = true ->
        mask_fields (Some fields) !! key = Some (VStr "***"))
  /\ mask_fields (Some {[ "profile" := VDict {[ "password" := VStr "abc" ]} ]})
     = {[ "profile" := VDict {[ "password" := VStr "abc" ]} ]}.
Proof.
  repeat apply conj.
  - apply map_eq. intros k. rewrite !mask_fields_lookup.
    destruct (fields !! k) as [v |]; cbn [fmap option_fmap option_map]; [| reflexivity].
    now destruct (is_sensitive k).
  - intros key inner Hkey Hs. now rewrite mask_fields_lookup, Hkey, Hs.
  - intros key v Hkey Hs. now rewrite mask_fields_lookup, Hkey, Hs.
  - vm_compute. reflexivity.
Qed.

(** ** The path of a page view *)

(** Every character of [sub] is a character of [s]. *)
Lemma has_char_substring (c : ascii) (n m : nat) (s : string) :
  PyStr.has_char c (String.substring n m s) = true -> PyStr.has_char c s = true.
Proof.
  revert n m. induction s as [| a s IH]; intros n m.
  - destruct n, m; cbn; congruence.
  - destruct n as [| n]; [destruct m as [| m] |]; cbn [String.substring PyStr.has_char].
    + discriminate.
    + rewrite !orb_true_iff. intros [H | H]; [now left | right; eauto].
    + intros H. rewrite orb_true_iff. right. eauto.
Qed.

Lemma has_char_drop (c : ascii) (n : nat) (s : string) :
  PyStr.has_char c (PyStr.drop n s) = true -> PyStr.has_char c s = true.
Proof.
  revert n. induction s as [| a s IH]; intros [| n]; cbn [PyStr.drop PyStr.has_char];
    try congruence.
  intros H. rewrite orb_true_iff. right. eauto.
Qed.

Lemma has_char_lstrip (c : ascii) (p : ascii -> bool) (s : string) :
  PyStr.has_char c (PyStr.lstrip p s) = true -> PyStr.has_char c s = true.
Proof.
  induction s as [| a s IH]; cbn [PyStr.lstrip]; [congruence |].
  destruct (p a); [| congruence].
  intros H. cbn [PyStr.has_char]. rewrite orb_true_iff. right. auto.
Qed.

Lemma has_char_remove_chars (c : ascii) (p : ascii -> bool) (s : string) :
  PyStr.has_char c (PyStr.remove_chars p s) = true -> PyStr.has_char c s = true.
Proof.
  induction s as [| a s IH]; cbn [PyStr.remove_chars PyStr.has_char]; [congruence |].
  destruct (p a); cbn [PyStr.has_char]; rewrite ?orb_true_iff; intuition.
Qed.

Lemma has_char_take_find (c : ascii) (s : string) (i : nat) :
  PyStr.find_char c s = Some i -> PyStr.has_char c (PyStr.take i s) = false.
Proof.
  unfold PyStr.take. revert i. induction s as [| a s IH]; intros i; cbn [PyStr.find_char].
  - discriminate.
  - destruct (Ascii.eqb c a) eqn:Hca.
    + intros [= <-]. reflexivity.
    + destruct (PyStr.find_char c s) as [j |]; [| discriminate].
      intros [= <-]. cbn [String.substring PyStr.has_char]. rewrite Hca. cbn. auto.
Qed.

Lemma all_chars_within (p : ascii -> bool) (sub s : string) :
  (forall c, PyStr.has_char c sub = true -> PyStr.has_char c s = true) ->
  PyStr.all_chars p s = true -> PyStr.all_chars p sub = true.
Proof.
  assert (Hall : forall s, PyStr.all_chars p s = true <->
                           forall c, PyStr.has_char c s = true -> p c = true).
  { clear. induction s as [| a s IH]; cbn [PyStr.all_chars PyStr.has_char].
    - split; [discriminate | reflexivity].
    - rewrite andb_true_iff, IH. split.
      + intros [Ha Hs] c. rewrite orb_true_iff, Ascii.eqb_eq. intros [-> | H]; auto.
      + intros H. split.
        * apply H. now rewrite Ascii.eqb_refl.
        * intros c Hc. apply H. rewrite Hc. apply orb_true_r. }
  intros Hwithin Hs. apply Hall. intros c Hc. apply (proj1 (Hall s) Hs). auto.
Qed.

(** Cutting [s] at its first [c], as [urlsplit] does for [#] and [?]. *)
Lemma split_at_first (c : ascii) (s : string) :
  let before := fst (if PyStr.has_char c s then UrlParse.split1 c s else (s, "")) in
  PyStr.has_char c before = false
  /\ forall d, PyStr.has_char d before = true -> PyStr.has_char d s = true.
Proof.
  cbv zeta. destruct (PyStr.has_char c s) eqn:Hc; cbn [fst]; [| auto].
  unfold UrlParse.split1, UrlParse.partition.
  destruct (PyStr.find_char c s) as [i |] eqn:Hfind; cbn [fst].
  - split; [now apply has_char_take_find |].
    intros d. apply has_char_substring.
  - split; [| auto].
    exfalso. clear - Hc Hfind. induction s as [| a s IH]; cbn in *; [discriminate |].
    destruct (Ascii.eqb c a); [discriminate |].
    destruct (PyStr.find_char c s); [discriminate |]. auto.
Qed.

Section UrlParts.
Variable bh : string -> bool.
Variable nf : string -> bool.

Lemma urlsplit_parts url sp :
  UrlParse.urlsplit bh nf url = Ok sp ->
  chars_within (UrlParse.s_netloc sp) url
  /\ chars_within (UrlParse.s_path sp) url
  /\ PyStr.has_char "#" (UrlParse.s_path sp) = false
  /\ PyStr.has_char "?" (UrlParse.s_path sp) = false.
Proof.
  unfold UrlParse.urlsplit. intros H.
  set (url0 := PyStr.remove_chars _ _) in H.
  assert (H0 : chars_within url0 url).
  { intros c Hc. eapply has_char_lstrip, has_char_remove_chars, Hc. }
  clearbody url0.
  destruct (match PyStr.find_char ":" url0 with Some (S _) => _ | _ => _ end)
    as [scheme url1] eqn:Hscheme.
  assert (H1 : chars_within url1 url0).
  { destruct (PyStr.find_char ":" url0) as [[| i] |]; try (injection Hscheme as _ <-; now intros c).
    destruct url0 as [| c0 rest]; [injection Hscheme as _ <-; now intros c |].
    destruct (_ && _); injection Hscheme as _ <-; [| now intros c].
    intros c. apply (has_char_drop c (S (S i)) (String c0 rest)). }
  clear Hscheme.
  destruct (if String.eqb (PyStr.take 2 url1) "//" then _ else _)
    as [[netloc url2] checked] eqn:Hnetloc.
  assert (H2 : chars_within netloc url1 /\ chars_within url2 url1).
  { destruct (String.eqb (PyStr.take 2 url1) "//").
    - unfold UrlParse._splitnetloc in Hnetloc. injection Hnetloc as <- <- _.
      split; intros c; [apply has_char_substring | apply has_char_drop].
    - injection Hnetloc as <- <- _. split; intros c; [discriminate | auto]. }
  clear Hnetloc. destruct H2 as [Hn H2].
  destruct checked as [[] | e]; [| discriminate H].
  pose proof (split_at_first "#" url2) as [Hhash Hw3]. cbv zeta in Hhash, Hw3.
  destruct (if PyStr.has_char "#" url2 then _ else _) as [url3 fragment].
  cbn [fst] in Hhash, Hw3.
  pose proof (split_at_first "?" url3) as [Hquery Hw4]. cbv zeta in Hquery, Hw4.
  destruct (if PyStr.has_char "?" url3 then _ else _) as [url4 query].
  cbn [fst] in Hquery, Hw4.
  destruct (UrlParse._checknetloc nf netloc); [| discriminate H].
  injection H as <-. cbn.
  unfold chars_within in *. split; [| split; [| split]].
  - intros c Hc. auto 10.
  - intros c Hc. auto 10.
  - destruct (PyStr.has_char "#" url4) eqn:E; [| reflexivity].
    apply Hw4 in E. congruence.
  - exact Hquery.
Qed.

Lemma splitparams_within (path : string) (c : ascii) :
  PyStr.has_char c (fst (UrlParse._splitparams path)) = true ->
  PyStr.has_char c path = true.
Proof.
  unfold UrlParse._splitparams.
  destruct (PyStr.has_char "/" path).
  - destruct (UrlParse.find_from _ _ _); cbn [fst]; [apply has_char_substring | auto].
  - destruct (PyStr.find_char _ _); cbn [fst]; apply has_char_substring.
Qed.

Lemma urlparse_parts url parsed :
  UrlParse.urlparse bh nf url = Ok parsed ->
  chars_within (UrlParse.path parsed) url
  /\ PyStr.has_char "#" (UrlParse.path parsed) = false
  /\ PyStr.has_char "?" (UrlParse.path parsed) = false.
Proof.
  unfold UrlParse.urlparse.
  destruct (UrlParse.urlsplit bh nf url) as [sp | e] eqn:Hsplit; [| discriminate].
  apply urlsplit_parts in Hsplit as (_ & Hwithin & Hhash & Hquery).
  assert (Hpath : chars_within (fst (if existsb (String.eqb (UrlParse.s_scheme sp)) UrlParse.uses_params
                                  && PyStr.has_char ";" (UrlParse.s_path sp)
                               then UrlParse._splitparams (UrlParse.s_path sp)
                               else (UrlParse.s_path sp, ""))) (UrlParse.s_path sp)).
  { destruct (_ && _); cbn [fst]; intros c; [apply splitparams_within | auto]. }
  destruct (if _ && _ then _ else _) as [path params]. cbn [fst] in Hpath.
  intros [= <-]. cbn [UrlParse.path]. unfold chars_within in *.
  split; [auto |]. split.
  - destruct (PyStr.has_char "#" path) eqn:E; [| reflexivity]. apply Hpath in E. congruence.
  - destruct (PyStr.has_char "?" path) eqn:E; [| reflexivity]. apply Hpath in E. congruence.
Qed.

Lemma check_netloc_brackets_plain netloc :
  PyStr.has_char "[" netloc = false -> PyStr.has_char "]" netloc = false ->
  UrlParse.check_netloc_brackets bh netloc = Ok tt.
Proof. unfold UrlParse.check_netloc_brackets. now intros -> ->. Qed.

Lemma checknetloc_ascii netloc :
  PyStr.all_chars PyStr.is_ascii netloc = true -> UrlParse._checknetloc nf netloc = Ok tt.
Proof. unfold UrlParse._checknetloc. intros ->. now rewrite orb_true_r. Qed.

Lemma urlsplit_plain url :
  PyStr.has_char "[" url = false -> PyStr.has_char "]" url = false ->
  PyStr.all_chars PyStr.is_ascii url = true ->
  exists sp, UrlParse.urlsplit bh nf url = Ok sp.
Proof.
  intros Hopen Hclose Hascii.
  assert (Hplain : forall netloc, chars_within netloc url ->
            UrlParse.check_netloc_brackets bh netloc = Ok tt
            /\ UrlParse._checknetloc nf netloc = Ok tt).
  { intros netloc Hw. split.
    - apply check_netloc_brackets_plain.
      + destruct (PyStr.has_char "[" netloc) eqn:E; [| reflexivity]. apply Hw in E. congruence.
      + destruct (PyStr.has_char "]" netloc) eqn:E; [| reflexivity]. apply Hw in E. congruence.
    - apply checknetloc_ascii. now apply (all_chars_within _ netloc url). }
  unfold UrlParse.urlsplit.
  set (url0 := PyStr.remove_chars _ _).
  assert (H0 : chars_within url0 url).
  { intros c Hc. eapply has_char_lstrip, has_char_remove_chars, Hc. }
  clearbody url0.
  destruct (match PyStr.find_char ":" url0 with Some (S _) => _ | _ => _ end)
    as [scheme url1] eqn:Hscheme.
  assert (H1 : chars_within url1 url0).
  { destruct (PyStr.find_char ":" url0) as [[| i] |]; try (injection Hscheme as _ <-; now intros c).
    destruct url0 as [| c0 rest]; [injection Hscheme as _ <-; now intros c |].
    destruct (_ && _); injection Hscheme as _ <-; [| now intros c].
    intros c. apply (has_char_drop c (S (S i)) (String c0 rest)). }
  clear Hscheme.
  assert (Hnetloc : exists netloc url2,
            (if String.eqb (PyStr.take 2 url1) "//"
             then let '(netloc, rest) := UrlParse._splitnetloc url1 2 in
                  (netloc, rest, UrlParse.check_netloc_brackets bh netloc)
             else ("", url1, Ok tt)) = (netloc, url2, Ok tt)
            /\ UrlParse._checknetloc nf netloc = Ok tt).
  { destruct (String.eqb (PyStr.take 2 url1) "//").
    - unfold UrlParse._splitnetloc. cbv zeta.
      match goal with |- context [UrlParse.check_netloc_brackets bh ?n] =>
        destruct (Hplain n) as [-> Hcheck] end.
      { intros c Hc. apply H0, H1. eapply has_char_substring, Hc. }
      eauto.
    - exists "", url1. split; reflexivity. }
  destruct Hnetloc as (netloc & url2 & -> & Hcheck).
  destruct (if PyStr.has_char "#" url2 then _ else _) as [url3 fragment].
  destruct (if PyStr.has_char "?" url3 then _ else _) as [url4 query].
  rewrite Hcheck. eauto.
Qed.

Lemma urlparse_plain url :
  PyStr.has_char "[" url = false -> PyStr.has_char "]" url = false ->
  PyStr.all_chars PyStr.is_ascii url = true ->
  exists parsed, UrlParse.urlparse bh nf url = Ok parsed.
Proof.
  intros Hopen Hclose Hascii. unfold UrlParse.urlparse.
  destruct (urlsplit_plain url Hopen Hclose Hascii) as [sp ->].
  destruct (if _ && _ then _ else _) as [path params]. eauto.
Qed.
End UrlParts.

Lemma page_view_posted bh nf vid sid url title ref lt parsed st :
  UrlParse.urlparse bh nf url = Ok parsed ->
  let run := track_page_view bh nf vid sid url title ref lt st in
  fst run = Ok (ack st)
  /\ requests_added st (snd run) = 1%nat
  /\ envelope_field "type" (snd run) = Some (VStr "page.view")
  /\ data_field "url" (snd run) = Some (VStr url)
  /\ data_field "path" (snd run) = Some (VStr (PyStr.or_else (UrlParse.path parsed) "/"))
  /\ data_field "visitorId" (snd run) = Some (VStr vid)
  /\ data_field "sessionId" (snd run) = Some (of_opt_str sid)
  /\ self (snd run) = self st
  /\ uuids (world (snd run)) = uuids (world st).
Proof.
  intros Hparse. cbv zeta. unfold track_page_view, requests_added.
  rewrite bind_lift, Hparse, bind_now_ms. cbv zeta.
  lazymatch goal with
  | |- context [ _send ?ty ?data ?st ] =>
      pose proof (send_posted ty data st) as Hposted;
      pose proof (send_self ty data st) as Hself;
      pose proof (proj2 (send_clock ty data st)) as Huuids
  end.
  rewrite Hposted, Hself, Huuids.
  apply fields_of_posted in Hposted as (_ & Htype & _ & Hfield).
  rewrite !Hfield. repeat apply conj.
  - apply send_ack.
  - cbn [List.length tick world posted]. lia.
  - exact Htype.
  - reflexivity.
  - reflexivity.
  - reflexivity.
  - reflexivity.
  - reflexivity.
  - reflexivity.
Qed.

(** The path of a page view never carries the query string or the
    fragment. For a url that [urlparse] accepts, the [path] sent is not
    empty, has no [?] and no [#], and is either ["/"] or made of characters
    of the url. *)
Theorem page_view_path_has_no_query
    (bracketed_host_ok nfkc_netloc_ok : string -> bool)
    (visitor_id : string) (session_id : option string) (url : string)
    (title referrer : option string) (load_time : option Z) (st : State)
    (parsed : UrlParse.ParseResult)
    (Hparse : UrlParse.urlparse bracketed_host_ok nfkc_netloc_ok url = Ok parsed) :
  exists path,
    data_field "path"
      (snd (track_page_view bracketed_host_ok nfkc_netloc_ok visitor_id session_id url
              title referrer load_time st))
    = Some (VStr path)
    /\ path <> ""
    /\ PyStr.has_char "?" path = false
    /\ PyStr.has_char "#" path = false
    /\ (path = "/" \/ chars_within path url).
Proof.
  destruct (page_view_posted _ _ visitor_id session_id _ title referrer load_time _ st Hparse)
    as (_ & _ & _ & _ & Hpath & _).
  destruct (urlparse_parts _ _ _ _ Hparse) as (Hwithin & Hhash & Hquery).
  exists (PyStr.or_else (UrlParse.path parsed) "/"). split; [exact Hpath |].
  destruct (UrlParse.path parsed) as [| c p]; cbn [PyStr.or_else].
  - repeat split; [discriminate | now left].
  - repeat split; [discriminate | assumption | assumption | now right].
Qed.

Lemma page_view_path_has_no_query_witness :
  exists path,
    data_field "path"
      (snd (track_page_view (fun _ => true) (fun _ => true) "visitor-123"
              (Some "session-456") "https://example.com/products;v=2?x=1#top"
              None None None example_state))
    = Some (VStr path)
    /\ path <> ""
    /\ PyStr.has_char "?" path = false
    /\ PyStr.has_char "#" path = false
    /\ (path = "/" \/ chars_within path "https://example.com/products;v=2?x=1#top").
Proof.
  apply (page_view_path_has_no_query _ _ _ _ _ _ _ _ _
           (UrlParse.mkParse "https" "example.com" "/products" "v=2" "x=1" "top")).
  vm_compute. reflexivity.
Defined.



(** ** The Django middleware *)

Lemma bind_run {A B} (m : M A) (k : A -> M B) (a : A) st :
  fst (m st) = Ok a -> bind m k st = k a (snd (m st)).
Proof.
  unfold bind. destruct (m st) as [[a' | e] st']; cbn; [| discriminate].
  now intros [= ->].
Qed.

Lemma bind_raise {A B} (m : M A) (k : A -> M B) (e : exn) st :
  fst (m st) = Raise e -> bind m k st = (Raise e, snd (m st)).
Proof.
  unfold bind. destruct (m st) as [[a' | e'] st']; cbn; [discriminate |].
  now intros [= ->].
Qed.

Lemma is_falsy_Some (s : string) : s <> "" -> is_falsy (Some s) = false.
Proof. destruct s; [contradiction | reflexivity]. Qed.

Lemma visitor_id_not_empty (user_agent ip_address : string) :
  generate_visitor_id user_agent ip_address <> "".
Proof.
  rewrite visitor_id_words. cbv zeta. rewrite hex8_nibbles. discriminate.
Qed.

Lemma start_session_run visitor_id sid ua ip ref entry u1 u2 u3 u4 u5 st :
  sid <> "" ->
  start_session visitor_id (Some sid) ua ip ref entry u1 u2 u3 u4 u5 st
  = (Ok (VDict {[ "session_id" := VStr sid; "visitor_id" := VStr visitor_id ]}),
     snd (_send "session.start"
            (VDict {[ "visitorId" := VStr visitor_id;
                      "sessionId" := VStr sid;
                      "timestamp" := VInt (stamp st);
                      "referrer" := of_opt_str ref;
                      "entryPage" := of_opt_str entry;
                      "device" := VDict {[ "userAgent" := of_opt_str ua ]};
                      "utm" := VDict {[ "utmSource" := of_opt_str u1;
                                        "utmMedium" := of_opt_str u2;
                                        "utmCampaign" := of_opt_str u3;
                                        "utmTerm" := of_opt_str u4;
                                        "utmContent" := of_opt_str u5 ]} ]})
            (tick st))).
Proof.
  intros Hsid. destruct sid as [| c s]; [contradiction |].
  unfold start_session, session_id_or_generate.
  rewrite bind_ret, bind_now_ms. cbv zeta. now rewrite bind_send_ret.
Qed.

Lemma bind_assoc {A B C} (m : M A) (f : A -> M B) (k : B -> M C) st :
  bind (bind m f) k st = bind m (fun a => bind (f a) k) st.
Proof. unfold bind. now destruct (m st) as [[a | e] st']. Qed.

Lemma bind_Ok_inv {A B} (m : M A) (k : A -> M B) st b st' :
  bind m k st = (Ok b, st') ->
  exists a st1, m st = (Ok a, st1) /\ k a st1 = (Ok b, st').
Proof.
  unfold bind. destruct (m st) as [[a | e] st1]; [eauto | discriminate].
Qed.

Lemma is_falsy_false (o : option string) :
  is_falsy o = false -> exists s, o = Some s /\ s <> "" /\ default "" o = s.
Proof.
  destruct o as [[| c s] |]; try discriminate. intros _. now exists (String c s).
Qed.

Section Django.
Import DjangoTrackerMiddleware.
Variable bracketed_host_ok : string -> bool.
Variable nfkc_netloc_ok : string -> bool.
Variable get_response : HttpRequest -> M HttpResponse.

Lemma django_call_with_cookies
    (request : HttpRequest) (st : State)
    (visitor_id session_id : string) (parsed : UrlParse.ParseResult)
    (Hvid : COOKIES request !! "crm360_vid" = Some visitor_id)
    (Hvid_not_empty : visitor_id <> "")
    (Hsid : COOKIES request !! "crm360_sid" = Some session_id)
    (Hsid_not_empty : session_id <> "")
    (Hparse : UrlParse.urlparse bracketed_host_ok nfkc_netloc_ok
                (build_absolute_uri request) = Ok parsed) :
  exists tracked_state,
    self tracked_state = self st
    /\ uuids (world tracked_state) = uuids (world st)
    /\ requests_added st tracked_state = 1%nat
    /\ envelope_field "type" tracked_state = Some (VStr "page.view")
    /\ data_field "visitorId" tracked_state = Some (VStr visitor_id)
    /\ data_field "sessionId" tracked_state = Some (VStr session_id)
    /\ data_field "url" tracked_state = Some (VStr (build_absolute_uri request))
    /\ __call__ bracketed_host_ok nfkc_netloc_ok get_response request st
       = match get_response
                 (mkHttpRequest (COOKIES request) (META request) (GET request)
                    (build_absolute_uri request) (Some visitor_id) (Some session_id))
                 tracked_state with
         | (Ok response, st') =>
             (Ok (set_cookie "crm360_sid" session_id 1800
                    (set_cookie "crm360_vid" visitor_id 31536000 response)), st')
         | (Raise e, st') => (Raise e, st')
         end.
Proof.
  set (view := track_page_view bracketed_host_ok nfkc_netloc_ok visitor_id
                 (Some session_id) (build_absolute_uri request) None
                 (META request !! "HTTP_REFERER") None).
  exists (snd (view st)).
  destruct (page_view_posted _ _ visitor_id (Some session_id) _ None
              (META request !! "HTTP_REFERER") None _ st Hparse)
    as (Hfst & Hadded & Htype & Hurl & _ & Hvisitor & Hsession & Hself & Huuids).
  fold view in Hfst, Hadded, Htype, Hurl, Hvisitor, Hsession, Hself, Huuids.
  repeat apply conj; try assumption.
  unfold __call__. rewrite Hvid, Hsid, !is_falsy_Some by assumption.
    cbn [default]. rewrite !bind_ret. fold view.
    rewrite (bind_run view _ _ st Hfst).
    unfold bind, ret.
    now destruct (get_response _ (snd (view st))) as [[response | e] st'].
Qed.





Lemma django_call_inv (request : HttpRequest) (st st' : State) (response : HttpResponse) :
  uuids (world st) O <> "" ->
  __call__ bracketed_host_ok nfkc_netloc_ok get_response request st = (Ok response, st') ->
  exists visitor_id session_id response0,
    visitor_id <> "" /\ session_id <> ""
    /\ response = set_cookie "crm360_sid" session_id 1800
                    (set_cookie "crm360_vid" visitor_id 31536000 response0).
Proof.
  intros Huuid. unfold __call__.
  set (visitor_id := if is_falsy (COOKIES request !! "crm360_vid") then _ else _).
  assert (Hvid : visitor_id <> "").
  { subst visitor_id. destruct (is_falsy (COOKIES request !! "crm360_vid")) eqn:E.
    - apply visitor_id_not_empty.
    - apply is_falsy_false in E as (v & _ & Hv & ->). exact Hv. }
  clearbody visitor_id.
  intros H. apply bind_Ok_inv in H as ([session_id is_new] & st1 & Hnew & H).
  assert (Hsid : session_id <> "").
  { destruct (is_falsy (COOKIES request !! "crm360_sid")) eqn:E.
    - unfold generate_session_id in Hnew. rewrite bind_uuid4 in Hnew.
      injection Hnew as <- _ _. exact Huuid.
    - injection Hnew as <- _ _. apply is_falsy_false in E as (v & _ & Hv & ->). exact Hv. }
  clear Hnew.
  apply bind_Ok_inv in H as (_ & st2 & _ & H).
  apply bind_Ok_inv in H as (_ & st3 & _ & H).
  apply bind_Ok_inv in H as (response0 & st4 & _ & H).
  injection H as <- _. eauto 10.
Qed.

End Django.

(** ** The Flask hooks *)

Section Flask.
Import FlaskTracker.

(** A request that carries both cookies leaves everything as it is:
    [before_request] sends nothing, draws no uuid and reads no clock; it
    only writes the two ids of the cookies to [g]. *)
Theorem flask_before_request_with_cookies
    (request : FlaskRequest) (g : G) (st : State) (visitor_id session_id : string)
    (Hvid : request_cookies request !! "crm360_vid" = Some visitor_id)
    (Hvid_not_empty : visitor_id <> "")
    (Hsid : request_cookies request !! "crm360_sid" = Some session_id)
    (Hsid_not_empty : session_id <> "") :
  before_request request g st = (Ok (mkG (Some visitor_id) (Some session_id)), st).
Proof.
  unfold before_request. rewrite Hvid, Hsid, !is_falsy_Some by assumption.
  reflexivity.
Qed.


End Flask.

Section FlaskTrackPage.
Import FlaskTracker.
Variable bracketed_host_ok : string -> bool.
Variable nfkc_netloc_ok : string -> bool.
Context {A : Type}.
Variable f_name : string.
Variable f : M A.

End FlaskTrackPage.

(** ** The hooks on example requests *)





Lemma flask_before_request_with_cookies_witness :
  FlaskTracker.before_request
    (example_flask_request example_cookies "https://example.com/products")
    (FlaskTracker.mkG None None) example_state
  = (Ok (FlaskTracker.mkG (Some "visitor-123") (Some "session-456")), example_state).
Proof.
  apply flask_before_request_with_cookies;
    [reflexivity | discriminate | reflexivity | discriminate].
Defined.


Lemma builders_return_delivery_status_witness :
  (debug (self example_state) = false \/ never_fails reliable_console)
  /\ fst (end_session "visitor-123" (Some "session-456") None example_state) = Ok true.
Proof.
  split; [left; reflexivity |].
  apply (builders_return_delivery_status reliable_console example_state).
  left; reflexivity.
Defined.
